(** * Pharmacy inventory tracker: stock ledger, balance, alerts, dispensing

    A shallow embedding of the business logic of the Django application
    (inventory/models.py, inventory/forms.py, inventory/views.py and the
    management commands check_alerts and import_csv), with the database
    tables as lists of rows in storage (primary key) order and every
    handler as a function from the store to the store and an outcome.

    Conventions.
    - A [datetime.date] is the number of days since 1970-01-01, a timezone
      aware [datetime] the number of microseconds since that instant, both
      unbounded integers (Python raises OverflowError past year 9999; the
      bound is not modelled).
    - Python [int] is [Z].  A [str] is a [string] of bytes; whitespace is
      the ASCII whitespace of [str.strip] and [str.isspace].
    - Text fields that no modelled operation reads (generic name,
      manufacturer, strength, unit cost, supplier, storage condition, notes,
      created_at, updated_at) are left out of the rows. *)

From Stdlib Require Import ZArith List String Ascii Bool Lia DecimalString.
Import ListNotations.
Local Open Scope Z_scope.

(** ** The clock *)

Definition date := Z.
Definition datetime := Z.

Definition usec_per_day : Z := 86400000000.

(** [timedelta(days=n)] added to a [datetime]. *)
Definition timedelta_days (n : Z) : Z := n * usec_per_day.

(** [timezone.now().date()] for the instant [now]. *)
Definition date_of (now : datetime) : date := now / usec_per_day.

(** ** Python and ORM idioms *)

(** [x or 0] on the result of an aggregate: [None] and [0] are falsy. *)
Definition or_zero (x : option Z) : Z :=
  match x with
  | None => 0
  | Some v => if v =? 0 then 0 else v
  end.

(** SQL [SUM(column)]: NULL over no rows. *)
Definition Sum {A : Type} (column : A -> Z) (rows : list A) : option Z :=
  match rows with
  | [] => None
  | _ :: _ => Some (fold_left (fun acc r => acc + column r) rows 0)
  end.

(** [QuerySet.first()]. *)
Definition first {A : Type} (rows : list A) : option A :=
  match rows with
  | [] => None
  | r :: _ => Some r
  end.

(** ** inventory/models.py: MedicineInventory *)

Module MedicineInventory.

Record t : Type := mk {
  id : Z;
  date : Z;
  medicine_name : string;
  dosage_form : string;
  batch_no : string;
  expiry_date : Z;
  quantity_in : Z;
  quantity_out : Z;
  dispensed_to : string;
  created_by : option Z;
  prescribing_doctor : string;
  minimum_stock_level : Z
}.

(** [objects.filter(medicine_name=name, batch_no=batch)]; the lookup is
    exact string equality (SQLite, the configured engine). *)
Definition same_key (name batch : string) (r : t) : bool :=
  String.eqb (medicine_name r) name && String.eqb (batch_no r) batch.

Definition filter_key (name batch : string) (objects : list t) : list t :=
  filter (same_key name batch) objects.

(** [Meta.ordering = ['-date']]: rows by movement date, latest first.
    SQL leaves the order of rows with equal dates open; here they stay in
    storage order (a stable insertion sort). *)
Fixpoint insert_desc (r : t) (sorted : list t) : list t :=
  match sorted with
  | [] => [r]
  | s :: rest =>
      if date r <? date s then s :: insert_desc r rest
      else r :: s :: rest
  end.

Definition ordered (rows : list t) : list t :=
  fold_right (fun r acc => insert_desc r acc) [] rows.

(** [def balance(self)] *)
Definition balance (objects : list t) (self : t) : Z :=
  let total_in :=
    or_zero (Sum quantity_in
               (filter_key (medicine_name self) (batch_no self) objects)) in
  let total_out :=
    or_zero (Sum quantity_out
               (filter_key (medicine_name self) (batch_no self) objects)) in
  total_in - total_out.

(** [@property is_expired] *)
Definition is_expired (now : datetime) (self : t) : bool :=
  expiry_date self <=? date_of now.

(** [@property days_to_expiry]: [.days] of a difference of two dates. *)
Definition days_to_expiry (now : datetime) (self : t) : Z :=
  expiry_date self - date_of now.

(** [@property is_low_stock] *)
Definition is_low_stock (objects : list t) (self : t) : bool :=
  balance objects self <? minimum_stock_level self.

(** [def clean(self)]: [true] when no ValidationError is raised.  The
    guard [self.expiry_date and ...] is on a date, which is always
    truthy. *)
Definition clean (now : datetime) (self : t) : bool :=
  negb (expiry_date self <=? date_of now).

End MedicineInventory.

(** ** inventory/models.py: StockAlert *)

Module StockAlert.

(** The keys of [ALERT_TYPES]. *)
Inductive ALERT_TYPES : Type := low_stock | near_expiry | expired.

Definition alert_type_eqb (a b : ALERT_TYPES) : bool :=
  match a, b with
  | low_stock, low_stock | near_expiry, near_expiry | expired, expired => true
  | _, _ => false
  end.

(** The f-strings that fill [message], by their format and arguments. *)
Inductive text : Type :=
| has_expired_on (medicine_name batch_no : string) (expiry_date : Z)
| expires_in_days (medicine_name batch_no : string) (days_to_expiry : Z)
| low_stock_alert (medicine_name : string) (balance : Z)
| stock_is_running_low (medicine_name : string).

Record t : Type := mk {
  id : Z;
  medicine_name : string;
  alert_type : ALERT_TYPES;
  message : text;
  is_acknowledged : bool;
  created_at : datetime;
  acknowledged_by : option Z;
  acknowledged_at : option datetime
}.

Definition has_key (name : string) (kind : ALERT_TYPES) (a : t) : bool :=
  String.eqb (medicine_name a) name && alert_type_eqb (alert_type a) kind.

End StockAlert.

(** ** inventory/models.py: DispenseHistory

    [patient_name], [patient_id], [prescription_number] and [notes] are
    blank in every row the modelled handlers create. *)

Module DispenseHistory.

Record t : Type := mk {
  id : Z;
  date : datetime;
  medicine_name : string;
  dosage_form : string;
  batch_no : string;
  dispensed_to : string;
  quantity_out : Z;
  inventory_record : option Z;
  prescribing_doctor : string;
  dispensed_by : option Z
}.

End DispenseHistory.

(** ** The store

    One list per table, rows in primary key order, and the next value of
    each AUTOINCREMENT sequence.  Every statement commits on its own
    (the DATABASES setting has no ATOMIC_REQUESTS). *)

Record DB : Type := mkDB {
  inventory : list MedicineInventory.t;
  inventory_seq : Z;
  history : list DispenseHistory.t;
  history_seq : Z;
  alerts : list StockAlert.t;
  alerts_seq : Z
}.

Definition empty_db : DB := mkDB [] 1 [] 1 [] 1.

(** ** Exceptions and handlers

    A handler is a function of the store that returns a value or raises,
    together with the store as committed so far: what was written before an
    exception stays written. *)

Inductive exn : Type :=
| MultipleObjectsReturned
| Http404
| ValueError
| DatabaseError
| CommandError.

Inductive result (A : Type) : Type :=
| Ok (a : A)
| Raise (e : exn).
Arguments Ok {A} a.
Arguments Raise {A} e.

Definition M (A : Type) : Type := DB -> result A * DB.

Definition ret {A : Type} (a : A) : M A := fun db => (Ok a, db).

Definition raise {A : Type} (e : exn) : M A := fun db => (Raise e, db).

Definition bind {A B : Type} (m : M A) (k : A -> M B) : M B :=
  fun db =>
    match m db with
    | (Ok a, db') => k a db'
    | (Raise e, db') => (Raise e, db')
    end.

(** [try: body except Exception: handler] *)
Definition try_except {A : Type} (body : M A) (handler : exn -> M A) : M A :=
  fun db =>
    match body db with
    | (Ok a, db') => (Ok a, db')
    | (Raise e, db') => handler e db'
    end.

Notation "x <- m ;; k" := (bind m (fun x => k))
  (at level 61, m at next level, right associativity).
Notation "m ;;; k" := (bind m (fun _ => k))
  (at level 61, right associativity).

Definition get_db : M DB := fun db => (Ok db, db).

(** [for x in xs: body x] *)
Fixpoint for_each {A : Type} (xs : list A) (body : A -> M unit) : M unit :=
  match xs with
  | [] => ret tt
  | x :: rest => body x ;;; for_each rest body
  end.

(** [for x in xs: if body x: counter += 1], the counter threaded. *)
Fixpoint count_created {A : Type} (xs : list A) (body : A -> M bool)
    (counter : Z) : M Z :=
  match xs with
  | [] => ret counter
  | x :: rest =>
      created <- body x ;;
      count_created rest body (if created then counter + 1 else counter)
  end.

(** *** Inserts *)

(** [MedicineInventory.objects.create(...)] and [instance.save()] of a new
    row: the store assigns the primary key. *)
Definition insert_inventory (row : Z -> MedicineInventory.t)
  : M MedicineInventory.t :=
  fun db =>
    let r := row (inventory_seq db) in
    (Ok r, mkDB (inventory db ++ [r]) (inventory_seq db + 1)
               (history db) (history_seq db)
               (alerts db) (alerts_seq db)).

(** [DispenseHistory.objects.create(...)] *)
Definition insert_history (row : Z -> DispenseHistory.t)
  : M DispenseHistory.t :=
  fun db =>
    let r := row (history_seq db) in
    (Ok r, mkDB (inventory db) (inventory_seq db)
               (history db ++ [r]) (history_seq db + 1)
               (alerts db) (alerts_seq db)).

Definition insert_alert (row : Z -> StockAlert.t) : M StockAlert.t :=
  fun db =>
    let r := row (alerts_seq db) in
    (Ok r, mkDB (inventory db) (inventory_seq db)
               (history db) (history_seq db)
               (alerts db ++ [r]) (alerts_seq db + 1)).

Definition set_alerts (rows : list StockAlert.t) : M unit :=
  fun db =>
    (Ok tt, mkDB (inventory db) (inventory_seq db)
               (history db) (history_seq db)
               rows (alerts_seq db)).

(** [StockAlert.objects.get_or_create(medicine_name=name, alert_type=kind,
    defaults={'message': msg})]: the row found and [False], or the row
    made and [True]; [get] raises when several rows match.  [created_at]
    is [auto_now_add]. *)
Definition get_or_create (now : datetime) (name : string)
    (kind : StockAlert.ALERT_TYPES) (msg : StockAlert.text)
  : M (StockAlert.t * bool) :=
  db <- get_db ;;
  match filter (StockAlert.has_key name kind) (alerts db) with
  | [] =>
      a <- insert_alert
             (fun pk => StockAlert.mk pk name kind msg false now None None) ;;
      ret (a, true)
  | [a] => ret (a, false)
  | _ :: _ :: _ => raise MultipleObjectsReturned
  end.

(** ** Strings as the forms see them *)

(** [str.isspace] on one ASCII character. *)
Definition isspace (c : ascii) : bool :=
  let n := nat_of_ascii c in
  (((9 <=? n) && (n <=? 13)) || ((28 <=? n) && (n <=? 32)))%nat.

Fixpoint lstrip_chars (s : list ascii) : list ascii :=
  match s with
  | [] => []
  | c :: rest => if isspace c then lstrip_chars rest else s
  end.

(** [str.strip()] *)
Definition strip (s : string) : string :=
  string_of_list_ascii
    (rev (lstrip_chars (rev (lstrip_chars (list_ascii_of_string s))))).

Definition has_null_char (s : string) : bool :=
  existsb (fun c => Ascii.eqb c zero) (list_ascii_of_string s).

(** [forms.CharField(required=..., max_length=...)]: the value is
    stripped, an empty value fails a required field, a non-empty one must
    fit [max_length] and hold no null character.  [None] is a field error. *)
Definition CharField (required : bool) (max_length : nat) (value : string)
  : option string :=
  let v := strip value in
  if String.eqb v EmptyString then
    if required then None else Some v
  else if (max_length <? String.length v)%nat then None
  else if has_null_char v then None
  else Some v.

(** [forms.IntegerField(min_value=...)], required, on a value already
    read as an integer ([None]: missing, blank or not a number). *)
Definition IntegerField (min_value : Z) (value : option Z) : option Z :=
  match value with
  | None => None
  | Some v => if v <? min_value then None else Some v
  end.

(** A request: the handlers act on POST and only render on GET. *)
Inductive request (D : Type) : Type :=
| GET
| POST (data : D).
Arguments GET {D}.
Arguments POST {D} data.

(** ** inventory/forms.py: QuickDispenseForm *)

Module QuickDispenseForm.

Record data : Type := mk {
  medicine_name : string;
  batch_no : string;
  quantity : option Z;
  patient_name : string;
  prescribing_doctor : string
}.

Record cleaned_data : Type := mk_cleaned {
  c_medicine_name : string;
  c_batch_no : string;
  c_quantity : Z;
  c_patient_name : string;
  c_prescribing_doctor : string
}.

(** [form.is_valid()] with [form.cleaned_data] when it holds. *)
Definition is_valid (d : data) : option cleaned_data :=
  match CharField true 200 (medicine_name d),
        CharField true 100 (batch_no d),
        IntegerField 1 (quantity d),
        CharField true 100 (patient_name d),
        CharField false 100 (prescribing_doctor d) with
  | Some n, Some b, Some q, Some p, Some doc => Some (mk_cleaned n b q p doc)
  | _, _, _, _, _ => None
  end.

End QuickDispenseForm.

(** ** inventory/forms.py: MedicineInventoryForm *)

Module MedicineInventoryForm.

(** A posted integer as [__init__] reads it: the key may be absent; its
    text is an integer literal for [int()] or not. *)
Inductive posted : Type :=
| absent
| posted_text (as_int : option Z).

Definition posted_value (p : posted) : option Z :=
  match p with
  | absent => None
  | posted_text v => v
  end.

(** The posted form.  Dates arrive parsed by [DateField] ([None]: blank
    or not a date), [quantity_in] and [minimum_stock_level] parsed by
    [IntegerField] ([None]: blank or not a number).  The optional fields
    that the rows leave out are taken as posted with valid values. *)
Record data : Type := mk {
  date : option Z;
  medicine_name : string;
  dosage_form : string;
  batch_no : string;
  expiry_date : option Z;
  quantity_in : option Z;
  quantity_out : posted;
  dispensed_to : string;
  prescribing_doctor : string;
  minimum_stock_level : option Z
}.

Definition DOSAGE_FORM_CHOICES : list string :=
  [""; "tablet"; "capsule"; "syrup"; "injection"; "cream"; "ointment";
   "drops"; "inhaler"; "patch"; "suppository"; "suspension"; "powder";
   "other"]%string.

(** [forms.ChoiceField(choices=DOSAGE_FORM_CHOICES)], required. *)
Definition ChoiceField (value : string) : option string :=
  if String.eqb value EmptyString then None
  else if existsb (String.eqb value) DOSAGE_FORM_CHOICES then Some value
  else None.

(** [__init__]: whether [dispensed_to] becomes required; [int()] raises
    ValueError on a posted text that is no integer. *)
Definition init (d : data) : result bool :=
  match quantity_out d with
  | absent => Ok false
  | posted_text None => Raise ValueError
  | posted_text (Some q) => Ok (0 <? q)
  end.

(** [clean_expiry_date] on a value that passed [DateField]. *)
Definition clean_expiry_date (now : datetime) (expiry_date : option Z)
  : option Z :=
  match expiry_date with
  | None => None
  | Some e => if e <=? date_of now then None else Some e
  end.

(** [cleaned_data]: a field that failed is missing ([None]). *)
Record cleaned_data : Type := mk_cleaned {
  c_date : option Z;
  c_medicine_name : option string;
  c_dosage_form : option string;
  c_batch_no : option string;
  c_expiry_date : option Z;
  c_quantity_in : option Z;
  c_quantity_out : option Z;
  c_dispensed_to : option string;
  c_prescribing_doctor : option string;
  c_minimum_stock_level : option Z
}.

(** Field cleaning, with [clean_<field>] where the form defines one:
    [clean_batch_no] returns its value whatever it finds.  The bound 1 on
    [minimum_stock_level] is the model's [MinValueValidator(1)], which the
    ModelForm runs on the instance. *)
Definition clean_fields (now : datetime) (dispensed_to_required : bool)
    (d : data) : cleaned_data :=
  mk_cleaned
    (date d)
    (CharField true 200 (medicine_name d))
    (ChoiceField (dosage_form d))
    (CharField true 100 (batch_no d))
    (clean_expiry_date now (expiry_date d))
    (IntegerField 0 (quantity_in d))
    (IntegerField 0 (posted_value (quantity_out d)))
    (CharField dispensed_to_required 100 (dispensed_to d))
    (CharField false 100 (prescribing_doctor d))
    (IntegerField 1 (minimum_stock_level d)).

(** [cleaned_data.get(key, default)] *)
Definition get {A : Type} (v : option A) (default : A) : A :=
  match v with
  | Some a => a
  | None => default
  end.

Inductive ValidationError : Type :=
| enter_either_quantity
| not_both_quantities
| patient_name_required.

(** [def clean(self)]: the first cross-field rule that fails. *)
Definition clean (cd : cleaned_data) : option ValidationError :=
  let quantity_in := get (c_quantity_in cd) 0 in
  let quantity_out := get (c_quantity_out cd) 0 in
  let dispensed_to := get (c_dispensed_to cd) EmptyString in
  if (quantity_in =? 0) && (quantity_out =? 0) then
    Some enter_either_quantity
  else if (0 <? quantity_in) && (0 <? quantity_out) then
    Some not_both_quantities
  else if (0 <? quantity_out) && String.eqb dispensed_to EmptyString then
    Some patient_name_required
  else None.

(** The instance that [form.save(commit=False)] builds, the view's
    [created_by] set, still without a primary key. *)
Definition instance (cd : cleaned_data) (user : Z)
  : option (Z -> MedicineInventory.t) :=
  match c_date cd, c_medicine_name cd, c_dosage_form cd, c_batch_no cd,
        c_expiry_date cd, c_quantity_in cd, c_quantity_out cd,
        c_dispensed_to cd, c_prescribing_doctor cd,
        c_minimum_stock_level cd with
  | Some d, Some n, Some f, Some b, Some e, Some qi, Some qo,
    Some p, Some doc, Some m =>
      Some (fun pk => MedicineInventory.mk pk d n f b e qi qo p (Some user)
                        doc m)
  | _, _, _, _, _, _, _, _, _, _ => None
  end.

(** [form.is_valid()]: every field cleaned, [clean] silent, and the
    model's own [clean] (run by the ModelForm on the instance) silent. *)
Definition is_valid (now : datetime) (dispensed_to_required : bool)
    (d : data) (user : Z) : option (Z -> MedicineInventory.t) :=
  let cd := clean_fields now dispensed_to_required d in
  match instance cd user, clean cd with
  | Some row, None =>
      if MedicineInventory.clean now (row 0) then Some row else None
  | _, _ => None
  end.

End MedicineInventoryForm.

(** ** inventory/views.py *)

(** What the persistence layer does with the two inserts of a dispense:
    it may refuse either (a locked or failing database). *)
Inductive persistence : Type :=
| healthy
| refuses_ledger_insert
| refuses_history_insert.

(** How [quick_dispense] answers:
    - [dispensed]: success message, redirect to the inventory list;
    - [not_found]: 'Medicine with specified batch number not found.';
    - [insufficient_stock]: 'Insufficient stock available.';
    - [processing_error]: 'Error processing dispense: ...' from the
      [except Exception] branch;
    - [form_invalid], [form_shown]: the form rendered again, or first. *)
Inductive dispense_outcome : Type :=
| dispensed
| not_found
| insufficient_stock
| processing_error
| form_invalid
| form_shown.

Definition dispense_message (o : dispense_outcome) : option string :=
  match o with
  | not_found =>
      Some "Medicine with specified batch number not found."%string
  | insufficient_stock => Some "Insufficient stock available."%string
  | _ => None
  end.

(** [def quick_dispense(request)] *)
Definition quick_dispense (p : persistence) (now : datetime) (user : Z)
    (req : request QuickDispenseForm.data) : M dispense_outcome :=
  match req with
  | GET => ret form_shown
  | POST d =>
      match QuickDispenseForm.is_valid d with
      | None => ret form_invalid
      | Some cd =>
          let name := QuickDispenseForm.c_medicine_name cd in
          let batch := QuickDispenseForm.c_batch_no cd in
          let quantity := QuickDispenseForm.c_quantity cd in
          try_except
            (db <- get_db ;;
             match first (MedicineInventory.ordered
                            (MedicineInventory.filter_key name batch
                               (inventory db))) with
             | None => ret not_found
             | Some inventory_item =>
                 if MedicineInventory.balance (inventory db) inventory_item
                    <? quantity
                 then ret insufficient_stock
                 else
                   (match p with
                    | refuses_ledger_insert => raise DatabaseError
                    | _ =>
                        insert_inventory
                          (fun pk =>
                             MedicineInventory.mk pk (date_of now) name
                               (MedicineInventory.dosage_form inventory_item)
                               batch
                               (MedicineInventory.expiry_date inventory_item)
                               0 quantity
                               (QuickDispenseForm.c_patient_name cd)
                               (Some user)
                               (QuickDispenseForm.c_prescribing_doctor cd)
                               10)
                    end) ;;;
                   (match p with
                    | refuses_history_insert => raise DatabaseError
                    | _ =>
                        insert_history
                          (fun pk =>
                             DispenseHistory.mk pk now name
                               (MedicineInventory.dosage_form inventory_item)
                               batch
                               (QuickDispenseForm.c_patient_name cd)
                               quantity None
                               (QuickDispenseForm.c_prescribing_doctor cd)
                               (Some user))
                    end) ;;;
                   ret dispensed
             end)
            (fun _ => ret processing_error)
      end
  end.

(** How [add_inventory] answers: saved and redirected, or the form
    rendered with 'Please correct the errors below.', or first shown. *)
Inductive add_outcome : Type :=
| saved
| form_errors
| add_form_shown.

(** [def add_inventory(request)] *)
Definition add_inventory (now : datetime) (user : Z)
    (req : request MedicineInventoryForm.data) : M add_outcome :=
  match req with
  | GET => ret add_form_shown
  | POST d =>
      match MedicineInventoryForm.init d with
      | Raise e => raise e
      | Ok dispensed_to_required =>
          match MedicineInventoryForm.is_valid now dispensed_to_required
                  d user with
          | None => ret form_errors
          | Some row =>
              inventory_row <- insert_inventory row ;;
              (if 0 <? MedicineInventory.quantity_out inventory_row then
                 insert_history
                   (fun pk =>
                      DispenseHistory.mk pk now
                        (MedicineInventory.medicine_name inventory_row)
                        (MedicineInventory.dosage_form inventory_row)
                        (MedicineInventory.batch_no inventory_row)
                        (MedicineInventory.dispensed_to inventory_row)
                        (MedicineInventory.quantity_out inventory_row)
                        (Some (MedicineInventory.id inventory_row))
                        EmptyString
                        (Some user)) ;;;
                 ret tt
               else ret tt) ;;;
              db <- get_db ;;
              (if MedicineInventory.is_low_stock (inventory db) inventory_row
               then
                 get_or_create now
                   (MedicineInventory.medicine_name inventory_row)
                   StockAlert.low_stock
                   (StockAlert.stock_is_running_low
                      (MedicineInventory.medicine_name inventory_row)) ;;;
                 ret tt
               else ret tt) ;;;
              ret saved
          end
      end
  end.

(** The POST of the alerts page: [alert_id] ([None]: missing) and
    [action]. *)
Record alert_post : Type := mk_alert_post {
  alert_id : option Z;
  action : string
}.

(** [get_object_or_404(StockAlert, id=pk)]; the primary key is unique. *)
Definition get_object_or_404 (pk : option Z) : M StockAlert.t :=
  db <- get_db ;;
  match pk with
  | None => raise Http404
  | Some k =>
      match find (fun a => StockAlert.id a =? k) (alerts db) with
      | Some a => ret a
      | None => raise Http404
      end
  end.

(** [UPDATE ... WHERE id = pk]: the primary key is unique, so the one row
    that carries it is replaced. *)
Fixpoint update_row (alert : StockAlert.t) (rows : list StockAlert.t)
  : list StockAlert.t :=
  match rows with
  | [] => []
  | r :: rest =>
      if StockAlert.id r =? StockAlert.id alert then alert :: rest
      else r :: update_row alert rest
  end.

(** [alert.save()] of a row read from the table. *)
Definition save_alert (alert : StockAlert.t) : M unit :=
  db <- get_db ;;
  set_alerts (update_row alert (alerts db)).

Inductive alerts_outcome : Type :=
| redirect_stock_alerts
| alerts_page.

(** [def stock_alerts(request)] *)
Definition stock_alerts (now : datetime) (user : Z)
    (req : request alert_post) : M alerts_outcome :=
  match req with
  | GET => ret alerts_page
  | POST d =>
      (if String.eqb (action d) "acknowledge"%string then
         alert <- get_object_or_404 (alert_id d) ;;
         save_alert
           (StockAlert.mk (StockAlert.id alert)
              (StockAlert.medicine_name alert)
              (StockAlert.alert_type alert)
              (StockAlert.message alert)
              true
              (StockAlert.created_at alert)
              (Some user)
              (Some now))
       else ret tt) ;;;
      ret redirect_stock_alerts
  end.

(** ** inventory/management/commands/check_alerts.py *)

Module check_alerts.

Record options : Type := mk_options {
  send_email : bool;
  clean_old_alerts : bool
}.

(** [getattr(settings, 'EXPIRY_ALERT_DAYS', 30)]; the setting, when the
    project defines it, is the parameter. *)
Definition expiry_alert_days (EXPIRY_ALERT_DAYS : option Z) : Z :=
  match EXPIRY_ALERT_DAYS with
  | Some n => n
  | None => 30
  end.

(** [MedicineInventory.objects.filter(expiry_date__lte=today)] *)
Definition expired_items (today : Z) (objects : list MedicineInventory.t)
  : list MedicineInventory.t :=
  MedicineInventory.ordered
    (filter (fun r => MedicineInventory.expiry_date r <=? today) objects).

(** [MedicineInventory.objects.filter(expiry_date__gt=today,
    expiry_date__lte=expiry_threshold)] *)
Definition expiring_items (today expiry_threshold : Z)
    (objects : list MedicineInventory.t) : list MedicineInventory.t :=
  MedicineInventory.ordered
    (filter (fun r => (today <? MedicineInventory.expiry_date r)
                      && (MedicineInventory.expiry_date r
                          <=? expiry_threshold))
       objects).

(** The body of the first loop, returning [created]. *)
Definition expired_alert (now : datetime) (item : MedicineInventory.t)
  : M bool :=
  r <- get_or_create now (MedicineInventory.medicine_name item)
         StockAlert.expired
         (StockAlert.has_expired_on
            (MedicineInventory.medicine_name item)
            (MedicineInventory.batch_no item)
            (MedicineInventory.expiry_date item)) ;;
  ret (snd r).

(** The body of the second loop. *)
Definition near_expiry_alert (now : datetime) (item : MedicineInventory.t)
  : M bool :=
  r <- get_or_create now (MedicineInventory.medicine_name item)
         StockAlert.near_expiry
         (StockAlert.expires_in_days
            (MedicineInventory.medicine_name item)
            (MedicineInventory.batch_no item)
            (MedicineInventory.days_to_expiry now item)) ;;
  ret (snd r).

(** The body of the third loop; [objects] is the ledger, which the scan
    does not write. *)
Definition low_stock_alert (objects : list MedicineInventory.t)
    (now : datetime) (item : MedicineInventory.t) : M bool :=
  if MedicineInventory.is_low_stock objects item then
    r <- get_or_create now (MedicineInventory.medicine_name item)
           StockAlert.low_stock
           (StockAlert.low_stock_alert
              (MedicineInventory.medicine_name item)
              (MedicineInventory.balance objects item)) ;;
    ret (snd r)
  else ret false.

(** The three detection loops of [handle], returning [alerts_created].
    The clock is read once for the run. *)
Definition scan (EXPIRY_ALERT_DAYS : option Z) (now : datetime) : M Z :=
  db <- get_db ;;
  let today := date_of now in
  n1 <- count_created (expired_items today (inventory db))
          (expired_alert now) 0 ;;
  let expiry_threshold := today + expiry_alert_days EXPIRY_ALERT_DAYS in
  n2 <- count_created (expiring_items today expiry_threshold (inventory db))
          (near_expiry_alert now) n1 ;;
  count_created (MedicineInventory.ordered (inventory db))
    (low_stock_alert (inventory db) now) n2.

(** The queryset [old_alerts]: acknowledged, and acknowledged at or
    before thirty days ago.  A NULL timestamp matches no comparison. *)
Definition old_alerts (now : datetime) (a : StockAlert.t) : bool :=
  StockAlert.is_acknowledged a
  && match StockAlert.acknowledged_at a with
     | Some t => t <=? now - timedelta_days 30
     | None => false
     end.

(** [old_alerts.count()] then [old_alerts.delete()] *)
Definition clean (now : datetime) : M Z :=
  db <- get_db ;;
  let deleted_count :=
    Z.of_nat (List.length (filter (old_alerts now) (alerts db))) in
  set_alerts (filter (fun a => negb (old_alerts now a)) (alerts db)) ;;;
  ret deleted_count.

(** [def handle(self, *args, **options)]: [alerts_created] and, when the
    sweep ran, [deleted_count].  [send_alert_emails] reads the alerts,
    sends mail and swallows its own exceptions; it writes nothing. *)
Definition handle (EXPIRY_ALERT_DAYS : option Z) (opts : options)
    (now : datetime) : M (Z * option Z) :=
  alerts_created <- scan EXPIRY_ALERT_DAYS now ;;
  (if clean_old_alerts opts then
     deleted_count <- clean now ;;
     ret (alerts_created, Some deleted_count)
   else ret (alerts_created, None)).

End check_alerts.

(** ** Python builtins used by import_csv *)

Definition is_digit (c : ascii) : bool :=
  ((48 <=? nat_of_ascii c) && (nat_of_ascii c <=? 57))%nat.

Definition digit_value (c : ascii) : Z := Z.of_nat (nat_of_ascii c) - 48.

(** The digits of an [int()] literal: decimal digits, single underscores
    allowed between two digits only. *)
Fixpoint digits_value (acc : Z) (after_digit : bool) (cs : list ascii)
  : option Z :=
  match cs with
  | [] => if after_digit then Some acc else None
  | c :: rest =>
      if is_digit c then digits_value (10 * acc + digit_value c) true rest
      else if Ascii.eqb c "_"%char then
        if after_digit then digits_value acc false rest else None
      else None
  end.

(** [int(s)] on a string; [None] is ValueError. *)
Definition py_int (s : string) : option Z :=
  match list_ascii_of_string (strip s) with
  | c :: rest =>
      if Ascii.eqb c "-"%char then
        option_map Z.opp (digits_value 0 false rest)
      else if Ascii.eqb c "+"%char then digits_value 0 false rest
      else digits_value 0 false (c :: rest)
  | [] => None
  end.

(** [str(n)] for a row number. *)
Definition str_of_Z (n : Z) : string :=
  DecimalString.NilZero.string_of_int (Z.to_int n).

(** *** Calendar: [datetime.date(y, m, d)] as days since 1970-01-01 *)

Definition is_leap (y : Z) : bool :=
  (y mod 4 =? 0) && (negb (y mod 100 =? 0) || (y mod 400 =? 0)).

Definition days_in_month (y m : Z) : Z :=
  if m =? 2 then (if is_leap y then 29 else 28)
  else if (m =? 4) || (m =? 6) || (m =? 9) || (m =? 11) then 30
  else 31.

Definition days_before_year (y : Z) : Z :=
  let p := y - 1 in p * 365 + p / 4 - p / 100 + p / 400.

Fixpoint days_before_month (y : Z) (months : nat) : Z :=
  match months with
  | O => 0
  | S k => days_before_month y k + days_in_month y (Z.of_nat (S k))
  end.

(** [date(y, m, d)]; [None] is the ValueError of an impossible date. *)
Definition make_date (y m d : Z) : option Z :=
  if (1 <=? y) && (y <=? 9999) && (1 <=? m) && (m <=? 12)
     && (1 <=? d) && (d <=? days_in_month y m)
  then Some (days_before_year y + days_before_month y (Z.to_nat (m - 1)) + d
             - 719163)
  else None.

(** *** [datetime.strptime(s, fmt).date()] for the formats of the import *)

Fixpoint split_on (sep : ascii) (cs : list ascii) : list (list ascii) :=
  match cs with
  | [] => [[]]
  | c :: rest =>
      match split_on sep rest with
      | part :: parts =>
          if Ascii.eqb c sep then [] :: part :: parts
          else (c :: part) :: parts
      | [] => [[c]]
      end
  end.

(** [%Y]: four digits. *)
Definition directive_Y (cs : list ascii) : option Z :=
  match cs with
  | [a; b; c; d] =>
      if is_digit a && is_digit b && is_digit c && is_digit d
      then Some (1000 * digit_value a + 100 * digit_value b
                 + 10 * digit_value c + digit_value d)
      else None
  | _ => None
  end.

(** [%m]: 1[0-2], 0[1-9] or [1-9]. *)
Definition directive_m (cs : list ascii) : option Z :=
  match cs with
  | [a] => if is_digit a && negb (digit_value a =? 0)
           then Some (digit_value a) else None
  | [a; b] =>
      if is_digit a && is_digit b then
        let v := 10 * digit_value a + digit_value b in
        if (1 <=? v) && (v <=? 12) then Some v else None
      else None
  | _ => None
  end.

(** [%d]: 3[01], [12][0-9], 0[1-9], [1-9] or a space and [1-9]. *)
Definition directive_d (cs : list ascii) : option Z :=
  match cs with
  | [a] => if is_digit a && negb (digit_value a =? 0)
           then Some (digit_value a) else None
  | [a; b] =>
      if is_digit b && Ascii.eqb a " "%char then
        if negb (digit_value b =? 0) then Some (digit_value b) else None
      else if is_digit a && is_digit b then
        let v := 10 * digit_value a + digit_value b in
        if (1 <=? v) && (v <=? 31) then Some v else None
      else None
  | _ => None
  end.

Inductive date_format : Type :=
| Y_m_d   (* '%Y-%m-%d' *)
| m_d_Y   (* '%m/%d/%Y' *)
| d_m_Y.  (* '%d/%m/%Y' *)

Definition strptime_date (s : string) (fmt : date_format) : option Z :=
  let cs := list_ascii_of_string s in
  match fmt with
  | Y_m_d =>
      match split_on "-"%char cs with
      | [y; m; d] =>
          match directive_Y y, directive_m m, directive_d d with
          | Some y', Some m', Some d' => make_date y' m' d'
          | _, _, _ => None
          end
      | _ => None
      end
  | m_d_Y =>
      match split_on "/"%char cs with
      | [m; d; y] =>
          match directive_Y y, directive_m m, directive_d d with
          | Some y', Some m', Some d' => make_date y' m' d'
          | _, _, _ => None
          end
      | _ => None
      end
  | d_m_Y =>
      match split_on "/"%char cs with
      | [d; m; y] =>
          match directive_Y y, directive_m m, directive_d d with
          | Some y', Some m', Some d' => make_date y' m' d'
          | _, _, _ => None
          end
      | _ => None
      end
  end.

(** [for fmt in formats: try: ...; break  except ValueError: continue],
    with [None] for the loop's [else]. *)
Fixpoint first_format (s : string) (formats : list date_format) : option Z :=
  match formats with
  | [] => None
  | fmt :: rest =>
      match strptime_date s fmt with
      | Some d => Some d
      | None => first_format s rest
      end
  end.

(** ** inventory/management/commands/import_csv.py

    The command acts on the rows that [csv.DictReader] yields: a row maps
    a header name to a cell, and a cell of a row shorter than the header
    is [None].  Reading the file, the suppliers, the unit cost and the
    free-text columns that the rows here do not carry are left out, except
    that [.strip()] on a [None] cell still raises. *)

Module import_csv.

Definition row : Type := list (string * option string).

(** [row.get(key)]: the key may be missing, the cell may be [None]. *)
Fixpoint lookup (key : string) (r : row) : option (option string) :=
  match r with
  | [] => None
  | (k, v) :: rest => if String.eqb k key then Some v else lookup key rest
  end.

(** [row.get(key, '').strip()]; [None] is the AttributeError of
    [None.strip()]. *)
Definition get_strip (key : string) (r : row) : option string :=
  match lookup key r with
  | None => Some EmptyString
  | Some None => None
  | Some (Some cell) => Some (strip cell)
  end.

(** [try: int(row.get(key, 0) or 0) except ValueError: 0] *)
Definition get_int (key : string) (r : row) : Z :=
  match lookup key r with
  | None | Some None => 0
  | Some (Some cell) =>
      if String.eqb cell EmptyString then 0
      else match py_int cell with
           | Some v => v
           | None => 0
           end
  end.

Definition formats : list date_format := [Y_m_d; m_d_Y; d_m_Y].

(** The date of a stripped cell, [fallback] when the cell is empty or
    matches no format. *)
Definition parse_date (cell : string) (fallback : Z) : Z :=
  if String.eqb cell EmptyString then fallback
  else match first_format cell formats with
       | Some d => d
       | None => fallback
       end.

(** [x or default] on strings. *)
Definition or_default (x default : string) : string :=
  if String.eqb x EmptyString then default else x.

(** The body of the loop for one row: the unsaved MedicineInventory
    appended to [medicines_to_create], or [None] when the row is skipped
    (no medicine name, or an exception caught by the loop). *)
Definition medicine_of_row (today : Z) (user : Z) (row_num : Z) (r : row)
  : option (Z -> MedicineInventory.t) :=
  match get_strip "medicine_name" r with
  | None => None
  | Some medicine_name =>
      if String.eqb medicine_name EmptyString then None
      else
        match get_strip "date" r, get_strip "expiry_date" r,
              get_strip "supplier_name" r, get_strip "dosage_form" r,
              get_strip "batch_no" r, get_strip "generic_name" r,
              get_strip "manufacturer" r, get_strip "strength" r,
              get_strip "prescribing_doctor" r, get_strip "dispensed_to" r,
              get_strip "notes" r with
        | Some date_str, Some expiry_str, Some _, Some dosage_form,
          Some batch_no, Some _, Some _, Some _, Some prescribing_doctor,
          Some dispensed_to, Some _ =>
            let medicine_date := parse_date date_str today in
            let expiry_date := parse_date expiry_str (today + 365) in
            let quantity_in := get_int "quantity_in" r in
            let quantity_out := get_int "quantity_out" r in
            Some (fun pk =>
                    MedicineInventory.mk pk medicine_date medicine_name
                      (or_default dosage_form "Tablet")
                      (or_default batch_no
                         (String.append "BATCH_" (str_of_Z row_num)))
                      expiry_date quantity_in quantity_out dispensed_to
                      (Some user) prescribing_doctor 10)
        | _, _, _, _, _, _, _, _, _, _, _ => None
        end
  end.

(** [for row_num, row in enumerate(reader, start=2)] *)
Fixpoint medicines_to_create (today : Z) (user : Z) (row_num : Z)
    (rows : list row) : list (Z -> MedicineInventory.t) :=
  match rows with
  | [] => []
  | r :: rest =>
      match medicine_of_row today user row_num r with
      | Some m => m :: medicines_to_create today user (row_num + 1) rest
      | None => medicines_to_create today user (row_num + 1) rest
      end
  end.

(** [MedicineInventory.objects.bulk_create(...)] inside
    [transaction.atomic()]: every row or none.  The table's CHECK
    constraints of the PositiveIntegerField columns refuse a negative
    quantity, and the command turns the error into CommandError. *)
Definition bulk_create (ms : list (Z -> MedicineInventory.t)) : M unit :=
  if forallb (fun m => (0 <=? MedicineInventory.quantity_in (m 0))
                       && (0 <=? MedicineInventory.quantity_out (m 0))) ms
  then for_each ms (fun m => insert_inventory m ;;; ret tt)
  else raise CommandError.

Inductive outcome : Type :=
| imported (count : nat)
| dry_run_completed
| import_cancelled
| no_valid_medicines.

(** [def handle(self, *args, **options)] from the rows on: [dry_run] is
    the option, [confirm] the answer typed at the prompt. *)
Definition handle (dry_run : bool) (confirm : string) (today : Z)
    (user : Z) (rows : list row) : M outcome :=
  let ms := medicines_to_create today user 2 rows in
  if dry_run then ret dry_run_completed
  else
    match ms with
    | [] => ret no_valid_medicines
    | _ :: _ =>
        if negb (String.eqb confirm "y" || String.eqb confirm "Y")
        then ret import_cancelled
        else bulk_create ms ;;; ret (imported (List.length ms))
    end.

End import_csv.

(** ** The specification's vocabulary *)

(** Quantity received over the ledger entries that share a key. *)
Fixpoint total_received (name batch : string)
    (ledger : list MedicineInventory.t) : Z :=
  match ledger with
  | [] => 0
  | e :: rest =>
      (if MedicineInventory.same_key name batch e
       then MedicineInventory.quantity_in e else 0)
      + total_received name batch rest
  end.

(** Quantity dispensed over the ledger entries that share a key. *)
Fixpoint total_dispensed (name batch : string)
    (ledger : list MedicineInventory.t) : Z :=
  match ledger with
  | [] => 0
  | e :: rest =>
      (if MedicineInventory.same_key name batch e
       then MedicineInventory.quantity_out e else 0)
      + total_dispensed name batch rest
  end.

(** [balance(medicine_name, batch_no)]: the method called on an instance
    that carries the key. *)
Definition balance_of (objects : list MedicineInventory.t)
    (name batch : string) : Z :=
  MedicineInventory.balance objects
    (MedicineInventory.mk 0 0 name EmptyString batch 0 0 0 EmptyString None
       EmptyString 10).

(** The ledger entry and the history row that a dispense writes, from the
    cleaned form and the entry the fields are copied from. *)
Definition dispense_entry (now : datetime) (user : Z)
    (cd : QuickDispenseForm.cleaned_data) (source : MedicineInventory.t)
    (pk : Z) : MedicineInventory.t :=
  MedicineInventory.mk pk (date_of now)
    (QuickDispenseForm.c_medicine_name cd)
    (MedicineInventory.dosage_form source)
    (QuickDispenseForm.c_batch_no cd)
    (MedicineInventory.expiry_date source)
    0 (QuickDispenseForm.c_quantity cd)
    (QuickDispenseForm.c_patient_name cd) (Some user)
    (QuickDispenseForm.c_prescribing_doctor cd) 10.

Definition dispense_record (now : datetime) (user : Z)
    (cd : QuickDispenseForm.cleaned_data) (source : MedicineInventory.t)
    (pk : Z) : DispenseHistory.t :=
  DispenseHistory.mk pk now
    (QuickDispenseForm.c_medicine_name cd)
    (MedicineInventory.dosage_form source)
    (QuickDispenseForm.c_batch_no cd)
    (QuickDispenseForm.c_patient_name cd)
    (QuickDispenseForm.c_quantity cd) None
    (QuickDispenseForm.c_prescribing_doctor cd) (Some user).

(** The entry that [quick_dispense] reads the copied fields from. *)
Definition source_entry (db : DB) (cd : QuickDispenseForm.cleaned_data)
  : option MedicineInventory.t :=
  first (MedicineInventory.ordered
           (MedicineInventory.filter_key
              (QuickDispenseForm.c_medicine_name cd)
              (QuickDispenseForm.c_batch_no cd) (inventory db))).

(** The answer and the store after a dispense request with a valid form,
    case by case. *)
Definition after_dispense (p : persistence) (now : datetime) (user : Z)
    (cd : QuickDispenseForm.cleaned_data) (db : DB)
  : result dispense_outcome * DB :=
  match source_entry db cd with
  | None => (Ok not_found, db)
  | Some src =>
      if balance_of (inventory db) (QuickDispenseForm.c_medicine_name cd)
           (QuickDispenseForm.c_batch_no cd)
         <? QuickDispenseForm.c_quantity cd
      then (Ok insufficient_stock, db)
      else
        match p with
        | healthy =>
            (Ok dispensed,
             mkDB (inventory db
                   ++ [dispense_entry now user cd src (inventory_seq db)])
               (inventory_seq db + 1)
               (history db
                ++ [dispense_record now user cd src (history_seq db)])
               (history_seq db + 1) (alerts db) (alerts_seq db))
        | refuses_ledger_insert => (Ok processing_error, db)
        | refuses_history_insert =>
            (Ok processing_error,
             mkDB (inventory db
                   ++ [dispense_entry now user cd src (inventory_seq db)])
               (inventory_seq db + 1) (history db) (history_seq db)
               (alerts db) (alerts_seq db))
        end
  end.

(** A sequence of dispense requests, each with the persistence layer's
    behaviour, the instant and the user of the request. *)
Definition dispense_call : Type :=
  (persistence * datetime * Z * request QuickDispenseForm.data)%type.

Fixpoint run_dispenses (calls : list dispense_call) (db : DB) : DB :=
  match calls with
  | [] => db
  | (p, now, user, req) :: rest =>
      run_dispenses rest (snd (quick_dispense p now user req db))
  end.

(** Alert rows per (medicine name, alert kind). *)
Definition count_key (name : string) (kind : StockAlert.ALERT_TYPES)
    (rows : list StockAlert.t) : nat :=
  List.length (filter (StockAlert.has_key name kind) rows).


(** The ledger and the history are as they were. *)
Definition same_ledger (db db' : DB) : Prop :=
  inventory db' = inventory db /\ history db' = history db.

(** No key has lost an alert row. *)
Definition no_fewer_alerts (db db' : DB) : Prop :=
  forall name kind,
    (count_key name kind (alerts db) <= count_key name kind (alerts db'))%nat.



(** The rules of manual entry, on a posted form and on a stored row. *)
Definition zero_zero (d : MedicineInventoryForm.data) : Prop :=
  MedicineInventoryForm.quantity_in d = Some 0
  /\ MedicineInventoryForm.posted_value
       (MedicineInventoryForm.quantity_out d) = Some 0.

Definition both_positive (d : MedicineInventoryForm.data) : Prop :=
  exists qi qo,
    MedicineInventoryForm.quantity_in d = Some qi
    /\ MedicineInventoryForm.posted_value
         (MedicineInventoryForm.quantity_out d) = Some qo
    /\ 0 < qi /\ 0 < qo.

Definition dispense_without_recipient (d : MedicineInventoryForm.data)
  : Prop :=
  exists qo,
    MedicineInventoryForm.posted_value
      (MedicineInventoryForm.quantity_out d) = Some qo
    /\ 0 < qo
    /\ strip (MedicineInventoryForm.dispensed_to d) = EmptyString.

Definition expiry_not_future (now : datetime)
    (d : MedicineInventoryForm.data) : Prop :=
  exists e, MedicineInventoryForm.expiry_date d = Some e /\ e <= date_of now.

Definition well_formed_entry (today : Z) (r : MedicineInventory.t) : Prop :=
  ((0 < MedicineInventory.quantity_in r
    /\ MedicineInventory.quantity_out r = 0)
   \/ (MedicineInventory.quantity_in r = 0
       /\ 0 < MedicineInventory.quantity_out r))
  /\ (0 < MedicineInventory.quantity_out r ->
      MedicineInventory.dispensed_to r <> EmptyString)
  /\ today < MedicineInventory.expiry_date r.

(** Both rows of a dispense or neither, the history row pointing at the
    ledger row. *)
Definition both_or_neither (db db' : DB) : Prop :=
  (inventory db' = inventory db /\ history db' = history db)
  \/ (exists e h,
        inventory db' = inventory db ++ [e]
        /\ history db' = history db ++ [h]
        /\ DispenseHistory.inventory_record h
           = Some (MedicineInventory.id e)).

(** Alert [a] as acknowledged by [user] at [now]. *)
Definition acknowledged_row (a : StockAlert.t) (user : Z) (now : datetime)
  : StockAlert.t :=
  StockAlert.mk (StockAlert.id a) (StockAlert.medicine_name a)
    (StockAlert.alert_type a) (StockAlert.message a) true
    (StockAlert.created_at a) (Some user) (Some now).

(** ** Further vocabulary *)



(** No parsed row carries a negative quantity. *)
Definition no_negative_quantity (ms : list (Z -> MedicineInventory.t))
  : bool :=
  forallb (fun m => (0 <=? MedicineInventory.quantity_in (m 0))
                    && (0 <=? MedicineInventory.quantity_out (m 0))) ms.


(** The history row that [add_inventory] writes for a stored dispense
    entry [r]. *)
Definition mirrored_record (now : datetime) (user : Z)
    (r : MedicineInventory.t) (pk : Z) : DispenseHistory.t :=
  DispenseHistory.mk pk now
    (MedicineInventory.medicine_name r) (MedicineInventory.dosage_form r)
    (MedicineInventory.batch_no r) (MedicineInventory.dispensed_to r)
    (MedicineInventory.quantity_out r) (Some (MedicineInventory.id r))
    EmptyString (Some user).

(** The store once [add_inventory] has saved entry [r] and, for a
    dispense, its history row; the low stock check comes after. *)
Definition after_save (now : datetime) (user : Z) (r : MedicineInventory.t)
    (db : DB) : DB :=
  if 0 <? MedicineInventory.quantity_out r then
    mkDB (inventory db ++ [r]) (inventory_seq db + 1)
      (history db ++ [mirrored_record now user r (history_seq db)])
      (history_seq db + 1) (alerts db) (alerts_seq db)
  else
    mkDB (inventory db ++ [r]) (inventory_seq db + 1)
      (history db) (history_seq db) (alerts db) (alerts_seq db).






(** The first character, if any, is whitespace. *)
Definition leading_space (cs : list ascii) : bool :=
  match cs with
  | [] => false
  | c :: _ => isspace c
  end.



(** ** inventory/views.py: [edit_inventory] and [delete_inventory] *)

Definition set_inventory (rows : list MedicineInventory.t) : M unit :=
  fun db =>
    (Ok tt, mkDB rows (inventory_seq db)
               (history db) (history_seq db)
               (alerts db) (alerts_seq db)).

Definition set_history (rows : list DispenseHistory.t) : M unit :=
  fun db =>
    (Ok tt, mkDB (inventory db) (inventory_seq db)
               rows (history_seq db)
               (alerts db) (alerts_seq db)).

(** [get_object_or_404(MedicineInventory, pk=pk)] *)
Definition get_inventory_or_404 (pk : Z) : M MedicineInventory.t :=
  db <- get_db ;;
  match find (fun r => MedicineInventory.id r =? pk) (inventory db) with
  | Some item => ret item
  | None => raise Http404
  end.

(** The history rows whose [inventory_record] is the entry [pk]. *)
Definition records_of (pk : Z) (h : DispenseHistory.t) : bool :=
  match DispenseHistory.inventory_record h with
  | Some k => k =? pk
  | None => false
  end.

(** [item.delete()]: [inventory_record] is declared with
    [on_delete=models.CASCADE], so the history rows that point at the
    entry are deleted first, then the entry. *)
Definition MedicineInventory_delete (item : MedicineInventory.t) : M unit :=
  db <- get_db ;;
  set_history
    (filter (fun h => negb (records_of (MedicineInventory.id item) h))
       (history db)) ;;;
  set_inventory
    (filter (fun r => negb (MedicineInventory.id r
                            =? MedicineInventory.id item))
       (inventory db)).

Inductive delete_outcome : Type :=
| deleted
| confirm_delete.

(** [def delete_inventory(request, pk)] *)
Definition delete_inventory (pk : Z) (req : request unit)
  : M delete_outcome :=
  item <- get_inventory_or_404 pk ;;
  match req with
  | POST _ => MedicineInventory_delete item ;;; ret deleted
  | GET => ret confirm_delete
  end.

(** [UPDATE ... WHERE id = pk] on the ledger: the one row that carries the
    primary key is replaced. *)
Fixpoint update_entry (entry : MedicineInventory.t)
    (rows : list MedicineInventory.t) : list MedicineInventory.t :=
  match rows with
  | [] => []
  | r :: rest =>
      if MedicineInventory.id r =? MedicineInventory.id entry
      then entry :: rest
      else r :: update_entry entry rest
  end.

(** The instance of [MedicineInventoryForm(request.POST, instance=item)]
    once the form is valid: the stored row with the form's fields set.
    The primary key and [created_by], which the form excludes, stay. *)
Definition edited (item : MedicineInventory.t)
    (row : Z -> MedicineInventory.t) : MedicineInventory.t :=
  let r := row (MedicineInventory.id item) in
  MedicineInventory.mk (MedicineInventory.id item)
    (MedicineInventory.date r) (MedicineInventory.medicine_name r)
    (MedicineInventory.dosage_form r) (MedicineInventory.batch_no r)
    (MedicineInventory.expiry_date r) (MedicineInventory.quantity_in r)
    (MedicineInventory.quantity_out r) (MedicineInventory.dispensed_to r)
    (MedicineInventory.created_by item)
    (MedicineInventory.prescribing_doctor r)
    (MedicineInventory.minimum_stock_level r).

Inductive edit_outcome : Type :=
| updated
| edit_form_errors
| edit_form_shown.

(** [def edit_inventory(request, pk)].  The entry is looked up before the
    form is built; validation is that of [add_inventory] (the user given
    to [is_valid] only fills [created_by], which [edited] leaves out). *)
Definition edit_inventory (now : datetime) (user : Z) (pk : Z)
    (req : request MedicineInventoryForm.data) : M edit_outcome :=
  item <- get_inventory_or_404 pk ;;
  match req with
  | GET => ret edit_form_shown
  | POST d =>
      match MedicineInventoryForm.init d with
      | Raise e => raise e
      | Ok dispensed_to_required =>
          match MedicineInventoryForm.is_valid now dispensed_to_required
                  d user with
          | None => ret edit_form_errors
          | Some row =>
              db <- get_db ;;
              set_inventory (update_entry (edited item row) (inventory db)) ;;;
              ret updated
          end
      end
  end.

(** The part of the balance of key (name, batch) that entry [r] carries. *)
Definition movement (name batch : string) (r : MedicineInventory.t) : Z :=
  if MedicineInventory.same_key name batch r
  then MedicineInventory.quantity_in r - MedicineInventory.quantity_out r
  else 0.

(** Primary keys come from the table's sequence: no ledger entry, and no
    reference from a history row, is at or above the next key. *)
Definition fresh_keys (db : DB) : Prop :=
  (forall r, In r (inventory db) ->
             MedicineInventory.id r < inventory_seq db)
  /\ (forall h k, In h (history db) ->
                  DispenseHistory.inventory_record h = Some k ->
                  k < inventory_seq db).


(** ** inventory/views.py: the expiry figures of the report, the charts
    and the dashboard

    Each of these views reads the clock several times while it answers
    one request; [now] is the instant of the request. *)

(** The Status column of [export_expiry_report]. *)
Inductive expiry_status : Type :=
| Expired
| Expiring_Soon
| Good.

(** ['Expired' if item.is_expired else 'Expiring Soon'
     if item.days_to_expiry <= 30 else 'Good'] *)
Definition status_of (now : datetime) (item : MedicineInventory.t)
  : expiry_status :=
  if MedicineInventory.is_expired now item then Expired
  else if MedicineInventory.days_to_expiry now item <=? 30
       then Expiring_Soon
       else Good.

(** [order_by('expiry_date')], soonest first; rows with equal dates stay
    in storage order, as in [MedicineInventory.ordered]. *)
Fixpoint insert_by_expiry (r : MedicineInventory.t)
    (sorted : list MedicineInventory.t) : list MedicineInventory.t :=
  match sorted with
  | [] => [r]
  | s :: rest =>
      if MedicineInventory.expiry_date s <? MedicineInventory.expiry_date r
      then s :: insert_by_expiry r rest
      else r :: s :: rest
  end.

Definition order_by_expiry_date (rows : list MedicineInventory.t)
  : list MedicineInventory.t :=
  fold_right insert_by_expiry [] rows.

(** A line of the expiry report below its header. *)
Record expiry_report_row : Type := mk_expiry_report_row {
  report_medicine_name : string;
  report_batch_no : string;
  report_expiry_date : Z;
  report_days_to_expiry : Z;
  report_status : expiry_status;
  report_balance : Z
}.

(** [def export_expiry_report(request)]: the lines of the CSV file. *)
Definition export_expiry_report (now : datetime)
    (objects : list MedicineInventory.t) : list expiry_report_row :=
  map (fun item =>
         mk_expiry_report_row
           (MedicineInventory.medicine_name item)
           (MedicineInventory.batch_no item)
           (MedicineInventory.expiry_date item)
           (MedicineInventory.days_to_expiry now item)
           (status_of now item)
           (MedicineInventory.balance objects item))
    (order_by_expiry_date objects).

(** [QuerySet.count()] *)
Definition count {A : Type} (f : A -> bool) (rows : list A) : nat :=
  List.length (filter f rows).

(** ['expiry_data'] of [analytics_data]. *)
Record expiry_data : Type := mk_expiry_data {
  data_expired : nat;
  data_expiring_soon : nat;
  data_good : nat
}.

Definition analytics_expiry_data (now : datetime)
    (objects : list MedicineInventory.t) : expiry_data :=
  let today := date_of now in
  mk_expiry_data
    (count (fun r => MedicineInventory.expiry_date r <=? today) objects)
    (count (fun r => (today <? MedicineInventory.expiry_date r)
                     && (MedicineInventory.expiry_date r
                         <=? today + 30)) objects)
    (count (fun r => today + 30 <? MedicineInventory.expiry_date r) objects).

(** The ['type'] of a dashboard notice. *)
Inductive notice_type : Type :=
| danger
| warning
| info.

(** A dashboard notice: its type, the entry it is about and the figure in
    its message (the expiry date, the days to expiry or the balance). *)
Record notice : Type := mk_notice {
  notice_kind : notice_type;
  notice_item : MedicineInventory.t;
  notice_figure : Z
}.

(** The entries of the [dashboard] context that come from the expiry
    dates and the stock levels. *)
Record dashboard_context : Type := mk_dashboard_context {
  expired_count : nat;
  expiring_soon_count : nat;
  low_stock_count : nat;
  dashboard_alerts : list notice
}.

(** [def dashboard(request)], for those entries.  The querysets come in
    the model's default order. *)
Definition dashboard (now : datetime) (objects : list MedicineInventory.t)
  : dashboard_context :=
  let today := date_of now in
  let expired_items := check_alerts.expired_items today objects in
  let expiring_soon :=
    check_alerts.expiring_items today (today + 30) objects in
  let low_stock_items :=
    filter (MedicineInventory.is_low_stock objects)
      (MedicineInventory.ordered objects) in
  let alerts :=
    map (fun item =>
           mk_notice danger item (MedicineInventory.expiry_date item))
      (firstn 5 expired_items)
    ++ map (fun item =>
              mk_notice warning item
                (MedicineInventory.days_to_expiry now item))
         (firstn 5 expiring_soon)
    ++ map (fun item =>
              mk_notice info item (MedicineInventory.balance objects item))
         (firstn 5 low_stock_items) in
  mk_dashboard_context
    (List.length expired_items)
    (List.length expiring_soon)
    (List.length low_stock_items)
    (firstn 10 alerts).


(** Dates in a column, soonest first. *)
Fixpoint ascending (dates : list Z) : Prop :=
  match dates with
  | [] => True
  | d :: rest => Forall (fun d' => d <= d') rest /\ ascending rest
  end.

(** What a dashboard notice says about its entry. *)
Definition notice_holds (now : datetime)
    (objects : list MedicineInventory.t) (n : notice) : Prop :=
  let item := notice_item n in
  In item objects
  /\ match notice_kind n with
     | danger =>
         MedicineInventory.expiry_date item <= date_of now
         /\ notice_figure n = MedicineInventory.expiry_date item
     | warning =>
         date_of now < MedicineInventory.expiry_date item
         /\ MedicineInventory.expiry_date item <= date_of now + 30
         /\ notice_figure n = MedicineInventory.expiry_date item - date_of now
     | info =>
         MedicineInventory.balance objects item
         < MedicineInventory.minimum_stock_level item
         /\ notice_figure n = MedicineInventory.balance objects item
     end.


(** ** inventory/admin.py: StockAlertAdmin *)

(** [def mark_acknowledged(self, request, queryset)].  The queryset of an
    admin action is a filter on the rows (the ticked primary keys, the
    list filters and the search of the change list); after the update
    [queryset.count()] runs that filter again.  The number in the message
    is returned. *)
Definition mark_acknowledged (now : datetime) (user : Z)
    (queryset : StockAlert.t -> bool) : M nat :=
  db <- get_db ;;
  set_alerts
    (map (fun a => if queryset a then acknowledged_row a user now else a)
       (alerts db)) ;;;
  db' <- get_db ;;
  ret (count queryset (alerts db')).

(** ** inventory/management/commands/check_alerts.py: the mail *)







(** ** inventory/management/commands/import_ods.py: [detect_columns] *)

Module import_ods.

(** [str.lower()], on the ASCII letters. *)
Definition lower_char (c : ascii) : ascii :=
  let n := nat_of_ascii c in
  if ((65 <=? n) && (n <=? 90))%nat then ascii_of_nat (n + 32) else c.

Definition lower (s : string) : string :=
  string_of_list_ascii (map lower_char (list_ascii_of_string s)).

(** [term in col] on strings. *)
Fixpoint contains (term col : string) : bool :=
  prefix term col
  || match col with
     | EmptyString => false
     | String _ rest => contains term rest
     end.

(** [patterns], in the order of the dict. *)
Definition patterns : list (string * list string) :=
  [("medicine_name", ["medicine name"; "medicine"; "drug"; "medication";
                      "name"; "medicine_name"; "drug_name"]);
   ("generic_name", ["generic"; "generic_name"; "scientific_name"]);
   ("dosage_form", ["dosage/form"; "dosage"; "form"; "dosage_form"; "type"]);
   ("strength", ["strength"; "dose"; "concentration"]);
   ("batch_no", ["batch no."; "batch no"; "batch"; "lot"; "batch_no";
                 "lot_no"; "batch_number"]);
   ("expiry_date", ["expiry date"; "expiry"; "expire"; "expiration";
                    "exp_date"; "expiry_date"]);
   ("quantity_in", ["quantity in"; "qty_in"; "quantity_in"; "stock_in";
                    "received"; "in"]);
   ("quantity_out", ["quantity out"; "qty_out"; "quantity_out"; "stock_out";
                     "dispensed"; "out"]);
   ("supplier_name", ["supplier name"; "supplier"; "vendor";
                      "supplier_name"]);
   ("storage_condition", ["storage conditions"; "storage"; "condition";
                          "storage_condition"]);
   ("unit_cost", ["cost"; "price"; "unit_cost"; "unit_price"]);
   ("date", ["date"; "transaction_date"; "entry_date"]);
   ("dispensed_to", ["dispensed to"; "patient"; "dispensed_to"; "customer"]);
   ("dispensed_by", ["dispensed by"; "dispensed_by"; "pharmacist"]);
   ("prescribing_doctor", ["doctor"; "physician"; "prescriber";
                           "prescribing_doctor"]);
   ("manufacturer", ["manufacturer"; "company"; "mfg"]);
   ("notes", ["notes"; "remarks"; "comments"; "description"])]%string.

(** [for i, col in enumerate(columns): if term in col: ...; break]: the
    original name of the first column whose lowered name holds [term].
    [columns] pairs each lowered name with the original. *)
Fixpoint first_column_with (term : string) (columns : list (string * string))
  : option string :=
  match columns with
  | [] => None
  | (col, original) :: rest =>
      if contains term col then Some original
      else first_column_with term rest
  end.

(** [if mapping[field]:], on [None] or a column name. *)
Definition truthy (column : option string) : bool :=
  match column with
  | Some (String _ _) => true
  | _ => false
  end.

(** [for term in search_terms: ...; if mapping[field]: break], from the
    entry [mapping[field]] so far. *)
Fixpoint search (search_terms : list string)
    (columns : list (string * string)) (mapped : option string)
  : option string :=
  match search_terms with
  | [] => mapped
  | term :: rest =>
      let mapped' :=
        match first_column_with term columns with
        | Some original => Some original
        | None => mapped
        end in
      if truthy mapped' then mapped' else search rest columns mapped'
  end.

(** [def detect_columns(self, df)] on the column names of the sheet, which
    are strings: the mapping, in the order of its keys. *)
Definition detect_columns (df_columns : list string)
  : list (string * option string) :=
  let columns := combine (map lower df_columns) df_columns in
  map (fun '(field, search_terms) => (field, search search_terms columns None))
    patterns.

End import_ods.

(** How [detect_columns] settles a field with search terms [terms] on the
    columns [df_columns]: not at all when no term occurs in any lowered
    column name; else on the first column that holds the first term that
    occurs anywhere. *)
Definition settled (df_columns terms : list string)
    (column : option string) : Prop :=
  match column with
  | None =>
      forall term col,
        In term terms -> In col df_columns ->
        import_ods.contains term (import_ods.lower col) = false
  | Some col =>
      exists earlier term later left right,
        terms = earlier ++ term :: later
        /\ df_columns = left ++ col :: right
        /\ import_ods.contains term (import_ods.lower col) = true
        /\ (forall c, In c left ->
                      import_ods.contains term (import_ods.lower c) = false)
        /\ (forall t c, In t earlier -> In c df_columns ->
                        import_ods.contains t (import_ods.lower c) = false)
  end.


(** ** inventory/views.py: the pages of [inventory_list] and
    [dispense_history]

    [django.core.paginator.Paginator] with its defaults ([orphans=0],
    [allow_empty_first_page=True]) over the rows of the queryset. *)

Inductive InvalidPage : Type :=
| PageNotAnInteger
| EmptyPage.

(** A page number as [int()] sees it: [request.GET.get('page')] is
    missing, or a text that is an integer literal or is not; the numbers
    the view passes itself are integers. *)
Inductive page_number : Type :=
| no_page
| page_value (as_int : option Z).

Section Paginator.

Context {A : Type}.
Variable object_list : list A.
Variable per_page : Z.

(** [Paginator.count] *)
Definition Paginator_count : Z := Z.of_nat (List.length object_list).

(** [Paginator.num_pages]: [ceil(max(1, count) / per_page)] *)
Definition num_pages : Z :=
  let hits := Z.max 1 Paginator_count in
  (hits + per_page - 1) / per_page.

(** [Paginator.validate_number] *)
Definition validate_number (number : page_number) : InvalidPage + Z :=
  match number with
  | no_page | page_value None => inl PageNotAnInteger
  | page_value (Some n) =>
      if n <? 1 then inl EmptyPage
      else if num_pages <? n then inl EmptyPage
      else inr n
  end.

(** [object_list[bottom:top]] for [0 <= bottom <= top] *)
Definition slice (bottom top : Z) : list A :=
  firstn (Z.to_nat (top - bottom)) (skipn (Z.to_nat bottom) object_list).

(** [Paginator.page]: the number and the rows of the page. *)
Definition page (number : page_number) : InvalidPage + (Z * list A) :=
  match validate_number number with
  | inl e => inl e
  | inr n =>
      let bottom := (n - 1) * per_page in
      let top := bottom + per_page in
      let top := if Paginator_count <=? top then Paginator_count else top in
      inr (n, slice bottom top)
  end.

(** [try: paginator.page(page) except PageNotAnInteger:
    paginator.page(1) except EmptyPage: paginator.page(paginator.num_pages)]
    with [page = request.GET.get('page')] *)
Definition paginate (number : page_number) : InvalidPage + (Z * list A) :=
  match page number with
  | inr p => inr p
  | inl PageNotAnInteger => page (page_value (Some 1))
  | inl EmptyPage => page (page_value (Some num_pages))
  end.

End Paginator.

(** The rows of the pages 1 to [n], page after page. *)
Fixpoint pages_up_to {A : Type} (object_list : list A) (per_page : Z)
    (n : nat) : list A :=
  match n with
  | O => []
  | S k =>
      pages_up_to object_list per_page k
      ++ match page object_list per_page
                 (page_value (Some (Z.of_nat (S k)))) with
         | inr (_, rows) => rows
         | inl _ => []
         end
  end.




(** ** Sample data: the scenarios of the specification *)

(** Midnight at the start of day [n]. *)
Definition midnight (n : Z) : datetime := n * usec_per_day.

(** 2023-12-09, a day in the life of the pharmacy. *)
Definition a_day : Z := 19700.

(** Amoxicillin, batch B1: 100 units received, expiry in 60 days. *)
Definition amoxicillin_receipt : MedicineInventory.t :=
  MedicineInventory.mk 1 a_day "Amoxicillin" "capsule" "B1" (a_day + 60)
    100 0 "" (Some 1) "" 10.

(** An entry that expires on [a_day] itself. *)
Definition expiring_today : MedicineInventory.t :=
  MedicineInventory.mk 2 (a_day - 30) "Ibuprofen" "tablet" "B7" a_day
    50 0 "" (Some 1) "" 10.

(** An entry created with expiry one day ahead. *)
Definition expiring_tomorrow : MedicineInventory.t :=
  MedicineInventory.mk 3 a_day "Cetirizine" "tablet" "C2" (a_day + 1)
    20 0 "" (Some 1) "" 10.

Definition an_alert (pk : Z) (acknowledged : bool)
    (acknowledged_at : option datetime) : StockAlert.t :=
  StockAlert.mk pk "Amoxicillin" StockAlert.low_stock
    (StockAlert.low_stock_alert "Amoxicillin" 5) acknowledged
    (midnight (a_day - 40)) (if acknowledged then Some 1 else None)
    acknowledged_at.

(** A second receipt of batch B1, dated ten days later and printed with
    a later expiry date. *)
Definition amoxicillin_later_receipt : MedicineInventory.t :=
  MedicineInventory.mk 2 (a_day + 10) "Amoxicillin" "tablet" "B1"
    (a_day + 90) 40 0 "" (Some 1) "" 10.

(** dispense("Amoxicillin", "B1", quantity, "J.Doe") *)
Definition dispense_amoxicillin (quantity : Z)
  : request QuickDispenseForm.data :=
  POST (QuickDispenseForm.mk "Amoxicillin" "B1" (Some quantity) "J.Doe" "").

Definition one_receipt : DB :=
  mkDB [amoxicillin_receipt] 2 [] 1 [] 1.

Definition two_receipts : DB :=
  mkDB [amoxicillin_receipt; amoxicillin_later_receipt] 3 [] 1 [] 1.

(** A CSV file of four rows: nothing moved, both quantities positive, a
    dispense without recipient, and an expiry date long past. *)
Definition csv_rows : list import_csv.row :=
  [ [("medicine_name", Some "Paracetamol"); ("batch_no", Some "P1");
     ("expiry_date", Some "2030-01-01");
     ("quantity_in", Some "0"); ("quantity_out", Some "0")];
    [("medicine_name", Some "Ibuprofen"); ("batch_no", Some "I1");
     ("expiry_date", Some "2030-01-01");
     ("quantity_in", Some "5"); ("quantity_out", Some "5");
     ("dispensed_to", Some "J.Doe")];
    [("medicine_name", Some "Cetirizine"); ("batch_no", Some "C1");
     ("expiry_date", Some "2030-01-01");
     ("quantity_in", Some "0"); ("quantity_out", Some "5")];
    [("medicine_name", Some "Aspirin"); ("batch_no", Some "A1");
     ("expiry_date", Some "2020-01-01");
     ("quantity_in", Some "10"); ("quantity_out", Some "0")] ]%string.

(** The same four entries typed into the manual form on [a_day]. *)
Definition form_entry (name batch : string) (expiry quantity_in
    quantity_out : Z) (dispensed_to : string) : MedicineInventoryForm.data :=
  MedicineInventoryForm.mk (Some a_day) name "tablet" batch (Some expiry)
    (Some quantity_in)
    (MedicineInventoryForm.posted_text (Some quantity_out))
    dispensed_to "" (Some 10).


(** A crowded ledger: five entries past their expiry date, five that
    expire within the month and one batch that is low on stock. *)
Definition crowded_ledger : list MedicineInventory.t :=
  map (fun k => MedicineInventory.mk k a_day "Ibuprofen" "tablet" "B7"
                  (a_day - 1) 100 0 "" (Some 1) "" 10) [1; 2; 3; 4; 5]
  ++ map (fun k => MedicineInventory.mk k a_day "Amoxicillin" "capsule" "B1"
                     (a_day + 5) 100 0 "" (Some 1) "" 10) [6; 7; 8; 9; 10]
  ++ [MedicineInventory.mk 11 a_day "Cetirizine" "tablet" "C1" (a_day + 400)
        1 0 "" (Some 1) "" 10].


(** The header of a stock sheet. *)
Definition sheet_header : list string :=
  ["Medicine Name"; "Batch No."; "Expiry Date"; "Qty In"; "Qty Out";
   "Date"]%string.

(** * Properties *)

(** ** Balance *)

Section Balance.

Import MedicineInventory.

Variables name batch : string.

Lemma fold_quantity_in (objects : list t) (a : Z) :
  fold_left (fun acc r => acc + quantity_in r)
    (filter (same_key name batch) objects) a
  = a + total_received name batch objects.
Proof.
  revert a; induction objects as [|e rest IH]; intros a; simpl.
  - lia.
  - destruct (same_key name batch e); simpl; rewrite IH; lia.
Qed.

Lemma fold_quantity_out (objects : list t) (a : Z) :
  fold_left (fun acc r => acc + quantity_out r)
    (filter (same_key name batch) objects) a
  = a + total_dispensed name batch objects.
Proof.
  revert a; induction objects as [|e rest IH]; intros a; simpl.
  - lia.
  - destruct (same_key name batch e); simpl; rewrite IH; lia.
Qed.

Lemma or_zero_Some (v : Z) : or_zero (Some v) = v.
Proof.
  unfold or_zero. destruct (v =? 0) eqn:E; [apply Z.eqb_eq in E|]; lia.
Qed.

Lemma total_in_received (objects : list t) :
  or_zero (Sum quantity_in (filter_key name batch objects))
  = total_received name batch objects.
Proof.
  pose proof (fold_quantity_in objects 0) as H.
  unfold filter_key, Sum.
  destruct (filter (same_key name batch) objects) as [|r rs] eqn:E.
  - simpl in H. simpl. lia.
  - rewrite or_zero_Some. rewrite H. lia.
Qed.

Lemma total_out_dispensed (objects : list t) :
  or_zero (Sum quantity_out (filter_key name batch objects))
  = total_dispensed name batch objects.
Proof.
  pose proof (fold_quantity_out objects 0) as H.
  unfold filter_key, Sum.
  destruct (filter (same_key name batch) objects) as [|r rs] eqn:E.
  - simpl in H. simpl. lia.
  - rewrite or_zero_Some. rewrite H. lia.
Qed.

Lemma total_received_app (l1 l2 : list t) :
  total_received name batch (l1 ++ l2)
  = total_received name batch l1 + total_received name batch l2.
Proof. induction l1 as [|e rest IH]; simpl; [|rewrite IH]; lia. Qed.

Lemma total_dispensed_app (l1 l2 : list t) :
  total_dispensed name batch (l1 ++ l2)
  = total_dispensed name batch l1 + total_dispensed name batch l2.
Proof. induction l1 as [|e rest IH]; simpl; [|rewrite IH]; lia. Qed.


End Balance.

(** The balance of a row is the net movement of its key. *)
Lemma balance_net (objects : list MedicineInventory.t)
    (self : MedicineInventory.t) :
  MedicineInventory.balance objects self
  = total_received (MedicineInventory.medicine_name self)
      (MedicineInventory.batch_no self) objects
    - total_dispensed (MedicineInventory.medicine_name self)
        (MedicineInventory.batch_no self) objects.
Proof.
  unfold MedicineInventory.balance.
  rewrite total_in_received, total_out_dispensed. reflexivity.
Qed.

(** Only the key of [self] matters. *)
Lemma balance_same_key (objects : list MedicineInventory.t)
    (a b : MedicineInventory.t) :
  MedicineInventory.medicine_name a = MedicineInventory.medicine_name b ->
  MedicineInventory.batch_no a = MedicineInventory.batch_no b ->
  MedicineInventory.balance objects a = MedicineInventory.balance objects b.
Proof. intros Hn Hb. rewrite !balance_net, Hn, Hb. reflexivity. Qed.

Lemma balance_app (objects : list MedicineInventory.t)
    (e self : MedicineInventory.t) :
  MedicineInventory.balance (objects ++ [e]) self
  = MedicineInventory.balance objects self
    + (if MedicineInventory.same_key (MedicineInventory.medicine_name self)
            (MedicineInventory.batch_no self) e
       then MedicineInventory.quantity_in e - MedicineInventory.quantity_out e
       else 0).
Proof.
  rewrite !balance_net, total_received_app, total_dispensed_app. simpl.
  destruct (MedicineInventory.same_key _ _ e); lia.
Qed.



(** ** Expiry and low stock *)

Lemma usec_per_day_pos : 0 < usec_per_day.
Proof. reflexivity. Qed.

Lemma date_of_days_later (now n : Z) :
  date_of (now + timedelta_days n) = date_of now + n.
Proof.
  unfold date_of, timedelta_days.
  apply Z.div_add. pose proof usec_per_day_pos. lia.
Qed.

(** C7, as the claim words it, fails on the expiry date itself: the entry
    counts as expired and [days_to_expiry] is 0, not negative. *)
Lemma expired_with_zero_days_to_expiry :
  MedicineInventory.is_expired (midnight a_day) expiring_today = true
  /\ ~ MedicineInventory.days_to_expiry (midnight a_day) expiring_today < 0.
Proof. split; [reflexivity | vm_compute; discriminate]. Qed.

(** C7 (amended). [is_expired] holds exactly when the expiry date is on or
    before the current date; [days_to_expiry] is the expiry date minus the
    current date in whole days, so it is zero or negative exactly when the
    entry is expired (zero on the expiry date, negative after it); an entry
    with expiry one day after its creation is, two days later, expired with
    [days_to_expiry = -1]; [is_low_stock] holds exactly when the balance of
    the entry's key is below the entry's minimum stock level. *)
Theorem expiry_and_low_stock_status (now : datetime)
    (objects : list MedicineInventory.t) (self : MedicineInventory.t) :
  (MedicineInventory.is_expired now self = true
   <-> MedicineInventory.expiry_date self <= date_of now)
  /\ MedicineInventory.days_to_expiry now self
     = MedicineInventory.expiry_date self - date_of now
  /\ (MedicineInventory.is_expired now self = true
      <-> MedicineInventory.days_to_expiry now self <= 0)
  /\ (forall created : datetime,
        MedicineInventory.expiry_date self = date_of created + 1 ->
        MedicineInventory.is_expired (created + timedelta_days 2) self = true
        /\ MedicineInventory.days_to_expiry (created + timedelta_days 2) self
           = -1)
  /\ (MedicineInventory.is_low_stock objects self = true
      <-> MedicineInventory.balance objects self
          < MedicineInventory.minimum_stock_level self).
Proof.
  unfold MedicineInventory.is_expired, MedicineInventory.days_to_expiry,
    MedicineInventory.is_low_stock.
  repeat split; try (apply Z.leb_le); try (apply Z.ltb_lt).
  - intros H. apply Z.leb_le in H. lia.
  - intros H. apply Z.leb_le. lia.
  - rewrite date_of_days_later. apply Z.leb_le. lia.
  - rewrite date_of_days_later. lia.
Qed.

Lemma expiry_and_low_stock_status_witness :
  MedicineInventory.expiry_date expiring_tomorrow
  = date_of (midnight a_day) + 1
  /\ MedicineInventory.is_expired (midnight a_day + timedelta_days 2)
       expiring_tomorrow = true
  /\ MedicineInventory.days_to_expiry (midnight a_day + timedelta_days 2)
       expiring_tomorrow = -1.
Proof.
  split; [reflexivity|].
  apply (expiry_and_low_stock_status (midnight a_day) [] expiring_tomorrow).
  reflexivity.
Defined.

(** ** Retention sweep *)

Lemma old_alerts_iff (now : datetime) (a : StockAlert.t) :
  check_alerts.old_alerts now a = true
  <-> StockAlert.is_acknowledged a = true
      /\ exists t, StockAlert.acknowledged_at a = Some t
                   /\ t <= now - timedelta_days 30.
Proof.
  unfold check_alerts.old_alerts. rewrite andb_true_iff.
  destruct (StockAlert.acknowledged_at a) as [t|].
  - rewrite Z.leb_le. split.
    + intros [H1 H2]. split; [assumption|]. exists t. split; [reflexivity|lia].
    + intros [H1 [t' [E H2]]]. injection E as <-. split; [assumption|lia].
  - split.
    + intros [_ H]. discriminate.
    + intros [_ [t [E _]]]. discriminate.
Qed.

(** C9. The retention sweep deletes exactly the alerts that are
    acknowledged with an acknowledgment timestamp on or before now minus 30
    days, and keeps every other alert: one acknowledged 31 days ago goes,
    one acknowledged 29 days ago stays, an unacknowledged one always stays.
    It reports the number of rows deleted and touches no other table. *)
Theorem clean_deletes_exactly_old_acknowledged (now : datetime) (db : DB) :
  let after := snd (check_alerts.clean now db) in
  fst (check_alerts.clean now db)
  = Ok (Z.of_nat (List.length (alerts db))
        - Z.of_nat (List.length (alerts after)))
  /\ inventory after = inventory db
  /\ history after = history db
  /\ (forall a,
        In a (alerts after)
        <-> In a (alerts db)
            /\ ~ (StockAlert.is_acknowledged a = true
                  /\ exists t, StockAlert.acknowledged_at a = Some t
                               /\ t <= now - timedelta_days 30))
  /\ (forall a,
        StockAlert.is_acknowledged a = true ->
        StockAlert.acknowledged_at a = Some (now - timedelta_days 31) ->
        ~ In a (alerts after))
  /\ (forall a,
        In a (alerts db) ->
        StockAlert.acknowledged_at a = Some (now - timedelta_days 29) ->
        In a (alerts after))
  /\ (forall a,
        In a (alerts db) ->
        StockAlert.is_acknowledged a = false ->
        In a (alerts after)).
Proof.
  intros after.
  assert (Hin : forall a,
             In a (alerts after)
             <-> In a (alerts db) /\ check_alerts.old_alerts now a = false).
  { intros a. subst after. simpl. rewrite filter_In, negb_true_iff.
    reflexivity. }
  split; [|split; [reflexivity|split; [reflexivity|]]].
  - subst after. simpl. f_equal.
    pose proof (filter_length (check_alerts.old_alerts now) (alerts db)). lia.
  - repeat split.
    + apply Hin. assumption.
    + intros Hold. apply old_alerts_iff in Hold.
      apply Hin in H as [_ H]. congruence.
    + intros [Hdb Hnot]. apply Hin. split; [assumption|].
      destruct (check_alerts.old_alerts now a) eqn:E; [|reflexivity].
      exfalso. apply Hnot. apply old_alerts_iff. assumption.
    + intros a Hack Hat Hafter. apply Hin in Hafter as [_ Hf].
      assert (check_alerts.old_alerts now a = true); [|congruence].
      apply old_alerts_iff. split; [assumption|].
      exists (now - timedelta_days 31). split; [assumption|].
      unfold timedelta_days. pose proof usec_per_day_pos. lia.
    + intros a Hdb Hat. apply Hin. split; [assumption|].
      destruct (check_alerts.old_alerts now a) eqn:E; [|reflexivity].
      apply old_alerts_iff in E as [_ [t [Et Hle]]].
      rewrite Hat in Et. injection Et as Et. subst t.
      unfold timedelta_days, usec_per_day in Hle. lia.
    + intros a Hdb Hack. apply Hin. split; [assumption|].
      destruct (check_alerts.old_alerts now a) eqn:E; [|reflexivity].
      apply old_alerts_iff in E as [Ht _]. congruence.
Qed.

Lemma clean_deletes_exactly_old_acknowledged_witness :
  let now := midnight a_day in
  let old := an_alert 1 true (Some (now - timedelta_days 31)) in
  let recent := an_alert 2 true (Some (now - timedelta_days 29)) in
  let open := an_alert 3 false None in
  let db := mkDB [] 1 [] 1 [old; recent; open] 4 in
  let after := snd (check_alerts.clean now db) in
  ~ In old (alerts after) /\ In recent (alerts after) /\ In open (alerts after).
Proof.
  intros now old recent open db after.
  destruct (clean_deletes_exactly_old_acknowledged now db)
    as (_ & _ & _ & _ & H31 & H29 & Hopen).
  split; [|split].
  - apply H31; reflexivity.
  - apply H29; [right; left|]; reflexivity.
  - apply Hopen; [right; right; left|]; reflexivity.
Defined.

(** ** Acknowledging an alert *)

Lemma find_after_update (k : Z) (b : StockAlert.t) (rows : list StockAlert.t)
    (a : StockAlert.t) :
  StockAlert.id b = k ->
  find (fun x => StockAlert.id x =? k) rows = Some a ->
  find (fun x => StockAlert.id x =? k) (update_row b rows) = Some b.
Proof.
  intros Hb. subst k. induction rows as [|r rest IH]; simpl; [discriminate|].
  destruct (StockAlert.id r =? StockAlert.id b) eqn:E; simpl.
  - intros _. rewrite Z.eqb_refl. reflexivity.
  - rewrite E. exact IH.
Qed.

Lemma update_keeps_others (b : StockAlert.t) (rows : list StockAlert.t)
    (x : StockAlert.t) :
  In x rows -> StockAlert.id x <> StockAlert.id b ->
  In x (update_row b rows).
Proof.
  intros Hin Hne. induction rows as [|r rest IH]; simpl; [contradiction|].
  destruct Hin as [->|Hin].
  - destruct (StockAlert.id x =? StockAlert.id b) eqn:E.
    + apply Z.eqb_eq in E. contradiction.
    + left. reflexivity.
  - destruct (StockAlert.id r =? StockAlert.id b);
      right; [assumption | apply IH; assumption].
Qed.

(** Saving the same row twice is saving it once. *)
Lemma update_row_twice (b : StockAlert.t) (rows : list StockAlert.t) :
  update_row b (update_row b rows) = update_row b rows.
Proof.
  induction rows as [|r rest IH]; simpl; [reflexivity|].
  destruct (StockAlert.id r =? StockAlert.id b) eqn:E; simpl.
  - rewrite Z.eqb_refl. reflexivity.
  - rewrite E, IH. reflexivity.
Qed.

Lemma stock_alerts_acknowledge (now : datetime) (user k : Z) (db : DB)
    (a : StockAlert.t) :
  find (fun x => StockAlert.id x =? k) (alerts db) = Some a ->
  stock_alerts now user (POST (mk_alert_post (Some k) "acknowledge")) db
  = (Ok redirect_stock_alerts,
     mkDB (inventory db) (inventory_seq db) (history db) (history_seq db)
       (update_row (acknowledged_row a user now) (alerts db))
       (alerts_seq db)).
Proof.
  intros Hfind.
  unfold stock_alerts, get_object_or_404, save_alert, set_alerts, bind,
    get_db, ret. simpl.
  rewrite Hfind. reflexivity.
Qed.

(** C8, as the claim words it, fails: a second acknowledgment, by another
    user at a later instant, replaces the principal and the timestamp that
    the first one recorded. *)
Lemma second_acknowledgment_overwrites :
  let req := POST (mk_alert_post (Some 1) "acknowledge") in
  let db0 := mkDB [] 1 [] 1 [an_alert 1 false None] 2 in
  let db1 := snd (stock_alerts (midnight a_day) 7 req db0) in
  let db2 := snd (stock_alerts (midnight (a_day + 1)) 8 req db1) in
  option_map StockAlert.acknowledged_by (first (alerts db1)) = Some (Some 7)
  /\ option_map StockAlert.acknowledged_at (first (alerts db1))
     = Some (Some (midnight a_day))
  /\ option_map StockAlert.acknowledged_by (first (alerts db2)) = Some (Some 8)
  /\ option_map StockAlert.acknowledged_at (first (alerts db2))
     = Some (Some (midnight (a_day + 1)))
  /\ db2 <> db1.
Proof. vm_compute. repeat split; discriminate. Qed.

(** C8 (amended). Acknowledging an alert sets its acknowledged flag, the
    acknowledging principal and the acknowledgment timestamp and leaves
    every other row alone.  Acknowledging it again does not raise and
    keeps the flag set, and the principal and timestamp then recorded are
    those of the latest acknowledgment; repeated by the same principal at
    the same instant it changes nothing. *)
Theorem acknowledge_records_latest (now : datetime) (user k : Z) (db : DB)
    (a : StockAlert.t) :
  find (fun x => StockAlert.id x =? k) (alerts db) = Some a ->
  let req := POST (mk_alert_post (Some k) "acknowledge") in
  let db1 := snd (stock_alerts now user req db) in
  fst (stock_alerts now user req db) = Ok redirect_stock_alerts
  /\ find (fun x => StockAlert.id x =? k) (alerts db1)
     = Some (acknowledged_row a user now)
  /\ (forall x, In x (alerts db) -> StockAlert.id x <> k ->
                In x (alerts db1))
  /\ inventory db1 = inventory db
  /\ history db1 = history db
  /\ (forall now2 user2,
        let db2 := snd (stock_alerts now2 user2 req db1) in
        fst (stock_alerts now2 user2 req db1) = Ok redirect_stock_alerts
        /\ find (fun x => StockAlert.id x =? k) (alerts db2)
           = Some (acknowledged_row a user2 now2))
  /\ snd (stock_alerts now user req db1) = db1.
Proof.
  intros Hfind req db1.
  assert (Hid : StockAlert.id a = k).
  { apply find_some in Hfind as [_ H]. apply Z.eqb_eq in H. exact H. }
  pose proof (stock_alerts_acknowledge now user k db a Hfind) as Heq.
  subst db1 req. rewrite Heq. cbn [fst snd alerts inventory history].
  set (rows1 := update_row (acknowledged_row a user now) (alerts db)).
  set (db1 := mkDB (inventory db) (inventory_seq db) (history db)
                (history_seq db) rows1 (alerts_seq db)).
  assert (Hfind1 : find (fun x => StockAlert.id x =? k) (alerts db1)
                   = Some (acknowledged_row a user now)).
  { apply find_after_update with (a := a); assumption. }
  split; [reflexivity|]. split; [exact Hfind1|].
  split; [intros x Hx Hne; apply update_keeps_others;
          [assumption | simpl; congruence]|].
  split; [reflexivity|]. split; [reflexivity|]. split.
  - intros now2 user2.
    rewrite (stock_alerts_acknowledge now2 user2 k db1 _ Hfind1).
    split; [reflexivity|]. simpl.
    apply find_after_update with (a := acknowledged_row a user now);
      [exact Hid | exact Hfind1].
  - rewrite (stock_alerts_acknowledge now user k db1 _ Hfind1).
    unfold db1. simpl. f_equal. unfold rows1.
    apply (update_row_twice (acknowledged_row a user now)).
Qed.

Lemma acknowledge_records_latest_witness :
  let db := mkDB [] 1 [] 1 [an_alert 1 false None] 2 in
  let req := POST (mk_alert_post (Some 1) "acknowledge") in
  find (fun x => StockAlert.id x =? 1) (alerts db)
  = Some (an_alert 1 false None)
  /\ fst (stock_alerts (midnight a_day) 7 req db) = Ok redirect_stock_alerts.
Proof.
  intros db req. split; [reflexivity|].
  apply (acknowledge_records_latest (midnight a_day) 7 1 db
           (an_alert 1 false None)).
  reflexivity.
Defined.

(** ** Dispensing *)

Lemma balance_of_self (objects : list MedicineInventory.t)
    (self : MedicineInventory.t) :
  MedicineInventory.balance objects self
  = balance_of objects (MedicineInventory.medicine_name self)
      (MedicineInventory.batch_no self).
Proof. apply balance_same_key; reflexivity. Qed.

Lemma same_key_true (name batch : string) (r : MedicineInventory.t) :
  MedicineInventory.same_key name batch r = true
  <-> MedicineInventory.medicine_name r = name
      /\ MedicineInventory.batch_no r = batch.
Proof.
  unfold MedicineInventory.same_key.
  rewrite andb_true_iff, !String.eqb_eq. reflexivity.
Qed.

(** *** The default ordering *)

Lemma insert_desc_first (r : MedicineInventory.t)
    (sorted : list MedicineInventory.t) :
  first (MedicineInventory.insert_desc r sorted)
  = match first sorted with
    | None => Some r
    | Some s =>
        if MedicineInventory.date r <? MedicineInventory.date s
        then Some s else Some r
    end.
Proof.
  destruct sorted as [|s rest]; simpl; [reflexivity|].
  destruct (MedicineInventory.date r <? MedicineInventory.date s);
    reflexivity.
Qed.

Lemma first_ordered_none (rows : list MedicineInventory.t) :
  first (MedicineInventory.ordered rows) = None -> rows = [].
Proof.
  destruct rows as [|r rest]; [reflexivity|].
  simpl. rewrite insert_desc_first.
  destruct (first (MedicineInventory.ordered rest)) as [s|];
    [destruct (_ <? _)|]; discriminate.
Qed.

(** The first row under the default ordering is a row of the queryset
    with the latest movement date. *)
Lemma first_ordered_latest (rows : list MedicineInventory.t)
    (h : MedicineInventory.t) :
  first (MedicineInventory.ordered rows) = Some h ->
  In h rows
  /\ forall r, In r rows ->
               MedicineInventory.date r <= MedicineInventory.date h.
Proof.
  revert h. induction rows as [|x rest IH]; intros h; simpl; [discriminate|].
  rewrite insert_desc_first.
  destruct (first (MedicineInventory.ordered rest)) as [s|] eqn:Hs.
  - destruct (IH s eq_refl) as [Hin Hmax].
    destruct (MedicineInventory.date x <? MedicineInventory.date s) eqn:E;
      intros H; injection H as <-.
    + apply Z.ltb_lt in E. split; [right; assumption|].
      intros r [<-|Hr]; [lia | apply Hmax; assumption].
    + apply Z.ltb_ge in E. split; [left; reflexivity|].
      intros r [<-|Hr]; [lia | specialize (Hmax r Hr); lia].
  - apply first_ordered_none in Hs. subst rest.
    intros H; injection H as <-. split; [left; reflexivity|].
    intros r [<-|[]]. lia.
Qed.

Lemma source_entry_spec (db : DB) (cd : QuickDispenseForm.cleaned_data)
    (src : MedicineInventory.t) :
  source_entry db cd = Some src ->
  In src (inventory db)
  /\ MedicineInventory.medicine_name src = QuickDispenseForm.c_medicine_name cd
  /\ MedicineInventory.batch_no src = QuickDispenseForm.c_batch_no cd
  /\ forall r, In r (inventory db) ->
               MedicineInventory.same_key
                 (QuickDispenseForm.c_medicine_name cd)
                 (QuickDispenseForm.c_batch_no cd) r = true ->
               MedicineInventory.date r <= MedicineInventory.date src.
Proof.
  unfold source_entry, MedicineInventory.filter_key. intros H.
  apply first_ordered_latest in H as [Hin Hmax].
  apply filter_In in Hin as [Hin Hkey]. apply same_key_true in Hkey as [Hn Hb].
  repeat split; try assumption.
  intros r Hr Hk. apply Hmax. apply filter_In. split; assumption.
Qed.

Lemma source_entry_none (db : DB) (cd : QuickDispenseForm.cleaned_data) :
  source_entry db cd = None
  <-> MedicineInventory.filter_key (QuickDispenseForm.c_medicine_name cd)
        (QuickDispenseForm.c_batch_no cd) (inventory db) = [].
Proof.
  unfold source_entry. split.
  - apply first_ordered_none.
  - intros ->. reflexivity.
Qed.

(** *** What a dispense request does to the store *)

Lemma quick_dispense_valid (p : persistence) (now : datetime) (user : Z)
    (d : QuickDispenseForm.data) (cd : QuickDispenseForm.cleaned_data)
    (db : DB) :
  QuickDispenseForm.is_valid d = Some cd ->
  quick_dispense p now user (POST d) db = after_dispense p now user cd db.
Proof.
  intros Hvalid. unfold quick_dispense, after_dispense. rewrite Hvalid.
  unfold try_except, bind, get_db. cbn beta iota.
  fold (source_entry db cd).
  destruct (source_entry db cd) as [src|] eqn:Hsrc; [|reflexivity].
  apply source_entry_spec in Hsrc as (_ & Hn & Hb & _).
  rewrite (balance_of_self (inventory db) src), Hn, Hb.
  destruct (balance_of _ _ _ <? _); [reflexivity|].
  destruct p; reflexivity.
Qed.

Lemma quick_dispense_cases (p : persistence) (now : datetime) (user : Z)
    (req : request QuickDispenseForm.data) (db : DB) :
  quick_dispense p now user req db = (Ok form_shown, db)
  \/ quick_dispense p now user req db = (Ok form_invalid, db)
  \/ exists d cd,
       req = POST d /\ QuickDispenseForm.is_valid d = Some cd
       /\ quick_dispense p now user req db = after_dispense p now user cd db.
Proof.
  destruct req as [|d]; [left; reflexivity|].
  destruct (QuickDispenseForm.is_valid d) as [cd|] eqn:E.
  - right; right. exists d, cd. repeat split; try assumption.
    apply quick_dispense_valid; assumption.
  - right; left. unfold quick_dispense. rewrite E. reflexivity.
Qed.

(** C3. A dispense checks its preconditions in order and fails fast:
    with no ledger entry for (medicine_name, batch_no) it answers
    NOT_FOUND, whatever the balance; with an entry and
    balance(medicine_name, batch_no) < quantity it answers
    INSUFFICIENT_STOCK; either way the store is left as it was, so no
    ledger entry and no history row is created and the balance of the key
    is unchanged. *)
Theorem dispense_fails_fast (p : persistence) (now : datetime) (user : Z)
    (d : QuickDispenseForm.data) (cd : QuickDispenseForm.cleaned_data)
    (db : DB) :
  QuickDispenseForm.is_valid d = Some cd ->
  let name := QuickDispenseForm.c_medicine_name cd in
  let batch := QuickDispenseForm.c_batch_no cd in
  (MedicineInventory.filter_key name batch (inventory db) = [] ->
   quick_dispense p now user (POST d) db = (Ok not_found, db))
  /\ (MedicineInventory.filter_key name batch (inventory db) <> [] ->
      balance_of (inventory db) name batch < QuickDispenseForm.c_quantity cd ->
      quick_dispense p now user (POST d) db = (Ok insufficient_stock, db))
  /\ (fst (quick_dispense p now user (POST d) db) = Ok not_found
      \/ fst (quick_dispense p now user (POST d) db) = Ok insufficient_stock ->
      inventory (snd (quick_dispense p now user (POST d) db)) = inventory db
      /\ history (snd (quick_dispense p now user (POST d) db)) = history db
      /\ balance_of (inventory (snd (quick_dispense p now user (POST d) db)))
           name batch
         = balance_of (inventory db) name batch).
Proof.
  intros Hvalid name batch.
  rewrite (quick_dispense_valid p now user d cd db Hvalid).
  unfold after_dispense. fold name batch.
  split; [|split].
  - intros Hnone. apply source_entry_none in Hnone. rewrite Hnone.
    reflexivity.
  - intros Hsome Hlow.
    destruct (source_entry db cd) as [src|] eqn:Hsrc.
    + apply Z.ltb_lt in Hlow. rewrite Hlow. reflexivity.
    + apply source_entry_none in Hsrc. contradiction.
  - destruct (source_entry db cd) as [src|]; [|intros _; repeat split].
    destruct (balance_of (inventory db) name batch
              <? QuickDispenseForm.c_quantity cd);
      [intros _; repeat split|].
    destruct p; simpl; intros [H|H]; discriminate.
Qed.

Lemma dispense_fails_fast_witness :
  exists cd,
    QuickDispenseForm.is_valid
      (QuickDispenseForm.mk "Amoxicillin" "B1" (Some 10) "J.Doe" "")
    = Some cd
    /\ MedicineInventory.filter_key (QuickDispenseForm.c_medicine_name cd)
         (QuickDispenseForm.c_batch_no cd) (inventory empty_db) = []
    /\ quick_dispense healthy (midnight a_day) 1 (dispense_amoxicillin 10)
         empty_db
       = (Ok not_found, empty_db).
Proof.
  eexists. split; [reflexivity|]. split; [reflexivity|].
  apply (dispense_fails_fast healthy (midnight a_day) 1
           (QuickDispenseForm.mk "Amoxicillin" "B1" (Some 10) "J.Doe" "")
           _ empty_db eq_refl).
  reflexivity.
Defined.

(** *** The balance under dispenses *)

Lemma dispense_entry_balance (now : datetime) (user : Z)
    (cd : QuickDispenseForm.cleaned_data) (src : MedicineInventory.t)
    (pk : Z) (objects : list MedicineInventory.t) (name batch : string) :
  balance_of (objects ++ [dispense_entry now user cd src pk]) name batch
  = balance_of objects name batch
    - (if String.eqb (QuickDispenseForm.c_medicine_name cd) name
          && String.eqb (QuickDispenseForm.c_batch_no cd) batch
       then QuickDispenseForm.c_quantity cd else 0).
Proof.
  unfold balance_of. rewrite balance_app. simpl.
  unfold MedicineInventory.same_key. simpl.
  destruct (_ && _); lia.
Qed.

Lemma after_dispense_nonnegative (p : persistence) (now : datetime)
    (user : Z) (cd : QuickDispenseForm.cleaned_data) (db : DB)
    (name batch : string) :
  0 <= balance_of (inventory db) name batch ->
  0 <= balance_of (inventory (snd (after_dispense p now user cd db)))
         name batch.
Proof.
  intros H0. unfold after_dispense.
  destruct (source_entry db cd) as [src|]; [|exact H0].
  destruct (balance_of (inventory db) (QuickDispenseForm.c_medicine_name cd)
              (QuickDispenseForm.c_batch_no cd)
            <? QuickDispenseForm.c_quantity cd) eqn:E; [exact H0|].
  apply Z.ltb_ge in E.
  assert (Hnew : 0 <= balance_of
                        (inventory db
                         ++ [dispense_entry now user cd src (inventory_seq db)])
                        name batch).
  { rewrite dispense_entry_balance.
    destruct (String.eqb (QuickDispenseForm.c_medicine_name cd) name
              && String.eqb (QuickDispenseForm.c_batch_no cd) batch) eqn:K;
      [|lia].
    apply andb_true_iff in K as [Kn Kb].
    apply String.eqb_eq in Kn, Kb. subst name batch. lia. }
  destruct p; simpl; assumption.
Qed.

Lemma quick_dispense_nonnegative (p : persistence) (now : datetime)
    (user : Z) (req : request QuickDispenseForm.data) (db : DB)
    (name batch : string) :
  0 <= balance_of (inventory db) name batch ->
  0 <= balance_of (inventory (snd (quick_dispense p now user req db)))
         name batch.
Proof.
  intros H0.
  destruct (quick_dispense_cases p now user req db)
    as [E|[E|(d & cd & _ & _ & E)]]; rewrite E; simpl; try assumption.
  apply after_dispense_nonnegative; assumption.
Qed.

(** C2. A dispense of quantity q succeeds only if
    balance(medicine_name, batch_no) >= q when it is checked, and then
    takes exactly q off that balance; so from a state where the balance of
    a key is non-negative, it is still non-negative after any sequence of
    dispense requests, whatever each of them answers. *)
Theorem dispense_keeps_balance_nonnegative :
  (forall p now user d db,
      fst (quick_dispense p now user (POST d) db) = Ok dispensed ->
      exists cd,
        QuickDispenseForm.is_valid d = Some cd
        /\ QuickDispenseForm.c_quantity cd
           <= balance_of (inventory db)
                (QuickDispenseForm.c_medicine_name cd)
                (QuickDispenseForm.c_batch_no cd)
        /\ balance_of (inventory (snd (quick_dispense p now user (POST d) db)))
             (QuickDispenseForm.c_medicine_name cd)
             (QuickDispenseForm.c_batch_no cd)
           = balance_of (inventory db)
               (QuickDispenseForm.c_medicine_name cd)
               (QuickDispenseForm.c_batch_no cd)
             - QuickDispenseForm.c_quantity cd)
  /\ (forall calls db name batch,
        0 <= balance_of (inventory db) name batch ->
        0 <= balance_of (inventory (run_dispenses calls db)) name batch).
Proof.
  split.
  - intros p now user d db Hok.
    destruct (QuickDispenseForm.is_valid d) as [cd|] eqn:Hvalid.
    + exists cd. split; [reflexivity|].
      rewrite (quick_dispense_valid p now user d cd db Hvalid) in *.
      unfold after_dispense in *.
      destruct (source_entry db cd) as [src|]; [|discriminate].
      destruct (balance_of (inventory db)
                  (QuickDispenseForm.c_medicine_name cd)
                  (QuickDispenseForm.c_batch_no cd)
                <? QuickDispenseForm.c_quantity cd) eqn:E; [discriminate|].
      apply Z.ltb_ge in E. split; [exact E|].
      destruct p; try discriminate. simpl.
      rewrite dispense_entry_balance, !String.eqb_refl. reflexivity.
    + unfold quick_dispense in Hok. rewrite Hvalid in Hok. discriminate.
  - induction calls as [|[[[p now] user] req] rest IH]; intros db name batch H0.
    + exact H0.
    + simpl. apply IH. apply quick_dispense_nonnegative. exact H0.
Qed.

Lemma dispense_keeps_balance_nonnegative_witness :
  let calls := [(healthy, midnight a_day, 1, dispense_amoxicillin 95);
                (healthy, midnight a_day, 1, dispense_amoxicillin 10);
                (refuses_history_insert, midnight a_day, 1,
                 dispense_amoxicillin 5)] in
  0 <= balance_of (inventory one_receipt) "Amoxicillin" "B1"
  /\ 0 <= balance_of (inventory (run_dispenses calls one_receipt))
            "Amoxicillin" "B1".
Proof.
  intros calls.
  assert (H0 : 0 <= balance_of (inventory one_receipt) "Amoxicillin" "B1")
    by (vm_compute; discriminate).
  split; [exact H0|].
  apply (proj2 dispense_keeps_balance_nonnegative calls one_receipt
           "Amoxicillin"%string "B1"%string H0).
Defined.

(** *** The two rows of a dispense *)

(** C4, as the claim words it, fails twice on a dispense of 10 from a
    batch of 100.  When the persistence layer refuses the history insert,
    the ledger entry written just before stays: one row without the other.
    And when both inserts go through, the history row does not point at
    the new ledger entry. *)
Lemma dispense_rows_not_both_or_neither :
  let failing :=
    quick_dispense refuses_history_insert (midnight a_day) 1
      (dispense_amoxicillin 10) one_receipt in
  let succeeding :=
    quick_dispense healthy (midnight a_day) 1
      (dispense_amoxicillin 10) one_receipt in
  fst failing = Ok processing_error
  /\ List.length (inventory (snd failing)) = 2%nat
  /\ history (snd failing) = []
  /\ ~ both_or_neither one_receipt (snd failing)
  /\ fst succeeding = Ok dispensed
  /\ map DispenseHistory.inventory_record (history (snd succeeding)) = [None]
  /\ ~ both_or_neither one_receipt (snd succeeding).
Proof.
  cbv zeta. repeat split.
  - intros [[Hi _]|(e & h & _ & Hh & _)].
    + vm_compute in Hi. discriminate.
    + vm_compute in Hh. discriminate.
  - intros [[Hi _]|(e & h & _ & Hh & Href)].
    + vm_compute in Hi. discriminate.
    + vm_compute in Hh. injection Hh as <-. discriminate.
Qed.

(** C4 (amended). On every successful dispense of quantity q a new ledger
    entry is inserted with quantity_out = q, quantity_in = 0 and the
    expiry date of the source entry of that (medicine_name, batch_no), and
    after it a dispense-history row with the same medicine, batch,
    recipient and quantity.  The two inserts are separate writes, each
    committed on its own: when the history insert is refused after the
    checks passed, the request answers with an error and the ledger entry
    stays without a history row. *)
Theorem dispense_writes_entry_then_record (p : persistence)
    (now : datetime) (user : Z) (d : QuickDispenseForm.data)
    (cd : QuickDispenseForm.cleaned_data) (db : DB) :
  QuickDispenseForm.is_valid d = Some cd ->
  let after := snd (quick_dispense p now user (POST d) db) in
  let answer := fst (quick_dispense p now user (POST d) db) in
  let wrote_entry :=
    exists src e,
      source_entry db cd = Some src
      /\ inventory after = inventory db ++ [e]
      /\ MedicineInventory.medicine_name e
         = QuickDispenseForm.c_medicine_name cd
      /\ MedicineInventory.batch_no e = QuickDispenseForm.c_batch_no cd
      /\ MedicineInventory.quantity_out e = QuickDispenseForm.c_quantity cd
      /\ MedicineInventory.quantity_in e = 0
      /\ MedicineInventory.expiry_date e = MedicineInventory.expiry_date src
      /\ MedicineInventory.dispensed_to e
         = QuickDispenseForm.c_patient_name cd in
  (answer = Ok dispensed ->
   wrote_entry
   /\ exists h,
        history after = history db ++ [h]
        /\ DispenseHistory.medicine_name h
           = QuickDispenseForm.c_medicine_name cd
        /\ DispenseHistory.batch_no h = QuickDispenseForm.c_batch_no cd
        /\ DispenseHistory.quantity_out h = QuickDispenseForm.c_quantity cd
        /\ DispenseHistory.dispensed_to h
           = QuickDispenseForm.c_patient_name cd
        /\ DispenseHistory.dispensed_by h = Some user)
  /\ (p = refuses_history_insert ->
      source_entry db cd <> None ->
      QuickDispenseForm.c_quantity cd
      <= balance_of (inventory db) (QuickDispenseForm.c_medicine_name cd)
           (QuickDispenseForm.c_batch_no cd) ->
      answer = Ok processing_error
      /\ wrote_entry
      /\ history after = history db).
Proof.
  intros Hvalid. cbv zeta.
  rewrite (quick_dispense_valid p now user d cd db Hvalid).
  unfold after_dispense. split.
  - destruct (source_entry db cd) as [src|]; [|discriminate].
    destruct (_ <? _); [discriminate|].
    destruct p; try discriminate. intros _. simpl. split.
    + exists src, (dispense_entry now user cd src (inventory_seq db)).
      repeat split.
    + exists (dispense_record now user cd src (history_seq db)).
      repeat split.
  - intros -> Hsrc Hq.
    destruct (source_entry db cd) as [src|]; [|contradiction].
    apply Z.ltb_ge in Hq. rewrite Hq. simpl.
    split; [reflexivity|]. split; [|reflexivity].
    exists src, (dispense_entry now user cd src (inventory_seq db)).
    repeat split.
Qed.

Lemma dispense_writes_entry_then_record_witness :
  exists cd,
    QuickDispenseForm.is_valid
      (QuickDispenseForm.mk "Amoxicillin" "B1" (Some 10) "J.Doe" "")
    = Some cd
    /\ fst (quick_dispense healthy (midnight a_day) 1
              (dispense_amoxicillin 10) one_receipt) = Ok dispensed
    /\ exists h,
         history (snd (quick_dispense healthy (midnight a_day) 1
                         (dispense_amoxicillin 10) one_receipt))
         = history one_receipt ++ [h]
         /\ DispenseHistory.quantity_out h = QuickDispenseForm.c_quantity cd.
Proof.
  eexists. split; [reflexivity|]. split; [reflexivity|].
  destruct (dispense_writes_entry_then_record healthy (midnight a_day) 1
              (QuickDispenseForm.mk "Amoxicillin" "B1" (Some 10) "J.Doe" "")
              _ one_receipt eq_refl) as [Hok _].
  destruct (Hok eq_refl) as (_ & h & Hh & _ & _ & Hq & _).
  exists h. split; [exact Hh | exact Hq].
Defined.

(** *** The source entry of a dispense *)



(** ** Alerts *)

Section Alerts.

Import StockAlert.






(** *** The detection loops *)

Variable A : Type.
Variable now : datetime.
Variable cond : A -> bool.
Variable key : A -> string.
Variable kind : ALERT_TYPES.
Variable msg : A -> text.
Variable body : A -> M bool.

Hypothesis body_upserts :
  forall item db,
    body item db
    = (if cond item then
         r <- get_or_create now (key item) kind (msg item) ;; ret (snd r)
       else ret false) db.



End Alerts.

Lemma bind_get_db {B : Type} (k : DB -> M B) (db : DB) :
  bind get_db k db = k db db.
Proof. reflexivity. Qed.


(** *** The scan *)



(** *** Every step keeps at most one alert row per key *)















(** The scenario of the specification: after 95 of 100 units are
    dispensed the balance is 5, below the minimum level of 10, and the
    scan creates one LOW_STOCK alert for the medicine. *)
Example scan_creates_one_low_stock_alert :
  let db := snd (quick_dispense healthy (midnight a_day) 1
                   (dispense_amoxicillin 95) one_receipt) in
  balance_of (inventory db) "Amoxicillin" "B1" = 5
  /\ fst (check_alerts.scan None (midnight a_day) db) = Ok 1
  /\ map (fun a => (StockAlert.medicine_name a, StockAlert.alert_type a))
       (alerts (snd (check_alerts.scan None (midnight a_day) db)))
     = [("Amoxicillin"%string, StockAlert.low_stock)].
Proof. vm_compute. repeat split. Qed.

(** ** Manual entry and bulk import *)

Lemma get_or_create_inventory (now : datetime) (name : string)
    (kind : StockAlert.ALERT_TYPES) (msg : StockAlert.text) (db : DB) :
  inventory (snd (get_or_create now name kind msg db)) = inventory db.
Proof.
  unfold get_or_create, bind, get_db.
  destruct (filter (StockAlert.has_key name kind) (alerts db))
    as [|a [|b rest]]; reflexivity.
Qed.

(** What [add_inventory] leaves in the ledger when the form is valid. *)
Lemma add_inventory_saves (now : datetime) (user : Z)
    (d : MedicineInventoryForm.data) (db : DB) (required : bool)
    (row : Z -> MedicineInventory.t) :
  MedicineInventoryForm.init d = Ok required ->
  MedicineInventoryForm.is_valid now required d user = Some row ->
  inventory (snd (add_inventory now user (POST d) db))
  = inventory db ++ [row (inventory_seq db)].
Proof.
  intros Hinit Hvalid. unfold add_inventory. rewrite Hinit, Hvalid.
  unfold bind at 1. unfold insert_inventory at 1.
  set (r := row (inventory_seq db)).
  set (db1 := mkDB _ _ _ _ _ _).
  unfold bind at 1.
  destruct (0 <? MedicineInventory.quantity_out r).
  - unfold bind at 1. unfold insert_history at 1. unfold ret at 1.
    rewrite bind_get_db. unfold bind at 1.
    set (db2 := mkDB _ _ _ _ _ _).
    destruct (MedicineInventory.is_low_stock (inventory db2) r);
      [|reflexivity].
    pose proof (get_or_create_inventory now
                  (MedicineInventory.medicine_name r) StockAlert.low_stock
                  (StockAlert.stock_is_running_low
                     (MedicineInventory.medicine_name r)) db2) as Hg.
    unfold bind at 1.
    destruct (get_or_create _ _ _ _ db2) as [[x|e] db3]; exact Hg.
  - unfold ret at 1. rewrite bind_get_db. unfold bind at 1.
    destruct (MedicineInventory.is_low_stock (inventory db1) r);
      [|reflexivity].
    pose proof (get_or_create_inventory now
                  (MedicineInventory.medicine_name r) StockAlert.low_stock
                  (StockAlert.stock_is_running_low
                     (MedicineInventory.medicine_name r)) db1) as Hg.
    unfold bind at 1.
    destruct (get_or_create _ _ _ _ db1) as [[x|e] db3]; exact Hg.
Qed.

Lemma add_inventory_rejects (now : datetime) (user : Z)
    (d : MedicineInventoryForm.data) (db : DB) :
  (forall required, MedicineInventoryForm.init d = Ok required ->
                    MedicineInventoryForm.is_valid now required d user
                    = None) ->
  snd (add_inventory now user (POST d) db) = db
  /\ (fst (add_inventory now user (POST d) db) = Ok form_errors
      \/ fst (add_inventory now user (POST d) db) = Raise ValueError).
Proof.
  intros H. unfold add_inventory, MedicineInventoryForm.init in *.
  destruct (MedicineInventoryForm.quantity_out d) as [|[q|]].
  - rewrite (H false eq_refl). split; [reflexivity|left; reflexivity].
  - rewrite (H (0 <? q) eq_refl). split; [reflexivity|left; reflexivity].
  - split; [reflexivity|right; reflexivity].
Qed.

Lemma IntegerField_Some (min_value : Z) (value : option Z) (v : Z) :
  IntegerField min_value value = Some v -> value = Some v /\ min_value <= v.
Proof.
  unfold IntegerField. destruct value as [x|]; [|discriminate].
  destruct (x <? min_value) eqn:E; [discriminate|].
  intros H. injection H as <-. apply Z.ltb_ge in E. split; [reflexivity|lia].
Qed.

(** Closes a goal whose hypothesis-to-be is [None = Some _] once the
    options still scrutinised are split. *)
Ltac split_options :=
  repeat match goal with
         | |- context [match ?x with Some _ => _ | None => _ end] =>
             destruct x
         end.

(** A form that validates yields a well-formed ledger entry. *)
Lemma is_valid_well_formed (now : datetime) (required : bool)
    (d : MedicineInventoryForm.data) (user : Z)
    (row : Z -> MedicineInventory.t) (pk : Z) :
  MedicineInventoryForm.is_valid now required d user = Some row ->
  well_formed_entry (date_of now) (row pk).
Proof.
  unfold MedicineInventoryForm.is_valid, MedicineInventoryForm.instance,
    MedicineInventoryForm.clean_fields. simpl.
  destruct (MedicineInventoryForm.date d) as [dt|];
    [|split_options; discriminate].
  destruct (CharField true 200 (MedicineInventoryForm.medicine_name d))
    as [n|]; [|split_options; discriminate].
  destruct (MedicineInventoryForm.ChoiceField
              (MedicineInventoryForm.dosage_form d))
    as [f|]; [|split_options; discriminate].
  destruct (CharField true 100 (MedicineInventoryForm.batch_no d))
    as [b|]; [|split_options; discriminate].
  destruct (MedicineInventoryForm.clean_expiry_date now
              (MedicineInventoryForm.expiry_date d))
    as [e|] eqn:He; [|split_options; discriminate].
  destruct (IntegerField 0 (MedicineInventoryForm.quantity_in d))
    as [qi|] eqn:Hqi; [|split_options; discriminate].
  destruct (IntegerField 0
              (MedicineInventoryForm.posted_value
                 (MedicineInventoryForm.quantity_out d)))
    as [qo|] eqn:Hqo; [|split_options; discriminate].
  destruct (CharField required 100 (MedicineInventoryForm.dispensed_to d))
    as [p|]; [|split_options; discriminate].
  destruct (CharField false 100
              (MedicineInventoryForm.prescribing_doctor d))
    as [doc|]; [|split_options; discriminate].
  destruct (IntegerField 1 (MedicineInventoryForm.minimum_stock_level d))
    as [m|]; [|split_options; discriminate].
  unfold MedicineInventoryForm.clean. simpl.
  apply IntegerField_Some in Hqi as [_ Hqi], Hqo as [_ Hqo].
  destruct ((qi =? 0) && (qo =? 0)) eqn:C1; [discriminate|].
  destruct ((0 <? qi) && (0 <? qo)) eqn:C2; [discriminate|].
  destruct ((0 <? qo) && String.eqb p EmptyString) eqn:C3; [discriminate|].
  destruct (MedicineInventory.clean now _) eqn:C4; [|discriminate].
  intros H. injection H as <-.
  unfold well_formed_entry. simpl.
  unfold MedicineInventory.clean in C4. simpl in C4.
  apply negb_true_iff, Z.leb_gt in C4.
  apply andb_false_iff in C1, C2, C3.
  rewrite !Z.eqb_neq in C1. rewrite !Z.ltb_ge in C2.
  rewrite Z.ltb_ge, String.eqb_neq in C3.
  repeat split; [lia | | lia].
  intros Hpos. destruct C3 as [C3|C3]; [lia | exact C3].
Qed.

Lemma is_valid_None_of_clean (now : datetime) (required : bool)
    (d : MedicineInventoryForm.data) (user : Z)
    (err : MedicineInventoryForm.ValidationError) :
  MedicineInventoryForm.clean
    (MedicineInventoryForm.clean_fields now required d) = Some err ->
  MedicineInventoryForm.is_valid now required d user = None.
Proof.
  intros H. unfold MedicineInventoryForm.is_valid. rewrite H.
  destruct (MedicineInventoryForm.instance _ _); reflexivity.
Qed.

Lemma is_valid_None_of_instance (now : datetime) (required : bool)
    (d : MedicineInventoryForm.data) (user : Z) :
  MedicineInventoryForm.instance
    (MedicineInventoryForm.clean_fields now required d) user = None ->
  MedicineInventoryForm.is_valid now required d user = None.
Proof.
  intros H. unfold MedicineInventoryForm.is_valid. rewrite H. reflexivity.
Qed.

Lemma instance_None_dispensed_to (cd : MedicineInventoryForm.cleaned_data)
    (user : Z) :
  MedicineInventoryForm.c_dispensed_to cd = None ->
  MedicineInventoryForm.instance cd user = None.
Proof.
  intros H. unfold MedicineInventoryForm.instance. rewrite H.
  repeat match goal with
         | |- context [match ?x with Some _ => _ | None => _ end] =>
             destruct x
         end; reflexivity.
Qed.

Lemma instance_None_expiry_date (cd : MedicineInventoryForm.cleaned_data)
    (user : Z) :
  MedicineInventoryForm.c_expiry_date cd = None ->
  MedicineInventoryForm.instance cd user = None.
Proof.
  intros H. unfold MedicineInventoryForm.instance. rewrite H.
  repeat match goal with
         | |- context [match ?x with Some _ => _ | None => _ end] =>
             destruct x
         end; reflexivity.
Qed.

(** C6, as the claim words it, fails for bulk import: the command builds
    the rows and writes them with [bulk_create], and none of the four
    rules is checked.  Imported on [a_day], the four rows of [csv_rows] are
    all stored: one with both quantities 0, one with both positive, one
    dispensing without a recipient, one with an expiry date in the past. *)
Lemma import_csv_skips_validation :
  let run := import_csv.handle false "y" a_day 1 csv_rows empty_db in
  fst run = Ok (import_csv.imported 4)
  /\ map (fun r => (MedicineInventory.quantity_in r,
                    MedicineInventory.quantity_out r,
                    MedicineInventory.dispensed_to r,
                    MedicineInventory.expiry_date r <=? a_day))
       (inventory (snd run))
     = [(0, 0, EmptyString, false); (5, 5, "J.Doe"%string, false);
        (0, 5, EmptyString, false); (10, 0, EmptyString, true)]
  /\ Forall (fun r => ~ well_formed_entry a_day r) (inventory (snd run)).
Proof.
  cbv zeta. split; [vm_compute; reflexivity|].
  split; [vm_compute; reflexivity|].
  remember (inventory (snd (import_csv.handle false "y" a_day 1 csv_rows
                              empty_db))) as stored eqn:E.
  vm_compute in E. subst stored. unfold well_formed_entry.
  repeat constructor; simpl; intros (H1 & H2 & H3);
    unfold a_day in *; try lia; try (apply H2; [lia | reflexivity]).
Qed.

Lemma posted_value_Some (p : MedicineInventoryForm.posted) (v : Z) :
  MedicineInventoryForm.posted_value p = Some v ->
  p = MedicineInventoryForm.posted_text (Some v).
Proof. destruct p as [|[x|]]; simpl; congruence. Qed.

Lemma IntegerField_accepts (min_value v : Z) :
  min_value <= v -> IntegerField min_value (Some v) = Some v.
Proof.
  intros H. unfold IntegerField.
  destruct (v <? min_value) eqn:E; [apply Z.ltb_lt in E; lia|reflexivity].
Qed.

(** C6 (amended). For every entry submitted through the manual add form,
    persistence is preceded by cross-field validation: an entry with
    quantity_in = 0 and quantity_out = 0 is rejected, an entry with both
    quantities positive is rejected, an entry with quantity_out > 0 and an
    empty recipient is rejected, and an entry whose expiry date is not
    strictly after the submission date is rejected; nothing is stored
    then.  So whatever the form stores is a receipt or a dispense, never
    both and never neither, with a recipient when it dispenses and an
    expiry date after the day of submission. *)
Theorem manual_entry_validated (now : datetime) (user : Z)
    (d : MedicineInventoryForm.data) (db : DB) :
  (zero_zero d \/ both_positive d \/ dispense_without_recipient d
   \/ expiry_not_future now d ->
   snd (add_inventory now user (POST d) db) = db
   /\ (fst (add_inventory now user (POST d) db) = Ok form_errors
       \/ fst (add_inventory now user (POST d) db) = Raise ValueError))
  /\ (inventory (snd (add_inventory now user (POST d) db)) = inventory db
      \/ exists r,
           inventory (snd (add_inventory now user (POST d) db))
           = inventory db ++ [r]
           /\ well_formed_entry (date_of now) r).
Proof.
  split.
  - intros Hbad. apply add_inventory_rejects. intros required Hinit.
    destruct Hbad as [[Hi Ho]|[(qi & qo & Hi & Ho & Hqi & Hqo)
                              |[(qo & Ho & Hqo & Hempty)|(e & He & Hle)]]].
    + apply is_valid_None_of_clean
        with (err := MedicineInventoryForm.enter_either_quantity).
      unfold MedicineInventoryForm.clean, MedicineInventoryForm.clean_fields.
      simpl. rewrite Hi, Ho. reflexivity.
    + apply is_valid_None_of_clean
        with (err := MedicineInventoryForm.not_both_quantities).
      unfold MedicineInventoryForm.clean, MedicineInventoryForm.clean_fields.
      simpl. rewrite Hi, Ho, !IntegerField_accepts by lia. simpl.
      assert (E1 : (qi =? 0) = false) by (apply Z.eqb_neq; lia).
      assert (E2 : (0 <? qi) = true) by (apply Z.ltb_lt; lia).
      assert (E3 : (0 <? qo) = true) by (apply Z.ltb_lt; lia).
      rewrite E1, E2, E3. reflexivity.
    + apply is_valid_None_of_instance, instance_None_dispensed_to.
      apply posted_value_Some in Ho.
      unfold MedicineInventoryForm.init in Hinit. rewrite Ho in Hinit.
      injection Hinit as <-.
      assert (E : (0 <? qo) = true) by (apply Z.ltb_lt; lia).
      simpl. rewrite E. unfold CharField. rewrite Hempty. reflexivity.
    + apply is_valid_None_of_instance, instance_None_expiry_date.
      simpl. rewrite He. unfold MedicineInventoryForm.clean_expiry_date.
      assert (E : (e <=? date_of now) = true) by (apply Z.leb_le; lia).
      rewrite E. reflexivity.
  - destruct (MedicineInventoryForm.init d) as [required|e] eqn:Hinit.
    + destruct (MedicineInventoryForm.is_valid now required d user)
        as [row|] eqn:Hvalid.
      * right. exists (row (inventory_seq db)). split.
        -- apply (add_inventory_saves now user d db required row);
             assumption.
        -- apply (is_valid_well_formed now required d user); assumption.
      * left. unfold add_inventory. rewrite Hinit, Hvalid. reflexivity.
    + left. unfold add_inventory. rewrite Hinit. reflexivity.
Qed.

Lemma manual_entry_validated_witness :
  let d := form_entry "Paracetamol" "P1" (a_day + 60) 0 0 "" in
  zero_zero d
  /\ snd (add_inventory (midnight a_day) 1 (POST d) empty_db) = empty_db
  /\ (fst (add_inventory (midnight a_day) 1 (POST d) empty_db)
      = Ok form_errors
      \/ fst (add_inventory (midnight a_day) 1 (POST d) empty_db)
         = Raise ValueError).
Proof.
  intros d.
  assert (Hz : zero_zero d) by (split; reflexivity).
  split; [exact Hz|].
  apply (proj1 (manual_entry_validated (midnight a_day) 1 d empty_db)).
  left. exact Hz.
Defined.

(** The scenarios of the specification on the manual form: a receipt of
    100 units expiring in 60 days is stored and the balance is 100, not
    low; the four entries of [csv_rows] and an entry expiring yesterday
    are turned down. *)
Example manual_entry_scenarios :
  let add d := add_inventory (midnight a_day) 1 (POST d) empty_db in
  fst (add (form_entry "Amoxicillin" "B1" (a_day + 60) 100 0 "")) = Ok saved
  /\ map (MedicineInventory.balance
            (inventory
               (snd (add (form_entry "Amoxicillin" "B1" (a_day + 60)
                            100 0 "")))))
       (inventory
          (snd (add (form_entry "Amoxicillin" "B1" (a_day + 60) 100 0 ""))))
     = [100]
  /\ map (MedicineInventory.is_low_stock
            (inventory
               (snd (add (form_entry "Amoxicillin" "B1" (a_day + 60)
                            100 0 "")))))
       (inventory
          (snd (add (form_entry "Amoxicillin" "B1" (a_day + 60) 100 0 ""))))
     = [false]
  /\ add (form_entry "Paracetamol" "P1" (a_day + 60) 0 0 "")
     = (Ok form_errors, empty_db)
  /\ add (form_entry "Ibuprofen" "I1" (a_day + 60) 5 5 "J.Doe")
     = (Ok form_errors, empty_db)
  /\ add (form_entry "Cetirizine" "C1" (a_day + 60) 0 5 "")
     = (Ok form_errors, empty_db)
  /\ add (form_entry "Aspirin" "A1" (a_day - 1) 10 0 "")
     = (Ok form_errors, empty_db)
  /\ fst (add (form_entry "Cetirizine" "C1" (a_day + 60) 0 5 "J.Doe"))
     = Ok saved.
Proof. vm_compute. repeat split. Qed.

(** * Further properties of the code *)

(** ** Quick dispense: the form *)





(** ** The alerts page *)



(** ** Manual entry: what is stored with it *)

Lemma get_or_create_ledger (now : datetime) (name : string)
    (kind : StockAlert.ALERT_TYPES) (msg : StockAlert.text) (db : DB) :
  same_ledger db (snd (get_or_create now name kind msg db))
  /\ inventory_seq (snd (get_or_create now name kind msg db))
     = inventory_seq db
  /\ history_seq (snd (get_or_create now name kind msg db)) = history_seq db.
Proof.
  unfold get_or_create, bind, get_db, same_ledger.
  destruct (filter (StockAlert.has_key name kind) (alerts db))
    as [|a [|b rest]]; repeat split.
Qed.

(** [add_inventory] on a form that validates: save, mirror, then the low
    stock check. *)
Lemma add_inventory_valid (now : datetime) (user : Z)
    (d : MedicineInventoryForm.data) (db : DB) (required : bool)
    (row : Z -> MedicineInventory.t) :
  MedicineInventoryForm.init d = Ok required ->
  MedicineInventoryForm.is_valid now required d user = Some row ->
  let r := row (inventory_seq db) in
  let db2 := after_save now user r db in
  let g := get_or_create now (MedicineInventory.medicine_name r)
             StockAlert.low_stock
             (StockAlert.stock_is_running_low
                (MedicineInventory.medicine_name r)) db2 in
  add_inventory now user (POST d) db
  = if MedicineInventory.is_low_stock (inventory db2) r
    then (match fst g with
          | Ok _ => Ok saved
          | Raise e => Raise e
          end, snd g)
    else (Ok saved, db2).
Proof.
  intros Hinit Hvalid r db2 g. unfold add_inventory. rewrite Hinit, Hvalid.
  unfold bind at 1. unfold insert_inventory at 1. fold r.
  unfold bind at 1. subst g db2. unfold after_save.
  destruct (0 <? MedicineInventory.quantity_out r).
  - unfold bind at 1. unfold insert_history at 1. unfold ret at 1.
    rewrite bind_get_db. unfold bind at 1.
    cbn [inventory inventory_seq history history_seq alerts alerts_seq].
    fold (mirrored_record now user r (history_seq db)).
    destruct (MedicineInventory.is_low_stock (inventory db ++ [r]) r);
      [|reflexivity].
    unfold bind at 1.
    destruct (get_or_create _ _ _ _ _) as [[x|e] db3]; reflexivity.
  - unfold ret at 1. rewrite bind_get_db. unfold bind at 1.
    cbn [inventory inventory_seq history history_seq alerts alerts_seq].
    destruct (MedicineInventory.is_low_stock (inventory db ++ [r]) r);
      [|reflexivity].
    unfold bind at 1.
    destruct (get_or_create _ _ _ _ _) as [[x|e] db3]; reflexivity.
Qed.

Lemma after_save_inventory (now : datetime) (user : Z)
    (r : MedicineInventory.t) (db : DB) :
  inventory (after_save now user r db) = inventory db ++ [r]
  /\ alerts (after_save now user r db) = alerts db.
Proof.
  unfold after_save. destruct (0 <? MedicineInventory.quantity_out r);
    split; reflexivity.
Qed.

(** The ledger and the history that [add_inventory] leaves are those of
    [after_save]. *)
Lemma add_inventory_ledger (now : datetime) (user : Z)
    (d : MedicineInventoryForm.data) (db : DB) (required : bool)
    (row : Z -> MedicineInventory.t) :
  MedicineInventoryForm.init d = Ok required ->
  MedicineInventoryForm.is_valid now required d user = Some row ->
  same_ledger (after_save now user (row (inventory_seq db)) db)
    (snd (add_inventory now user (POST d) db)).
Proof.
  intros Hinit Hvalid.
  rewrite (add_inventory_valid now user d db required row Hinit Hvalid).
  cbv zeta.
  destruct (MedicineInventory.is_low_stock _ _); [|split; reflexivity].
  simpl. apply get_or_create_ledger.
Qed.

(** The instance of a valid form takes the primary key it is given. *)
Lemma is_valid_id (now : datetime) (required : bool)
    (d : MedicineInventoryForm.data) (user : Z)
    (row : Z -> MedicineInventory.t) (pk : Z) :
  MedicineInventoryForm.is_valid now required d user = Some row ->
  MedicineInventory.id (row pk) = pk.
Proof.
  unfold MedicineInventoryForm.is_valid.
  destruct (MedicineInventoryForm.instance _ _) as [row'|] eqn:Hi;
    [|discriminate].
  destruct (MedicineInventoryForm.clean _); [discriminate|].
  destruct (MedicineInventory.clean _ _); [|discriminate].
  intros H. injection H as <-. revert Hi.
  unfold MedicineInventoryForm.instance.
  split_options; try discriminate.
  intros H. injection H as <-. reflexivity.
Qed.



(** X4. When [add_inventory] stores a dispense (quantity_out > 0) it
    appends exactly one history row, which points at the new ledger entry
    and repeats its medicine, dosage form, batch, recipient and quantity
    with the requesting user as dispenser; when it stores a receipt the
    history is left as it was. *)
Theorem manual_dispense_is_mirrored (now : datetime) (user : Z)
    (d : MedicineInventoryForm.data) (db : DB) (required : bool)
    (row : Z -> MedicineInventory.t) :
  MedicineInventoryForm.init d = Ok required ->
  MedicineInventoryForm.is_valid now required d user = Some row ->
  let r := row (inventory_seq db) in
  let after := snd (add_inventory now user (POST d) db) in
  inventory after = inventory db ++ [r]
  /\ MedicineInventory.id r = inventory_seq db
  /\ (0 < MedicineInventory.quantity_out r ->
      exists h,
        history after = history db ++ [h]
        /\ DispenseHistory.inventory_record h = Some (inventory_seq db)
        /\ DispenseHistory.medicine_name h = MedicineInventory.medicine_name r
        /\ DispenseHistory.dosage_form h = MedicineInventory.dosage_form r
        /\ DispenseHistory.batch_no h = MedicineInventory.batch_no r
        /\ DispenseHistory.dispensed_to h = MedicineInventory.dispensed_to r
        /\ DispenseHistory.quantity_out h = MedicineInventory.quantity_out r
        /\ DispenseHistory.dispensed_by h = Some user
        /\ DispenseHistory.date h = now)
  /\ (MedicineInventory.quantity_out r = 0 -> history after = history db).
Proof.
  intros Hinit Hvalid r after.
  destruct (add_inventory_ledger now user d db required row Hinit Hvalid)
    as [Hi Hh].
  fold r in Hi, Hh. fold after in Hi, Hh.
  assert (Hid : MedicineInventory.id r = inventory_seq db)
    by apply (is_valid_id now required d user row _ Hvalid).
  split; [rewrite Hi; apply after_save_inventory|].
  split; [exact Hid|]. split.
  - intros Hpos. apply Z.ltb_lt in Hpos.
    exists (mirrored_record now user r (history_seq db)).
    split; [rewrite Hh; unfold after_save; rewrite Hpos; reflexivity|].
    simpl. rewrite Hid. repeat split.
  - intros Hzero. rewrite Hh. unfold after_save. rewrite Hzero. reflexivity.
Qed.

Lemma manual_dispense_is_mirrored_witness :
  let d := form_entry "Cetirizine" "C1" (a_day + 60) 0 5 "J.Doe" in
  MedicineInventoryForm.init d = Ok true
  /\ (exists row,
        MedicineInventoryForm.is_valid (midnight a_day) true d 1 = Some row)
  /\ exists h,
       history (snd (add_inventory (midnight a_day) 1 (POST d) one_receipt))
       = history one_receipt ++ [h]
       /\ DispenseHistory.inventory_record h = Some 2.
Proof.
  intros d. split; [reflexivity|]. split; [eexists; reflexivity|].
  destruct (manual_dispense_is_mirrored (midnight a_day) 1 d one_receipt
              true _ eq_refl eq_refl) as (_ & _ & H & _).
  destruct (H eq_refl) as (h & Hh & Hrec & _).
  exists h. split; [exact Hh | exact Hrec].
Defined.

(** ** The scan: what it writes *)

Lemma insert_desc_In (x r : MedicineInventory.t)
    (sorted : list MedicineInventory.t) :
  In x (MedicineInventory.insert_desc r sorted) <-> x = r \/ In x sorted.
Proof.
  induction sorted as [|s rest IH]; simpl.
  - intuition congruence.
  - destruct (MedicineInventory.date r <? MedicineInventory.date s); simpl;
      [rewrite IH|]; intuition congruence.
Qed.

(** The default ordering neither drops nor invents rows. *)
Lemma ordered_In (x : MedicineInventory.t)
    (rows : list MedicineInventory.t) :
  In x (MedicineInventory.ordered rows) <-> In x rows.
Proof.
  induction rows as [|r rest IH]; simpl; [reflexivity|].
  rewrite insert_desc_In, IH. intuition congruence.
Qed.

Lemma count_key_concat (name : string) (kind : StockAlert.ALERT_TYPES)
    (l1 l2 : list StockAlert.t) :
  count_key name kind (l1 ++ l2)
  = (count_key name kind l1 + count_key name kind l2)%nat.
Proof. unfold count_key. rewrite filter_app, length_app. reflexivity. Qed.

(** [get_or_create] on any table, by the number of rows of the key. *)
Lemma get_or_create_any (now : datetime) (name : string)
    (kind : StockAlert.ALERT_TYPES) (msg : StockAlert.text) (db : DB) :
  (count_key name kind (alerts db) = 0%nat
   /\ get_or_create now name kind msg db
      = (Ok (StockAlert.mk (alerts_seq db) name kind msg false now None None,
             true),
         mkDB (inventory db) (inventory_seq db) (history db) (history_seq db)
           (alerts db
            ++ [StockAlert.mk (alerts_seq db) name kind msg false now
                  None None])
           (alerts_seq db + 1)))
  \/ (count_key name kind (alerts db) = 1%nat
      /\ exists a, get_or_create now name kind msg db = (Ok (a, false), db))
  \/ ((2 <= count_key name kind (alerts db))%nat
      /\ get_or_create now name kind msg db
         = (Raise MultipleObjectsReturned, db)).
Proof.
  unfold get_or_create, bind, get_db, count_key.
  destruct (filter (StockAlert.has_key name kind) (alerts db))
    as [|a [|b rest]].
  - left. split; reflexivity.
  - right; left. split; [reflexivity|]. exists a. reflexivity.
  - right; right. split; [simpl; lia | reflexivity].
Qed.


Section AlertLoops.

Variable A : Type.
Variable now : datetime.
Variable cond : A -> bool.
Variable key : A -> string.
Variable kind : StockAlert.ALERT_TYPES.
Variable msg : A -> StockAlert.text.
Variable body : A -> M bool.

Hypothesis body_upserts :
  forall item db,
    body item db
    = (if cond item then
         r <- get_or_create now (key item) kind (msg item) ;; ret (snd r)
       else ret false) db.




End AlertLoops.







(** ** The scan: what it covers *)




(** ** Duplicate alert rows *)

Lemma loop_result (items : list MedicineInventory.t)
    (body : MedicineInventory.t -> M bool) (n : Z) (db : DB)
    (news : list StockAlert.t) :
  alerts (snd (count_created items body n db)) = alerts db ++ news ->
  no_fewer_alerts db (snd (count_created items body n db)).
Proof.
  intros H name kind. rewrite H, count_key_concat. lia.
Qed.



(** ** Manual entry: the low stock alert *)

(** X8. After [add_inventory] has stored an entry it checks the stock
    of the entry's key against the entry's own minimum level, the new
    entry counted in.  Not low: the alerts are left alone.  Low and no
    low-stock alert for the medicine: one open alert is appended.  Low and
    one such alert, acknowledged or not: nothing is added.  Low and
    several such alerts: the request raises MultipleObjectsReturned, with
    the entry already stored. *)
Theorem manual_entry_low_stock_alert (now : datetime) (user : Z)
    (d : MedicineInventoryForm.data) (db : DB) (required : bool)
    (row : Z -> MedicineInventory.t) :
  MedicineInventoryForm.init d = Ok required ->
  MedicineInventoryForm.is_valid now required d user = Some row ->
  let r := row (inventory_seq db) in
  let name := MedicineInventory.medicine_name r in
  let low := MedicineInventory.is_low_stock (inventory db ++ [r]) r in
  let rows := count_key name StockAlert.low_stock (alerts db) in
  let answer := fst (add_inventory now user (POST d) db) in
  let after := snd (add_inventory now user (POST d) db) in
  inventory after = inventory db ++ [r]
  /\ (low = false -> answer = Ok saved /\ alerts after = alerts db)
  /\ (low = true -> rows = 0%nat ->
      answer = Ok saved
      /\ alerts after
         = alerts db
           ++ [StockAlert.mk (alerts_seq db) name StockAlert.low_stock
                 (StockAlert.stock_is_running_low name) false now None None])
  /\ (low = true -> rows = 1%nat ->
      answer = Ok saved /\ alerts after = alerts db)
  /\ (low = true -> (2 <= rows)%nat ->
      answer = Raise MultipleObjectsReturned /\ alerts after = alerts db).
Proof.
  intros Hinit Hvalid. cbv zeta.
  set (r := row (inventory_seq db)).
  set (name := MedicineInventory.medicine_name r).
  pose proof (add_inventory_ledger now user d db required row Hinit Hvalid)
    as [Hi _].
  fold r in Hi.
  destruct (after_save_inventory now user r db) as [Hinv Hal].
  split; [rewrite Hi; exact Hinv|].
  rewrite (add_inventory_valid now user d db required row Hinit Hvalid).
  cbv zeta. fold r. fold name. rewrite Hinv.
  assert (Hseq : alerts_seq (after_save now user r db) = alerts_seq db).
  { unfold after_save. destruct (0 <? _); reflexivity. }
  destruct (MedicineInventory.is_low_stock (inventory db ++ [r]) r).
  - split; [intros H; discriminate|].
    destruct (get_or_create_any now name StockAlert.low_stock
                (StockAlert.stock_is_running_low name)
                (after_save now user r db))
      as [[H0 E]|[[H1 (a & E)]|[H2 E]]];
      rewrite Hal in H0 || rewrite Hal in H1 || rewrite Hal in H2;
      rewrite E; cbn [fst snd alerts].
    + split; [intros _ _; rewrite Hal, Hseq; split; reflexivity|].
      split; intros _ Hrows; lia.
    + split; [intros _ Hrows; lia|].
      split; [intros _ _; split; [reflexivity|exact Hal]|].
      intros _ Hrows; lia.
    + split; [intros _ Hrows; lia|].
      split; [intros _ Hrows; lia|].
      intros _ _. split; [reflexivity|exact Hal].
  - split; [intros _; split; [reflexivity|exact Hal]|].
    repeat split; discriminate.
Qed.

Lemma manual_entry_low_stock_alert_witness :
  let d := form_entry "Cetirizine" "C1" (a_day + 60) 5 0 "" in
  MedicineInventoryForm.init d = Ok false
  /\ (exists row,
        MedicineInventoryForm.is_valid (midnight a_day) false d 1 = Some row)
  /\ map (fun a => (StockAlert.medicine_name a, StockAlert.alert_type a,
                    StockAlert.is_acknowledged a))
       (alerts (snd (add_inventory (midnight a_day) 1 (POST d) empty_db)))
     = [("Cetirizine"%string, StockAlert.low_stock, false)].
Proof.
  intros d. split; [reflexivity|]. split; [eexists; reflexivity|].
  destruct (manual_entry_low_stock_alert (midnight a_day) 1 d empty_db
              false _ eq_refl eq_refl) as (_ & _ & H & _).
  destruct (H eq_refl eq_refl) as [_ Ha].
  rewrite Ha. reflexivity.
Defined.

(** ** The command with the sweep *)









(** ** Bulk import *)


(** X11. The CSV import writes nothing unless it is run for real,
    finds at least one row with a medicine name and is confirmed with y
    or Y at the prompt, and it is all or nothing: when any parsed row
    carries a negative quantity, the database refuses the batch, the
    command fails with CommandError and no row of the file is stored. *)
Theorem import_csv_all_or_nothing (dry_run : bool) (confirm : string)
    (today user : Z) (rows : list import_csv.row) (db : DB) :
  let ms := import_csv.medicines_to_create today user 2 rows in
  let run := import_csv.handle dry_run confirm today user rows db in
  (dry_run = true -> run = (Ok import_csv.dry_run_completed, db))
  /\ (dry_run = false -> ms = [] ->
      run = (Ok import_csv.no_valid_medicines, db))
  /\ (dry_run = false -> ms <> [] ->
      confirm <> "y"%string -> confirm <> "Y"%string ->
      run = (Ok import_csv.import_cancelled, db))
  /\ (dry_run = false -> ms <> [] ->
      confirm = "y"%string \/ confirm = "Y"%string ->
      no_negative_quantity ms = false ->
      run = (Raise CommandError, db)).
Proof.
  cbv zeta. unfold import_csv.handle.
  split.
  { intros Hd. rewrite Hd. reflexivity. }
  split.
  { intros Hd Hms. rewrite Hd, Hms. reflexivity. }
  split.
  - intros Hd Hms Hy HY. rewrite Hd.
    destruct (import_csv.medicines_to_create today user 2 rows);
      [contradiction|].
    apply String.eqb_neq in Hy, HY. rewrite Hy, HY. reflexivity.
  - intros Hd Hms Hc Hneg. rewrite Hd.
    destruct (import_csv.medicines_to_create today user 2 rows) as [|m ms];
      [contradiction|].
    assert (E : (String.eqb confirm "y" || String.eqb confirm "Y") = true).
    { destruct Hc as [Hc | Hc]; rewrite Hc; reflexivity. }
    rewrite E. cbn [negb].
    unfold import_csv.bulk_create. unfold no_negative_quantity in Hneg.
    unfold bind at 1. rewrite Hneg. reflexivity.
Qed.

Lemma import_csv_all_or_nothing_witness :
  let rows := [[("medicine_name", Some "Aspirin");
                ("quantity_in", Some "10")];
               [("medicine_name", Some "Ibuprofen");
                ("quantity_in", Some "-5")]]%string in
  import_csv.medicines_to_create a_day 1 2 rows <> []
  /\ no_negative_quantity (import_csv.medicines_to_create a_day 1 2 rows)
     = false
  /\ import_csv.handle false "y" a_day 1 rows one_receipt
     = (Raise CommandError, one_receipt).
Proof.
  intros rows.
  assert (Hms : import_csv.medicines_to_create a_day 1 2 rows <> [])
    by (vm_compute; discriminate).
  split; [exact Hms|]. split; [reflexivity|].
  apply (proj2 (proj2 (proj2 (import_csv_all_or_nothing false "y" a_day 1
                                rows one_receipt))));
    [reflexivity | exact Hms | left; reflexivity | reflexivity].
Defined.



(** *** Stripping *)

Lemma lstrip_chars_clean (cs : list ascii) :
  leading_space (lstrip_chars cs) = false.
Proof.
  induction cs as [|c rest IH]; simpl; [reflexivity|].
  destruct (isspace c) eqn:E; [exact IH | simpl; exact E].
Qed.

Lemma lstrip_chars_id (cs : list ascii) :
  leading_space cs = false -> lstrip_chars cs = cs.
Proof.
  destruct cs as [|c rest]; simpl; [reflexivity|].
  intros ->. reflexivity.
Qed.

Lemma lstrip_chars_split (cs : list ascii) :
  exists spaces,
    cs = spaces ++ lstrip_chars cs /\ forallb isspace spaces = true.
Proof.
  induction cs as [|c rest (spaces & E & Hs)]; simpl.
  - exists []. split; reflexivity.
  - destruct (isspace c) eqn:Ec.
    + exists (c :: spaces). split; [simpl; rewrite <- E; reflexivity|].
      simpl. rewrite Ec, Hs. reflexivity.
    + exists []. split; reflexivity.
Qed.

Lemma rstrip_keeps_clean_head (cs : list ascii) :
  leading_space cs = false ->
  leading_space (rev (lstrip_chars (rev cs))) = false.
Proof.
  intros Hc.
  destruct (lstrip_chars_split (rev cs)) as (spaces & E & _).
  assert (E' : cs = rev (lstrip_chars (rev cs)) ++ rev spaces).
  { rewrite <- rev_app_distr, <- E, rev_involutive. reflexivity. }
  destruct (rev (lstrip_chars (rev cs))) as [|c rest]; [reflexivity|].
  rewrite E' in Hc. exact Hc.
Qed.

(** [strip] is idempotent: a stripped string has nothing left to strip. *)
Lemma strip_strip (s : string) : strip (strip s) = strip s.
Proof.
  unfold strip. rewrite list_ascii_of_string_of_list_ascii.
  set (u := lstrip_chars (list_ascii_of_string s)).
  assert (Hu : leading_space u = false) by apply lstrip_chars_clean.
  pose proof (rstrip_keeps_clean_head u Hu) as Hv.
  rewrite (lstrip_chars_id _ Hv), rev_involutive.
  rewrite (lstrip_chars_id (lstrip_chars (rev u)))
    by apply lstrip_chars_clean.
  reflexivity.
Qed.

(** *** The rows the import keeps *)


Lemma get_strip_stripped (key : string) (r : import_csv.row) (v : string) :
  import_csv.get_strip key r = Some v -> strip v = v.
Proof.
  unfold import_csv.get_strip.
  destruct (import_csv.lookup key r) as [[cell|]|]; intros H;
    try discriminate; injection H as <-; [apply strip_strip|reflexivity].
Qed.

Lemma or_default_nonempty (x default : string) :
  default <> EmptyString -> import_csv.or_default x default <> EmptyString.
Proof.
  intros Hd. unfold import_csv.or_default.
  destruct (String.eqb x EmptyString) eqn:E; [exact Hd|].
  apply String.eqb_neq. exact E.
Qed.

(** X13. Every entry the CSV import builds from a row has a medicine
    name that is not blank and is stripped of surrounding whitespace, a
    batch number and a dosage form that are not empty (BATCH_ and the
    file's row number, and Tablet, when the cells are blank), the
    importing user as creator and the default minimum stock level 10; a
    blank expiry cell becomes one year from the day of the import and a
    blank date cell that day. *)
Theorem import_csv_entry_defaults (today user row_num : Z)
    (r : import_csv.row) (m : Z -> MedicineInventory.t) (pk : Z) :
  import_csv.medicine_of_row today user row_num r = Some m ->
  let e := m pk in
  MedicineInventory.medicine_name e <> EmptyString
  /\ strip (MedicineInventory.medicine_name e)
     = MedicineInventory.medicine_name e
  /\ MedicineInventory.batch_no e <> EmptyString
  /\ MedicineInventory.dosage_form e <> EmptyString
  /\ MedicineInventory.id e = pk
  /\ MedicineInventory.created_by e = Some user
  /\ MedicineInventory.minimum_stock_level e = 10
  /\ (import_csv.get_strip "batch_no" r = Some EmptyString ->
      MedicineInventory.batch_no e
      = String.append "BATCH_" (str_of_Z row_num))
  /\ (import_csv.get_strip "dosage_form" r = Some EmptyString ->
      MedicineInventory.dosage_form e = "Tablet"%string)
  /\ (import_csv.get_strip "expiry_date" r = Some EmptyString ->
      MedicineInventory.expiry_date e = today + 365)
  /\ (import_csv.get_strip "date" r = Some EmptyString ->
      MedicineInventory.date e = today).
Proof.
  unfold import_csv.medicine_of_row.
  destruct (import_csv.get_strip "medicine_name" r) as [name|] eqn:Hname;
    [|discriminate].
  destruct (String.eqb name EmptyString) eqn:Hblank; [discriminate|].
  destruct (import_csv.get_strip "date" r) as [date_str|];
    [|split_options; discriminate].
  destruct (import_csv.get_strip "expiry_date" r) as [expiry_str|];
    [|split_options; discriminate].
  destruct (import_csv.get_strip "supplier_name" r);
    [|split_options; discriminate].
  destruct (import_csv.get_strip "dosage_form" r) as [dosage|];
    [|split_options; discriminate].
  destruct (import_csv.get_strip "batch_no" r) as [batch|];
    [|split_options; discriminate].
  destruct (import_csv.get_strip "generic_name" r);
    [|split_options; discriminate].
  destruct (import_csv.get_strip "manufacturer" r);
    [|split_options; discriminate].
  destruct (import_csv.get_strip "strength" r);
    [|split_options; discriminate].
  destruct (import_csv.get_strip "prescribing_doctor" r);
    [|split_options; discriminate].
  destruct (import_csv.get_strip "dispensed_to" r);
    [|split_options; discriminate].
  destruct (import_csv.get_strip "notes" r); [|discriminate].
  intros H. injection H as <-. cbv zeta.
  cbn [MedicineInventory.medicine_name MedicineInventory.batch_no
       MedicineInventory.dosage_form MedicineInventory.id
       MedicineInventory.created_by MedicineInventory.minimum_stock_level
       MedicineInventory.expiry_date MedicineInventory.date].
  split; [apply String.eqb_neq; exact Hblank|].
  split; [apply (get_strip_stripped "medicine_name" r); exact Hname|].
  split; [apply or_default_nonempty; discriminate|].
  split; [apply or_default_nonempty; discriminate|].
  do 3 (split; [reflexivity|]).
  split; [intros H; injection H as ->; reflexivity|].
  split; [intros H; injection H as ->; reflexivity|].
  split; intros H; injection H as ->; reflexivity.
Qed.

Lemma import_csv_entry_defaults_witness :
  let r := [("medicine_name", Some "  Aspirin ");
            ("quantity_in", Some "10")]%string in
  exists m,
    import_csv.medicine_of_row a_day 1 7 r = Some m
    /\ MedicineInventory.batch_no (m 0) = "BATCH_7"%string
    /\ MedicineInventory.expiry_date (m 0) = a_day + 365
    /\ MedicineInventory.medicine_name (m 0) = "Aspirin"%string.
Proof.
  intros r. eexists. split; [reflexivity|].
  destruct (import_csv_entry_defaults a_day 1 7 r _ 0 eq_refl)
    as (_ & _ & _ & _ & _ & _ & _ & Hb & _ & He & _).
  split; [apply Hb; reflexivity|]. split; [apply He; reflexivity|].
  reflexivity.
Defined.




(** *** Editing and deleting an entry *)

Lemma find_by_id (pk : Z) (objects : list MedicineInventory.t)
    (item : MedicineInventory.t) :
  find (fun r => MedicineInventory.id r =? pk) objects = Some item ->
  In item objects /\ MedicineInventory.id item = pk.
Proof.
  intros H. apply find_some in H as [Hin He].
  split; [exact Hin | apply Z.eqb_eq; exact He].
Qed.

Lemma get_inventory_unknown (pk : Z) (db : DB) :
  find (fun r => MedicineInventory.id r =? pk) (inventory db) = None ->
  get_inventory_or_404 pk db = (Raise Http404, db).
Proof.
  intros H. unfold get_inventory_or_404, bind, get_db. rewrite H.
  reflexivity.
Qed.

Lemma get_inventory_found (pk : Z) (db : DB) (item : MedicineInventory.t) :
  find (fun r => MedicineInventory.id r =? pk) (inventory db) = Some item ->
  get_inventory_or_404 pk db = (Ok item, db).
Proof.
  intros H. unfold get_inventory_or_404, bind, get_db. rewrite H.
  reflexivity.
Qed.

Lemma delete_inventory_found (pk : Z) (db : DB) (item : MedicineInventory.t) :
  find (fun r => MedicineInventory.id r =? pk) (inventory db) = Some item ->
  delete_inventory pk (POST tt) db
  = (Ok deleted,
     mkDB (filter (fun r => negb (MedicineInventory.id r =? pk))
             (inventory db))
       (inventory_seq db)
       (filter (fun h => negb (records_of pk h)) (history db))
       (history_seq db) (alerts db) (alerts_seq db)).
Proof.
  intros H. destruct (find_by_id _ _ _ H) as [_ Hid].
  unfold delete_inventory. unfold bind at 1.
  rewrite (get_inventory_found pk db item H). subst pk. reflexivity.
Qed.

Lemma filter_keeps_all {A : Type} (f : A -> bool) (l : list A) :
  (forall x, In x l -> f x = true) -> filter f l = l.
Proof.
  induction l as [|x rest IH]; intros H; simpl; [reflexivity|].
  rewrite (H x (or_introl eq_refl)), IH; [reflexivity|].
  intros y Hy. apply H. right. exact Hy.
Qed.

(** What one entry carries of the totals of a key leaves with it. *)
Lemma totals_without_entry (name batch : string) (pk : Z)
    (objects : list MedicineInventory.t) (item : MedicineInventory.t) :
  NoDup (map MedicineInventory.id objects) ->
  find (fun r => MedicineInventory.id r =? pk) objects = Some item ->
  total_received name batch
    (filter (fun r => negb (MedicineInventory.id r =? pk)) objects)
  - total_dispensed name batch
      (filter (fun r => negb (MedicineInventory.id r =? pk)) objects)
  = total_received name batch objects - total_dispensed name batch objects
    - movement name batch item.
Proof.
  induction objects as [|e rest IH]; intros Hnd Hfind; [discriminate|].
  simpl in Hnd. inversion Hnd as [|x l Hnotin Hnd' E]; subst x l.
  cbn [find filter] in *.
  destruct (MedicineInventory.id e =? pk) eqn:Eid.
  - injection Hfind as <-. apply Z.eqb_eq in Eid.
    rewrite filter_keeps_all.
    + cbn [negb total_received total_dispensed]. unfold movement.
      destruct (MedicineInventory.same_key name batch e); lia.
    + intros y Hy. apply Bool.negb_true_iff, Z.eqb_neq. intros Heq.
      apply Hnotin. rewrite Eid, <- Heq. apply in_map. exact Hy.
  - cbn [negb total_received total_dispensed].
    specialize (IH Hnd' Hfind).
    destruct (MedicineInventory.same_key name batch e); lia.
Qed.

(** X15. A confirmed [delete_inventory] of an existing entry removes
    that entry and, through the cascade of [inventory_record], exactly the
    history rows that point at it; every other row stays, in order, and the
    alerts are not touched.  Nothing looks at the stock: the balance of the
    entry's key loses what the entry carried (a deleted receipt can leave
    it negative) and every other key keeps its balance. *)
Theorem delete_inventory_cascades (pk : Z) (db : DB)
    (item : MedicineInventory.t) :
  find (fun r => MedicineInventory.id r =? pk) (inventory db) = Some item ->
  NoDup (map MedicineInventory.id (inventory db)) ->
  let run := delete_inventory pk (POST tt) db in
  fst run = Ok deleted
  /\ inventory (snd run)
     = filter (fun r => negb (MedicineInventory.id r =? pk)) (inventory db)
  /\ (forall h, In h (history (snd run)) <->
                In h (history db)
                /\ DispenseHistory.inventory_record h <> Some pk)
  /\ history (snd run)
     = filter (fun h => negb (records_of pk h)) (history db)
  /\ alerts (snd run) = alerts db
  /\ (forall name batch,
        balance_of (inventory (snd run)) name batch
        = balance_of (inventory db) name batch - movement name batch item).
Proof.
  intros Hfind Hnd. cbv zeta. rewrite (delete_inventory_found pk db item Hfind).
  cbn [fst snd inventory history alerts].
  split; [reflexivity|]. split; [reflexivity|].
  split.
  { intros h. rewrite filter_In. unfold records_of.
    destruct (DispenseHistory.inventory_record h) as [k|].
    - destruct (k =? pk) eqn:E; simpl.
      + apply Z.eqb_eq in E. subst k. split; [intros [_ H]; discriminate|].
        intros [_ H]. contradiction H. reflexivity.
      + apply Z.eqb_neq in E. split; intros [Hin _]; (split; [exact Hin|]);
          [intros H; injection H as H; contradiction | reflexivity].
    - simpl. split; intros [Hin _]; (split; [exact Hin|]);
        [discriminate | reflexivity]. }
  split; [reflexivity|]. split; [reflexivity|].
  intros name batch. unfold balance_of. rewrite !balance_net.
  cbn [MedicineInventory.medicine_name MedicineInventory.batch_no].
  apply totals_without_entry; assumption.
Qed.

Lemma delete_inventory_cascades_witness :
  balance_of (inventory (snd (delete_inventory 1 (POST tt) two_receipts)))
    "Amoxicillin" "B1" = 40.
Proof.
  destruct (delete_inventory_cascades 1 two_receipts amoxicillin_receipt)
    as (_ & _ & _ & _ & _ & Hb).
  - reflexivity.
  - repeat constructor; simpl; intuition discriminate.
  - rewrite Hb. reflexivity.
Defined.








(** X17. Requests to [edit_inventory] and [delete_inventory] that write
    nothing.  An unknown primary key is answered with Http404 before the
    request is looked at, whatever it posts.  For an existing entry a GET
    shows the form or the confirmation page; an edit whose posted
    quantity_out is no integer raises ValueError, and one whose form does
    not validate is answered with the form again; the store stays as it
    was in each case. *)
Theorem edit_and_delete_write_nothing (now : datetime) (user pk : Z)
    (db : DB) :
  (find (fun r => MedicineInventory.id r =? pk) (inventory db) = None ->
   (forall req, edit_inventory now user pk req db = (Raise Http404, db))
   /\ (forall req, delete_inventory pk req db = (Raise Http404, db)))
  /\ (forall item,
        find (fun r => MedicineInventory.id r =? pk) (inventory db)
        = Some item ->
        edit_inventory now user pk GET db = (Ok edit_form_shown, db)
        /\ delete_inventory pk GET db = (Ok confirm_delete, db)
        /\ (forall d e,
              MedicineInventoryForm.init d = Raise e ->
              e = ValueError
              /\ edit_inventory now user pk (POST d) db = (Raise e, db))
        /\ (forall d required,
              MedicineInventoryForm.init d = Ok required ->
              MedicineInventoryForm.is_valid now required d user = None ->
              edit_inventory now user pk (POST d) db
              = (Ok edit_form_errors, db))).
Proof.
  split.
  - intros Hnone. split; intros req.
    + unfold edit_inventory, bind.
      rewrite (get_inventory_unknown pk db Hnone). reflexivity.
    + unfold delete_inventory, bind.
      rewrite (get_inventory_unknown pk db Hnone). reflexivity.
  - intros item Hfind.
    split; [unfold edit_inventory, bind;
            rewrite (get_inventory_found pk db item Hfind); reflexivity|].
    split; [unfold delete_inventory, bind;
            rewrite (get_inventory_found pk db item Hfind); reflexivity|].
    split.
    + intros d e Hinit. split.
      * revert Hinit. unfold MedicineInventoryForm.init.
        destruct (MedicineInventoryForm.quantity_out d) as [|[q|]];
          intros H; try discriminate. injection H as <-. reflexivity.
      * unfold edit_inventory, bind.
        rewrite (get_inventory_found pk db item Hfind), Hinit. reflexivity.
    + intros d required Hinit Hinvalid. unfold edit_inventory, bind.
      rewrite (get_inventory_found pk db item Hfind), Hinit, Hinvalid.
      reflexivity.
Qed.

Lemma edit_and_delete_write_nothing_witness :
  edit_inventory (midnight a_day) 1 5
    (POST (form_entry "Amoxicillin" "B1" (a_day + 60) 10 0 "")) one_receipt
  = (Raise Http404, one_receipt)
  /\ edit_inventory (midnight a_day) 1 1
       (POST (form_entry "Amoxicillin" "B1" a_day 10 0 "")) one_receipt
     = (Ok edit_form_errors, one_receipt).
Proof.
  split.
  - apply (proj1 (edit_and_delete_write_nothing (midnight a_day) 1 5
                    one_receipt)). reflexivity.
  - destruct (proj2 (edit_and_delete_write_nothing (midnight a_day) 1 1
                       one_receipt) amoxicillin_receipt eq_refl)
      as (_ & _ & _ & H).
    apply (H _ false); reflexivity.
Defined.

(** *** Deleting what a request has just written *)

Lemma find_fresh (k : Z) (objects : list MedicineInventory.t)
    (r : MedicineInventory.t) :
  (forall x, In x objects -> MedicineInventory.id x < k) ->
  MedicineInventory.id r = k ->
  find (fun x => MedicineInventory.id x =? k) (objects ++ [r]) = Some r.
Proof.
  intros Hlt Hid. induction objects as [|x rest IH]; simpl.
  - rewrite Hid, Z.eqb_refl. reflexivity.
  - pose proof (Hlt x (or_introl eq_refl)) as Hx.
    destruct (MedicineInventory.id x =? k) eqn:E;
      [apply Z.eqb_eq in E; lia|].
    apply IH. intros y Hy. apply Hlt. right. exact Hy.
Qed.

Lemma filter_fresh (k : Z) (objects : list MedicineInventory.t)
    (r : MedicineInventory.t) :
  (forall x, In x objects -> MedicineInventory.id x < k) ->
  MedicineInventory.id r = k ->
  filter (fun x => negb (MedicineInventory.id x =? k)) (objects ++ [r])
  = objects.
Proof.
  intros Hlt Hid. rewrite filter_app. simpl. rewrite Hid, Z.eqb_refl. simpl.
  rewrite app_nil_r. apply filter_keeps_all. intros x Hx.
  apply Bool.negb_true_iff, Z.eqb_neq. specialize (Hlt x Hx). lia.
Qed.

Lemma records_of_fresh (k : Z) (rows : list DispenseHistory.t) :
  (forall h j, In h rows ->
               DispenseHistory.inventory_record h = Some j -> j < k) ->
  filter (fun h => negb (records_of k h)) rows = rows.
Proof.
  intros Hlt. apply filter_keeps_all. intros h Hh.
  apply Bool.negb_true_iff. unfold records_of.
  destruct (DispenseHistory.inventory_record h) as [j|] eqn:E;
    [|reflexivity].
  apply Z.eqb_neq. specialize (Hlt h j Hh E). lia.
Qed.

Lemma add_inventory_inventory_seq (now : datetime) (user : Z)
    (d : MedicineInventoryForm.data) (db : DB) (required : bool)
    (row : Z -> MedicineInventory.t) :
  MedicineInventoryForm.init d = Ok required ->
  MedicineInventoryForm.is_valid now required d user = Some row ->
  inventory_seq (snd (add_inventory now user (POST d) db))
  = inventory_seq db + 1.
Proof.
  intros Hinit Hvalid.
  rewrite (add_inventory_valid now user d db required row Hinit Hvalid).
  cbv zeta.
  assert (Hs : inventory_seq
                 (after_save now user (row (inventory_seq db)) db)
               = inventory_seq db + 1).
  { unfold after_save. destruct (0 <? _); reflexivity. }
  destruct (MedicineInventory.is_low_stock _ _); [|exact Hs].
  cbn [snd]. rewrite (proj1 (proj2 (get_or_create_ledger _ _ _ _ _))).
  exact Hs.
Qed.

(** X18. Deleting the entry that [add_inventory] has just stored undoes
    the request on the ledger and on the history: the entry goes and, for
    a dispense, the cascade takes the history row that mirrors it, so both
    tables are as before the request.  What stays is the low stock alert
    the request may have raised, and the primary key is not given out
    again. *)
Theorem delete_undoes_manual_entry (now : datetime) (user : Z)
    (d : MedicineInventoryForm.data) (db : DB) (required : bool)
    (row : Z -> MedicineInventory.t) :
  MedicineInventoryForm.init d = Ok required ->
  MedicineInventoryForm.is_valid now required d user = Some row ->
  fresh_keys db ->
  let added := snd (add_inventory now user (POST d) db) in
  let run := delete_inventory (inventory_seq db) (POST tt) added in
  fst run = Ok deleted
  /\ inventory (snd run) = inventory db
  /\ history (snd run) = history db
  /\ alerts (snd run) = alerts added
  /\ inventory_seq (snd run) = inventory_seq db + 1.
Proof.
  intros Hinit Hvalid [Hinv Hhist]. cbv zeta.
  destruct (add_inventory_ledger now user d db required row Hinit Hvalid)
    as [Hi Hh].
  pose proof (add_inventory_inventory_seq now user d db required row
                Hinit Hvalid) as Hseq.
  set (added := snd (add_inventory now user (POST d) db)) in *.
  set (r := row (inventory_seq db)) in *.
  assert (Hid : MedicineInventory.id r = inventory_seq db)
    by (apply (is_valid_id now required d user); exact Hvalid).
  rewrite (proj1 (after_save_inventory now user r db)) in Hi.
  assert (Hfind : find (fun x => MedicineInventory.id x =? inventory_seq db)
                    (inventory added) = Some r).
  { rewrite Hi. apply find_fresh; assumption. }
  rewrite (delete_inventory_found _ added r Hfind).
  cbn [fst snd inventory history alerts inventory_seq].
  split; [reflexivity|].
  split; [rewrite Hi; apply filter_fresh; assumption|].
  split; [|split; [reflexivity | exact Hseq]].
  rewrite Hh. unfold after_save.
  destruct (0 <? MedicineInventory.quantity_out r);
    cbn [history]; [|apply records_of_fresh; exact Hhist].
  rewrite filter_app, (records_of_fresh _ _ Hhist). simpl.
  unfold records_of, mirrored_record.
  cbn [DispenseHistory.inventory_record]. rewrite Hid, Z.eqb_refl. simpl.
  apply app_nil_r.
Qed.

Lemma delete_undoes_manual_entry_witness :
  let d := form_entry "Amoxicillin" "B1" (a_day + 60) 0 95 "J.Doe" in
  let added := snd (add_inventory (midnight a_day) 1 (POST d) one_receipt) in
  let run := delete_inventory 2 (POST tt) added in
  fresh_keys one_receipt
  /\ List.length (history added) = 1%nat
  /\ List.length (alerts added) = 1%nat
  /\ inventory (snd run) = inventory one_receipt
  /\ history (snd run) = []
  /\ alerts (snd run) = alerts added.
Proof.
  intros d added run.
  assert (Hf : fresh_keys one_receipt).
  { split.
    - intros r [<-|[]]. reflexivity.
    - intros h k []. }
  split; [exact Hf|]. split; [reflexivity|]. split; [reflexivity|].
  destruct (delete_undoes_manual_entry (midnight a_day) 1 d one_receipt
              true _ eq_refl eq_refl Hf) as (_ & Hi & Hh & Ha & _).
  split; [exact Hi|]. split; [exact Hh | exact Ha].
Defined.

(** X19. Deleting the ledger entry that a successful [quick_dispense]
    wrote puts the ledger, and with it every balance, back as it was, but
    the dispense stays in the history: the history row of a quick dispense
    carries no [inventory_record], so the cascade does not reach it. *)
Theorem dispense_record_survives_delete (now : datetime) (user : Z)
    (d : QuickDispenseForm.data) (db : DB) :
  fst (quick_dispense healthy now user (POST d) db) = Ok dispensed ->
  fresh_keys db ->
  let dispensed_db := snd (quick_dispense healthy now user (POST d) db) in
  let run := delete_inventory (inventory_seq db) (POST tt) dispensed_db in
  fst run = Ok deleted
  /\ inventory (snd run) = inventory db
  /\ exists h,
       history (snd run) = history db ++ [h]
       /\ DispenseHistory.inventory_record h = None
       /\ DispenseHistory.date h = now
       /\ Some (DispenseHistory.quantity_out h)
          = QuickDispenseForm.quantity d.
Proof.
  intros Hok [Hinv Hhist]. cbv zeta.
  destruct (QuickDispenseForm.is_valid d) as [cd|] eqn:Hvalid.
  2:{ unfold quick_dispense in Hok. rewrite Hvalid in Hok. discriminate. }
  rewrite (quick_dispense_valid healthy now user d cd db Hvalid) in *.
  unfold after_dispense in *.
  destruct (source_entry db cd) as [src|]; [|discriminate].
  destruct (balance_of _ _ _ <? _); [discriminate|].
  cbn [snd].
  set (e := dispense_entry now user cd src (inventory_seq db)).
  match goal with
  | |- context [delete_inventory _ _ ?x] => set (db1 := x)
  end.
  assert (Hfind : find (fun x => MedicineInventory.id x =? inventory_seq db)
                    (inventory db1) = Some e)
    by (apply find_fresh; [assumption | reflexivity]).
  rewrite (delete_inventory_found (inventory_seq db) db1 e Hfind).
  subst db1. cbn [fst snd inventory history].
  split; [reflexivity|].
  split; [apply filter_fresh; [assumption | reflexivity]|].
  exists (dispense_record now user cd src (history_seq db)).
  split.
  - rewrite filter_app, (records_of_fresh _ _ Hhist). reflexivity.
  - split; [reflexivity|]. split; [reflexivity|].
    cbn [dispense_record DispenseHistory.quantity_out].
    revert Hvalid. unfold QuickDispenseForm.is_valid.
    destruct (CharField true 200 _); [|split_options; discriminate].
    destruct (CharField true 100 (QuickDispenseForm.batch_no d));
      [|split_options; discriminate].
    destruct (IntegerField 1 (QuickDispenseForm.quantity d)) as [q|] eqn:Eq;
      [|split_options; discriminate].
    destruct (CharField true 100 (QuickDispenseForm.patient_name d));
      [|split_options; discriminate].
    destruct (CharField false 100 _); [|discriminate].
    intros H. injection H as <-.
    apply IntegerField_Some in Eq as [-> _]. reflexivity.
Qed.

Lemma dispense_record_survives_delete_witness :
  let dispensed_db :=
    snd (quick_dispense healthy (midnight a_day) 1 (dispense_amoxicillin 95)
           one_receipt) in
  let run := delete_inventory 2 (POST tt) dispensed_db in
  inventory (snd run) = inventory one_receipt
  /\ List.length (history (snd run)) = 1%nat.
Proof.
  intros dispensed_db run.
  assert (Hf : fresh_keys one_receipt).
  { split.
    - intros r [<-|[]]. reflexivity.
    - intros h k []. }
  destruct (dispense_record_survives_delete (midnight a_day) 1
              (QuickDispenseForm.mk "Amoxicillin" "B1" (Some 95) "J.Doe" "")
              one_receipt eq_refl Hf) as (_ & Hi & h & Hh & _).
  split; [exact Hi|].
  apply (f_equal (@List.length _)) in Hh. rewrite length_app in Hh.
  exact Hh.
Defined.


(** *** The expiry report, the charts and the dashboard *)

Lemma count_none {A : Type} (f : A -> bool) (l : list A) :
  (forall x, In x l -> f x = false) -> count f l = 0%nat.
Proof.
  unfold count. induction l as [|x rest IH]; intros H; simpl; [reflexivity|].
  rewrite (H x (or_introl eq_refl)). apply IH.
  intros y Hy. apply H. right. exact Hy.
Qed.

Lemma count_cons {A : Type} (f : A -> bool) (x : A) (l : list A) :
  count f (x :: l) = ((if f x then 1 else 0) + count f l)%nat.
Proof. unfold count. simpl. destruct (f x); reflexivity. Qed.

Lemma insert_by_expiry_count (f : MedicineInventory.t -> bool)
    (r : MedicineInventory.t) (l : list MedicineInventory.t) :
  count f (insert_by_expiry r l) = count f (r :: l).
Proof.
  induction l as [|s rest IH]; [reflexivity|]. simpl.
  destruct (_ <? _); [|reflexivity].
  rewrite count_cons, IH, !count_cons. lia.
Qed.

Lemma order_by_expiry_date_count (f : MedicineInventory.t -> bool)
    (l : list MedicineInventory.t) :
  count f (order_by_expiry_date l) = count f l.
Proof.
  induction l as [|r rest IH]; [reflexivity|]. simpl.
  rewrite insert_by_expiry_count, !count_cons, IH. reflexivity.
Qed.

Lemma insert_by_expiry_length (r : MedicineInventory.t)
    (l : list MedicineInventory.t) :
  List.length (insert_by_expiry r l) = S (List.length l).
Proof.
  induction l as [|s rest IH]; [reflexivity|]. simpl.
  destruct (_ <? _); simpl; [rewrite IH|]; reflexivity.
Qed.

Lemma order_by_expiry_date_length (l : list MedicineInventory.t) :
  List.length (order_by_expiry_date l) = List.length l.
Proof.
  induction l as [|r rest IH]; [reflexivity|]. simpl.
  rewrite insert_by_expiry_length, IH. reflexivity.
Qed.

Lemma insert_by_expiry_In (x r : MedicineInventory.t)
    (l : list MedicineInventory.t) :
  In x (insert_by_expiry r l) <-> x = r \/ In x l.
Proof.
  induction l as [|s rest IH]; simpl; [intuition congruence|].
  destruct (_ <? _); simpl; [rewrite IH|]; intuition congruence.
Qed.

Lemma insert_by_expiry_ascending (r : MedicineInventory.t)
    (l : list MedicineInventory.t) :
  ascending (map MedicineInventory.expiry_date l) ->
  ascending (map MedicineInventory.expiry_date (insert_by_expiry r l)).
Proof.
  induction l as [|s rest IH]; intros Hasc.
  - simpl. split; constructor.
  - cbn [insert_by_expiry]. cbn [map ascending] in Hasc.
    destruct Hasc as [Hs Hrest].
    destruct (MedicineInventory.expiry_date s
              <? MedicineInventory.expiry_date r) eqn:E.
    + apply Z.ltb_lt in E. cbn [map ascending]. split; [|apply IH; exact Hrest].
      apply Forall_forall. intros d Hd. apply in_map_iff in Hd
        as (x & <- & Hx).
      apply insert_by_expiry_In in Hx as [->|Hx]; [lia|].
      rewrite Forall_forall in Hs. apply Hs. apply in_map. exact Hx.
    + apply Z.ltb_ge in E. cbn [map ascending].
      split; [|split; assumption].
      constructor; [exact E|].
      apply Forall_forall. intros d Hd.
      rewrite Forall_forall in Hs. specialize (Hs d Hd). lia.
Qed.

Lemma order_by_expiry_date_ascending (l : list MedicineInventory.t) :
  ascending (map MedicineInventory.expiry_date (order_by_expiry_date l)).
Proof.
  induction l as [|r rest IH]; [exact I|].
  simpl. apply insert_by_expiry_ascending. exact IH.
Qed.

Section ExpiryBuckets.

Variable now : datetime.

Let today := date_of now.
Let is_expired_row (r : MedicineInventory.t) : bool :=
  MedicineInventory.expiry_date r <=? today.
Let is_expiring_row (r : MedicineInventory.t) : bool :=
  (today <? MedicineInventory.expiry_date r)
  && (MedicineInventory.expiry_date r <=? today + 30).
Let is_good_row (r : MedicineInventory.t) : bool :=
  today + 30 <? MedicineInventory.expiry_date r.

(** The three buckets of the charts part the ledger. *)
Lemma buckets_partition (l : list MedicineInventory.t) :
  (count is_expired_row l + count is_expiring_row l + count is_good_row l)%nat
  = List.length l.
Proof.
  induction l as [|r rest IH]; [reflexivity|].
  rewrite !count_cons. simpl List.length.
  unfold is_expired_row at 1, is_expiring_row at 1, is_good_row at 1.
  destruct (Z.leb_spec (MedicineInventory.expiry_date r) today),
           (Z.ltb_spec today (MedicineInventory.expiry_date r)),
           (Z.leb_spec (MedicineInventory.expiry_date r) (today + 30)),
           (Z.ltb_spec (today + 30) (MedicineInventory.expiry_date r));
    simpl; lia.
Qed.

(** In a list sorted by expiry date the statuses come in blocks, as long
    as the buckets say. *)
Lemma statuses_in_blocks (l : list MedicineInventory.t) :
  ascending (map MedicineInventory.expiry_date l) ->
  map (status_of now) l
  = repeat Expired (count is_expired_row l)
    ++ repeat Expiring_Soon (count is_expiring_row l)
    ++ repeat Good (count is_good_row l).
Proof.
  induction l as [|r rest IH]; intros Hasc; [reflexivity|].
  cbn [map ascending] in Hasc. destruct Hasc as [Hr Hrest].
  specialize (IH Hrest). rewrite Forall_forall in Hr.
  assert (Hle : forall x, In x rest ->
                          MedicineInventory.expiry_date r
                          <= MedicineInventory.expiry_date x).
  { intros x Hx. apply Hr. apply in_map. exact Hx. }
  rewrite !count_cons. cbn [map]. rewrite IH.
  unfold status_of, MedicineInventory.is_expired,
    MedicineInventory.days_to_expiry.
  destruct (Z.leb_spec (MedicineInventory.expiry_date r) (date_of now))
    as [H1|H1].
  - replace (is_expired_row r) with true
      by (symmetry; unfold is_expired_row, today; apply Z.leb_le; lia).
    replace (is_expiring_row r) with false
      by (symmetry; unfold is_expiring_row, today;
          apply Bool.andb_false_iff; left; apply Z.ltb_ge; lia).
    replace (is_good_row r) with false
      by (symmetry; unfold is_good_row, today; apply Z.ltb_ge; lia).
    reflexivity.
  - replace (is_expired_row r) with false
      by (symmetry; unfold is_expired_row, today; apply Z.leb_gt; lia).
    assert (E0 : count is_expired_row rest = 0%nat).
    { apply count_none. intros x Hx. unfold is_expired_row, today.
      apply Z.leb_gt. specialize (Hle x Hx). lia. }
    rewrite E0.
    destruct (Z.leb_spec (MedicineInventory.expiry_date r - date_of now) 30)
      as [H2|H2].
    + replace (is_expiring_row r) with true
        by (symmetry; unfold is_expiring_row, today;
            apply Bool.andb_true_iff; split;
            [apply Z.ltb_lt | apply Z.leb_le]; lia).
      replace (is_good_row r) with false
        by (symmetry; unfold is_good_row, today; apply Z.ltb_ge; lia).
      reflexivity.
    + replace (is_expiring_row r) with false
        by (symmetry; unfold is_expiring_row, today;
            apply Bool.andb_false_iff; right; apply Z.leb_gt; lia).
      replace (is_good_row r) with true
        by (symmetry; unfold is_good_row, today; apply Z.ltb_lt; lia).
      assert (E1 : count is_expiring_row rest = 0%nat).
      { apply count_none. intros x Hx. unfold is_expiring_row, today.
        apply Bool.andb_false_iff. right. apply Z.leb_gt.
        specialize (Hle x Hx). lia. }
      rewrite E1. reflexivity.
Qed.

End ExpiryBuckets.

(** X20. The expiry report and the expiry chart agree.  The report has
    one line per ledger entry, soonest expiry first, so its Status column
    reads Expired, then Expiring Soon, then Good, and the three blocks are
    as long as the counts expired, expiring_soon and good of
    [analytics_data]; the counts add up to the number of entries.  A line
    is Expired when its days to expiry are 0 or fewer, Expiring Soon from
    1 to 30 days and Good above 30. *)
Theorem expiry_report_agrees_with_analytics (now : datetime)
    (objects : list MedicineInventory.t) :
  let report := export_expiry_report now objects in
  let data := analytics_expiry_data now objects in
  List.length report = List.length objects
  /\ ascending (map report_expiry_date report)
  /\ map report_status report
     = repeat Expired (data_expired data)
       ++ repeat Expiring_Soon (data_expiring_soon data)
       ++ repeat Good (data_good data)
  /\ (data_expired data + data_expiring_soon data + data_good data)%nat
     = List.length objects
  /\ Forall (fun line =>
               match report_status line with
               | Expired => report_days_to_expiry line <= 0
               | Expiring_Soon => 1 <= report_days_to_expiry line <= 30
               | Good => 30 < report_days_to_expiry line
               end) report.
Proof.
  cbv zeta. unfold export_expiry_report, analytics_expiry_data.
  cbn [data_expired data_expiring_soon data_good].
  split; [rewrite length_map; apply order_by_expiry_date_length|].
  split.
  { rewrite map_map. cbn [report_expiry_date].
    apply order_by_expiry_date_ascending. }
  split.
  { rewrite map_map. cbn [report_status].
    rewrite (statuses_in_blocks now)
      by apply order_by_expiry_date_ascending.
    rewrite !order_by_expiry_date_count. reflexivity. }
  split; [apply buckets_partition|].
  apply Forall_forall. intros line Hin.
  apply in_map_iff in Hin as (item & <- & _).
  cbn [report_status report_days_to_expiry].
  unfold status_of, MedicineInventory.is_expired,
    MedicineInventory.days_to_expiry.
  destruct (Z.leb_spec (MedicineInventory.expiry_date item) (date_of now));
    [lia|].
  destruct (Z.leb_spec (MedicineInventory.expiry_date item - date_of now) 30);
    lia.
Qed.

Lemma insert_desc_count (f : MedicineInventory.t -> bool)
    (r : MedicineInventory.t) (l : list MedicineInventory.t) :
  count f (MedicineInventory.insert_desc r l) = count f (r :: l).
Proof.
  induction l as [|s rest IH]; [reflexivity|]. simpl.
  destruct (_ <? _); [|reflexivity].
  rewrite count_cons, IH, !count_cons. lia.
Qed.

Lemma ordered_count (f : MedicineInventory.t -> bool)
    (l : list MedicineInventory.t) :
  count f (MedicineInventory.ordered l) = count f l.
Proof.
  induction l as [|r rest IH]; [reflexivity|].
  unfold MedicineInventory.ordered in *. simpl.
  rewrite insert_desc_count, !count_cons, IH. reflexivity.
Qed.

Lemma ordered_length (l : list MedicineInventory.t) :
  List.length (MedicineInventory.ordered l) = List.length l.
Proof.
  pose proof (ordered_count (fun _ => true) l) as H. unfold count in H.
  rewrite !filter_keeps_all in H by reflexivity. exact H.
Qed.

Lemma firstn_In {A : Type} (x : A) (n : nat) (l : list A) :
  In x (firstn n l) -> In x l.
Proof.
  revert l. induction n as [|n IH]; intros [|y rest]; simpl; try tauto.
  intros [->|H]; [left; reflexivity | right; apply IH; exact H].
Qed.

Lemma map_constant {A B : Type} (f : A -> B) (b : B) (l : list A) :
  (forall x, In x l -> f x = b) -> map f l = repeat b (List.length l).
Proof.
  intros H. induction l as [|x rest IH]; simpl; [reflexivity|].
  rewrite (H x (or_introl eq_refl)), IH; [reflexivity|].
  intros y Hy. apply H. right. exact Hy.
Qed.

(** X21. The notices of the dashboard come in the order expired, expiring
    soon, low stock, at most five of each and ten in all, so the low stock
    notices get what the first two kinds leave of the ten: with five
    expired and five expiring entries none is shown, whatever the stock.
    Every notice is about a ledger entry in that condition.  The counts
    beside them are not capped: those of the expiry kinds are the counts of
    the charts, and low_stock_count counts ledger entries, one for each
    entry of a key that is low. *)
Theorem dashboard_notices_capped (now : datetime)
    (objects : list MedicineInventory.t) :
  let context := dashboard now objects in
  let data := analytics_expiry_data now objects in
  let e := Nat.min 5 (expired_count context) in
  let s := Nat.min 5 (expiring_soon_count context) in
  let l := Nat.min (Nat.min 5 (low_stock_count context)) (10 - e - s) in
  map notice_kind (dashboard_alerts context)
  = repeat danger e ++ repeat warning s ++ repeat info l
  /\ (List.length (dashboard_alerts context) <= 10)%nat
  /\ ((5 <= expired_count context)%nat ->
      (5 <= expiring_soon_count context)%nat ->
      Forall (fun n => notice_kind n <> info) (dashboard_alerts context))
  /\ Forall (notice_holds now objects) (dashboard_alerts context)
  /\ expired_count context = data_expired data
  /\ expiring_soon_count context = data_expiring_soon data
  /\ low_stock_count context
     = count (MedicineInventory.is_low_stock objects) objects.
Proof.
  cbv zeta. unfold dashboard.
  cbn [expired_count expiring_soon_count low_stock_count dashboard_alerts].
  set (expired_items := check_alerts.expired_items (date_of now) objects).
  set (expiring_soon :=
         check_alerts.expiring_items (date_of now) (date_of now + 30)
           objects).
  set (low_stock_items :=
         filter (MedicineInventory.is_low_stock objects)
           (MedicineInventory.ordered objects)).
  set (A := map (fun item => mk_notice danger item _)
              (firstn 5 expired_items)).
  set (B := map (fun item => mk_notice warning item _)
              (firstn 5 expiring_soon)).
  set (C := map (fun item => mk_notice info item _)
              (firstn 5 low_stock_items)).
  assert (HA : List.length A = Nat.min 5 (List.length expired_items))
    by (subst A; rewrite length_map; apply length_firstn).
  assert (HB : List.length B = Nat.min 5 (List.length expiring_soon))
    by (subst B; rewrite length_map; apply length_firstn).
  assert (HC : List.length C = Nat.min 5 (List.length low_stock_items))
    by (subst C; rewrite length_map; apply length_firstn).
  assert (Hcut : firstn 10 (A ++ B ++ C)
                 = A ++ B ++ firstn (10 - List.length A - List.length B) C).
  { rewrite firstn_app, (firstn_all2 A) by lia.
    rewrite firstn_app, (firstn_all2 B) by lia.
    replace (10 - List.length A - List.length B)%nat
      with (10 - List.length A - List.length B)%nat by reflexivity.
    reflexivity. }
  assert (Hkinds : map notice_kind (firstn 10 (A ++ B ++ C))
                   = repeat danger (Nat.min 5 (List.length expired_items))
                     ++ repeat warning
                          (Nat.min 5 (List.length expiring_soon))
                     ++ repeat info
                          (Nat.min (Nat.min 5 (List.length low_stock_items))
                             (10 - Nat.min 5 (List.length expired_items)
                              - Nat.min 5 (List.length expiring_soon)))).
  { rewrite Hcut, !map_app, <- HA, <- HB, <- HC.
    f_equal.
    { apply map_constant. intros n Hn. subst A.
      apply in_map_iff in Hn as (item & <- & _). reflexivity. }
    f_equal.
    { apply map_constant. intros n Hn. subst B.
      apply in_map_iff in Hn as (item & <- & _). reflexivity. }
    rewrite (map_constant notice_kind info).
    - rewrite length_firstn. f_equal. lia.
    - intros n Hn. apply firstn_In in Hn. subst C.
      apply in_map_iff in Hn as (item & <- & _). reflexivity. }
  split; [exact Hkinds|].
  split; [rewrite length_firstn; lia|].
  split.
  { intros He Hs. apply Forall_forall. intros n Hn Hinfo.
    apply (in_map notice_kind) in Hn. rewrite Hkinds, Hinfo in Hn.
    replace (10 - Nat.min 5 (List.length expired_items)
             - Nat.min 5 (List.length expiring_soon))%nat with 0%nat in Hn
      by lia.
    rewrite Nat.min_0_r in Hn. simpl in Hn. rewrite app_nil_r in Hn.
    apply in_app_or in Hn as [Hn|Hn]; apply repeat_spec in Hn;
      discriminate. }
  split.
  { apply Forall_forall. intros n Hn. apply firstn_In in Hn.
    unfold notice_holds.
    apply in_app_or in Hn as [Hn|Hn]; [|apply in_app_or in Hn as [Hn|Hn]].
    - subst A. apply in_map_iff in Hn as (item & <- & Hi).
      apply firstn_In in Hi. subst expired_items.
      unfold check_alerts.expired_items in Hi.
      apply (proj1 (ordered_In _ _)) in Hi. apply filter_In in Hi as [Hi Hc].
      cbn [notice_item notice_kind notice_figure].
      split; [exact Hi|]. split; [apply Z.leb_le; exact Hc | reflexivity].
    - subst B. apply in_map_iff in Hn as (item & <- & Hi).
      apply firstn_In in Hi. subst expiring_soon.
      unfold check_alerts.expiring_items in Hi.
      apply (proj1 (ordered_In _ _)) in Hi. apply filter_In in Hi as [Hi Hc].
      apply Bool.andb_true_iff in Hc as [H1 H2].
      cbn [notice_item notice_kind notice_figure].
      split; [exact Hi|].
      split; [apply Z.ltb_lt; exact H1|].
      split; [apply Z.leb_le; exact H2 | reflexivity].
    - subst C. apply in_map_iff in Hn as (item & <- & Hi).
      apply firstn_In in Hi. subst low_stock_items.
      apply filter_In in Hi as [Hi Hc].
      apply (proj1 (ordered_In _ _)) in Hi.
      cbn [notice_item notice_kind notice_figure].
      split; [exact Hi|].
      split; [apply Z.ltb_lt; exact Hc | reflexivity]. }
  split.
  { subst expired_items. unfold check_alerts.expired_items.
    rewrite ordered_length. reflexivity. }
  split.
  { subst expiring_soon. unfold check_alerts.expiring_items.
    rewrite ordered_length. reflexivity. }
  subst low_stock_items.
  apply (ordered_count (MedicineInventory.is_low_stock objects) objects).
Qed.


Lemma dashboard_notices_capped_witness :
  let context := dashboard (midnight a_day) crowded_ledger in
  low_stock_count context = 1%nat
  /\ Forall (fun n => notice_kind n <> info) (dashboard_alerts context).
Proof.
  intros context. split; [reflexivity|].
  destruct (dashboard_notices_capped (midnight a_day) crowded_ledger)
    as (_ & _ & H & _).
  apply H; vm_compute; constructor.
Defined.


(** *** The admin action and the mail *)

Lemma acknowledged_now_not_old (a : StockAlert.t) (user : Z)
    (now : datetime) :
  check_alerts.old_alerts now (acknowledged_row a user now) = false.
Proof.
  unfold check_alerts.old_alerts, acknowledged_row.
  cbn [StockAlert.is_acknowledged StockAlert.acknowledged_at andb].
  apply Z.leb_gt. unfold timedelta_days, usec_per_day. lia.
Qed.

Lemma count_key_acknowledged (name : string) (kind : StockAlert.ALERT_TYPES)
    (f : StockAlert.t -> bool) (user : Z) (now : datetime)
    (rows : list StockAlert.t) :
  count_key name kind
    (map (fun a => if f a then acknowledged_row a user now else a) rows)
  = count_key name kind rows.
Proof.
  unfold count_key. induction rows as [|r rest IH]; [reflexivity|].
  cbn [map filter].
  replace (StockAlert.has_key name kind
             (if f r then acknowledged_row r user now else r))
    with (StockAlert.has_key name kind r)
    by (destruct (f r); reflexivity).
  destruct (StockAlert.has_key name kind r); simpl; rewrite IH; reflexivity.
Qed.

(** X22. The admin action [mark_acknowledged] stamps every alert of its
    queryset with the acting user and the instant of the action, also one
    that was acknowledged before, and leaves every other alert, the number
    of alerts per (medicine, kind), the ledger and the history as they
    were.  A stamped alert is not old at that instant, so a sweep that
    follows does not delete it.  The number in the message is counted
    after the update: it is the number of alerts stamped when the queryset
    does not depend on the acknowledgement (ticked rows), and 0 when the
    queryset holds unacknowledged alerts only (a change list filtered on
    that), although all of them were stamped. *)
Theorem mark_acknowledged_stamps_queryset (now : datetime) (user : Z)
    (queryset : StockAlert.t -> bool) (db : DB) :
  let run := mark_acknowledged now user queryset db in
  inventory (snd run) = inventory db
  /\ history (snd run) = history db
  /\ (forall name kind,
        count_key name kind (alerts (snd run))
        = count_key name kind (alerts db))
  /\ (forall b,
        In b (alerts (snd run)) <->
        exists a, In a (alerts db)
                  /\ b = if queryset a then acknowledged_row a user now
                         else a)
  /\ (forall a,
        queryset a = true ->
        let b := acknowledged_row a user now in
        StockAlert.is_acknowledged b = true
        /\ StockAlert.acknowledged_by b = Some user
        /\ StockAlert.acknowledged_at b = Some now
        /\ check_alerts.old_alerts now b = false)
  /\ ((forall a, queryset (acknowledged_row a user now) = queryset a) ->
      fst run = Ok (count queryset (alerts db)))
  /\ ((forall a, queryset a = true -> StockAlert.is_acknowledged a = false) ->
      fst run = Ok 0%nat).
Proof.
  cbv zeta. unfold mark_acknowledged, bind, get_db, set_alerts, ret.
  cbn [fst snd inventory history alerts].
  split; [reflexivity|]. split; [reflexivity|].
  split; [intros name kind; apply count_key_acknowledged|].
  split.
  { intros b. rewrite in_map_iff. split.
    - intros (a & <- & Ha). exists a. split; [exact Ha | reflexivity].
    - intros (a & Ha & ->). exists a. split; [reflexivity | exact Ha]. }
  split.
  { intros a _. repeat split. apply acknowledged_now_not_old. }
  split.
  - intros Hq. f_equal. unfold count.
    induction (alerts db) as [|a rest IH]; [reflexivity|].
    cbn [map filter].
    replace (queryset (if queryset a then acknowledged_row a user now else a))
      with (queryset a)
      by (destruct (queryset a) eqn:E; [rewrite Hq, E|rewrite E];
          reflexivity).
    destruct (queryset a); simpl; rewrite IH; reflexivity.
  - intros Hq. f_equal. apply count_none. intros b Hb.
    apply in_map_iff in Hb as (a & <- & _).
    destruct (queryset a) eqn:E; [|exact E].
    destruct (queryset (acknowledged_row a user now)) eqn:E';
      [|reflexivity].
    apply Hq in E'. discriminate E'.
Qed.

Lemma mark_acknowledged_stamps_queryset_witness :
  let unacknowledged := fun a => negb (StockAlert.is_acknowledged a) in
  let db := mkDB [] 1 [] 1 [an_alert 1 false None; an_alert 2 false None] 3 in
  let run := mark_acknowledged (midnight a_day) 1 unacknowledged db in
  fst run = Ok 0%nat
  /\ Forall (fun a => StockAlert.is_acknowledged a = true) (alerts (snd run)).
Proof.
  intros unacknowledged db run. split.
  - apply (mark_acknowledged_stamps_queryset (midnight a_day) 1
             unacknowledged db).
    intros a H. apply Bool.negb_true_iff. exact H.
  - repeat constructor.
Defined.








(** *** Column detection of the spreadsheet import *)

Lemma contains_empty (term : string) :
  term <> EmptyString -> import_ods.contains term EmptyString = false.
Proof. destruct term; [intros H; contradiction H|]; reflexivity. Qed.

Lemma first_column_with_spec (term : string) (df_columns : list string) :
  match import_ods.first_column_with term
          (combine (map import_ods.lower df_columns) df_columns) with
  | None =>
      forall c, In c df_columns ->
                import_ods.contains term (import_ods.lower c) = false
  | Some col =>
      exists left right,
        df_columns = left ++ col :: right
        /\ import_ods.contains term (import_ods.lower col) = true
        /\ (forall c, In c left ->
                      import_ods.contains term (import_ods.lower c) = false)
  end.
Proof.
  induction df_columns as [|c rest IH]; [intros c []|].
  cbn [map combine import_ods.first_column_with].
  destruct (import_ods.contains term (import_ods.lower c)) eqn:E.
  - exists [], rest. split; [reflexivity|]. split; [exact E|]. intros x [].
  - destruct (import_ods.first_column_with term _) as [col|].
    + destruct IH as (left & right & -> & Hc & Hleft).
      exists (c :: left), right. split; [reflexivity|]. split; [exact Hc|].
      intros x [<-|Hx]; [exact E | apply Hleft; exact Hx].
    + intros x [<-|Hx]; [exact E | apply IH; exact Hx].
Qed.

Lemma search_settles (df_columns terms : list string) :
  Forall (fun term => term <> EmptyString) terms ->
  settled df_columns terms
    (import_ods.search terms
       (combine (map import_ods.lower df_columns) df_columns) None).
Proof.
  induction terms as [|term rest IH]; intros Hne.
  - intros term col [].
  - inversion Hne as [|t l Hterm Hrest]; subst t l.
    cbn [import_ods.search].
    pose proof (first_column_with_spec term df_columns) as Hfirst.
    destruct (import_ods.first_column_with term _) as [col|].
    + destruct Hfirst as (left & right & Hcols & Hc & Hleft).
      assert (Htruthy : import_ods.truthy (Some col) = true).
      { destruct col as [|ch col']; [|reflexivity].
        change (import_ods.lower EmptyString) with EmptyString in Hc.
        rewrite (contains_empty term Hterm) in Hc. discriminate. }
      rewrite Htruthy.
      exists [], term, rest, left, right.
      split; [reflexivity|]. split; [exact Hcols|]. split; [exact Hc|].
      split; [exact Hleft|]. intros t c [].
    + cbn [import_ods.truthy]. specialize (IH Hrest). unfold settled in *.
      destruct (import_ods.search rest _ None) as [col|].
      * destruct IH as (earlier & t & later & left & right
                        & -> & Hcols & Hc & Hleft & Hearlier).
        exists (term :: earlier), t, later, left, right.
        split; [reflexivity|]. split; [exact Hcols|]. split; [exact Hc|].
        split; [exact Hleft|].
        intros t' c [<-|Ht'] Hin; [apply Hfirst; exact Hin|].
        apply Hearlier; assumption.
      * intros t c [<-|Ht] Hin; [apply Hfirst; exact Hin|].
        apply IH; assumption.
Qed.

Lemma patterns_terms_nonempty (field : string) (terms : list string) :
  In (field, terms) import_ods.patterns ->
  Forall (fun term => term <> EmptyString) terms.
Proof.
  intros Hin.
  assert (H : forallb (fun p => forallb (fun t => negb (String.eqb t ""))
                                  (snd p)) import_ods.patterns = true)
    by reflexivity.
  rewrite forallb_forall in H. specialize (H _ Hin). cbn [snd] in H.
  rewrite forallb_forall in H. apply Forall_forall. intros t Ht.
  specialize (H t Ht). apply Bool.negb_true_iff in H.
  apply String.eqb_neq. exact H.
Qed.

(** X24. How the spreadsheet import picks the column of a field.  The
    search terms of the field are tried in their order and, for a term,
    the columns in sheet order; a term counts as found in any column whose
    lowered name contains it.  So a field is left unmapped exactly when no
    term occurs in any column name, and otherwise takes the first column
    that contains the first term found anywhere, whether or not another
    field takes the same column: with a header that names no quantity in
    column the way the terms do, quantity_in falls to the first column
    with the letters in, such as Medicine Name. *)
Theorem detect_columns_takes_first_match (df_columns : list string)
    (field : string) (terms : list string) :
  In (field, terms) import_ods.patterns ->
  exists column,
    In (field, column) (import_ods.detect_columns df_columns)
    /\ settled df_columns terms column.
Proof.
  intros Hin.
  exists (import_ods.search terms
            (combine (map import_ods.lower df_columns) df_columns) None).
  split.
  - unfold import_ods.detect_columns.
    apply (in_map (fun '(field, search_terms) =>
                     (field, import_ods.search search_terms
                               (combine (map import_ods.lower df_columns)
                                  df_columns) None)) _ _ Hin).
  - apply search_settles. apply (patterns_terms_nonempty field). exact Hin.
Qed.

Lemma detect_columns_takes_first_match_witness :
  In ("quantity_in", Some "Medicine Name")%string
    (import_ods.detect_columns sheet_header)
  /\ exists column,
       In ("quantity_in"%string, column)
         (import_ods.detect_columns sheet_header)
       /\ settled sheet_header
            ["quantity in"; "qty_in"; "quantity_in"; "stock_in"; "received";
             "in"]%string column.
Proof.
  split.
  - vm_compute. do 6 right. left. reflexivity.
  - apply (detect_columns_takes_first_match sheet_header "quantity_in").
    vm_compute. do 6 right. left. reflexivity.
Defined.


(** *** The dates of the CSV import *)

Lemma split_on_chars (sep c : ascii) (cs : list ascii) :
  In c cs ->
  Ascii.eqb c sep = true
  \/ exists part, In part (split_on sep cs) /\ In c part.
Proof.
  induction cs as [|c0 rest IH]; intros Hin; [contradiction|].
  cbn [split_on].
  destruct Hin as [<-|Hin].
  - destruct (split_on sep rest) as [|part parts].
    + right. exists [c0]. split; left; reflexivity.
    + destruct (Ascii.eqb c0 sep) eqn:E; [left; reflexivity|].
      right. exists (c0 :: part). split; left; reflexivity.
  - destruct (IH Hin) as [H|(p & Hp & Hc)]; [left; exact H|]. right.
    destruct (split_on sep rest) as [|part parts]; [contradiction|].
    destruct (Ascii.eqb c0 sep).
    + exists p. split; [right; exact Hp | exact Hc].
    + destruct Hp as [<-|Hp].
      * exists (c0 :: part). split; [left; reflexivity | right; exact Hc].
      * exists p. split; [right; exact Hp | exact Hc].
Qed.

Lemma split_on_absent (sep : ascii) (cs : list ascii) :
  (forall c, In c cs -> Ascii.eqb c sep = false) ->
  split_on sep cs = [cs].
Proof.
  induction cs as [|c0 rest IH]; intros H; [reflexivity|].
  cbn [split_on]. rewrite IH by (intros c Hc; apply H; right; exact Hc).
  rewrite (H c0 (or_introl eq_refl)). reflexivity.
Qed.

Lemma digit_is_no_dash (c : ascii) :
  is_digit c = true -> Ascii.eqb c "-"%char = false.
Proof.
  intros H. destruct (Ascii.eqb c "-"%char) eqn:E; [|reflexivity].
  apply Ascii.eqb_eq in E. subst c. discriminate H.
Qed.

Lemma directive_Y_chars (cs : list ascii) (v : Z) :
  directive_Y cs = Some v ->
  forall c, In c cs -> Ascii.eqb c "-"%char = false.
Proof.
  unfold directive_Y.
  destruct cs as [|a [|b [|c [|d [|e rest]]]]]; try discriminate.
  destruct (is_digit a) eqn:Ea, (is_digit b) eqn:Eb, (is_digit c) eqn:Ec,
           (is_digit d) eqn:Ed; try discriminate.
  intros _ x [<-|[<-|[<-|[<-|[]]]]]; apply digit_is_no_dash; assumption.
Qed.

Lemma directive_m_chars (cs : list ascii) (v : Z) :
  directive_m cs = Some v ->
  forall c, In c cs -> Ascii.eqb c "-"%char = false.
Proof.
  unfold directive_m.
  destruct cs as [|a [|b [|c rest]]]; try discriminate.
  - destruct (is_digit a) eqn:Ea; [|discriminate].
    intros _ x [<-|[]]. apply digit_is_no_dash; assumption.
  - destruct (is_digit a) eqn:Ea, (is_digit b) eqn:Eb; try discriminate.
    intros _ x [<-|[<-|[]]]; apply digit_is_no_dash; assumption.
Qed.

Lemma directive_d_chars (cs : list ascii) (v : Z) :
  directive_d cs = Some v ->
  forall c, In c cs -> Ascii.eqb c "-"%char = false.
Proof.
  unfold directive_d.
  destruct cs as [|a [|b [|c rest]]]; try discriminate.
  - destruct (is_digit a) eqn:Ea; [|discriminate].
    intros _ x [<-|[]]. apply digit_is_no_dash; assumption.
  - destruct (is_digit b) eqn:Eb.
    + destruct (Ascii.eqb a " "%char) eqn:Es.
      * apply Ascii.eqb_eq in Es. subst a.
        intros _ x [<-|[<-|[]]]; [reflexivity|].
        apply digit_is_no_dash; assumption.
      * destruct (is_digit a) eqn:Ea; [|discriminate].
        intros _ x [<-|[<-|[]]]; apply digit_is_no_dash; assumption.
    + rewrite Bool.andb_false_r. discriminate.
Qed.

(** A cell that reads as month/day/year holds no dash, so it does not
    read as year-month-day. *)
Lemma slash_date_is_no_iso_date (cell : string) (d : Z) :
  strptime_date cell m_d_Y = Some d -> strptime_date cell Y_m_d = None.
Proof.
  unfold strptime_date.
  set (cs := list_ascii_of_string cell).
  destruct (split_on "/"%char cs) as [|m [|dd [|y [|z rest]]]] eqn:Hsplit;
    try discriminate.
  destruct (directive_Y y) as [y'|] eqn:Hy; [|discriminate].
  destruct (directive_m m) as [m'|] eqn:Hm; [|discriminate].
  destruct (directive_d dd) as [d'|] eqn:Hd; [|discriminate].
  intros _.
  rewrite split_on_absent; [reflexivity|].
  intros c Hc.
  destruct (split_on_chars "/"%char c cs Hc) as [E|(part & Hpart & Hin)].
  - apply Ascii.eqb_eq in E. subst c. reflexivity.
  - rewrite Hsplit in Hpart.
    destruct Hpart as [<-|[<-|[<-|[]]]].
    + apply (directive_m_chars _ _ Hm). exact Hin.
    + apply (directive_d_chars _ _ Hd). exact Hin.
    + apply (directive_Y_chars _ _ Hy). exact Hin.
Qed.

(** X25. How the CSV import reads a date cell that is not blank.  A cell
    that can be read as month/day/year is read so, whatever it would be as
    day/month/year: 03/04/2024 is the fourth of March.  The day-first
    reading is used only for a cell that is neither year-month-day nor
    month/day/year, and a cell that matches none of the three formats
    silently becomes the fallback (the day of the import for the date, a
    year later for the expiry date). *)
Theorem import_csv_reads_month_first (cell : string) (fallback : Z) :
  cell <> EmptyString ->
  match strptime_date cell m_d_Y with
  | Some d => import_csv.parse_date cell fallback = d
  | None =>
      match strptime_date cell Y_m_d, strptime_date cell d_m_Y with
      | Some d, _ => import_csv.parse_date cell fallback = d
      | None, Some d => import_csv.parse_date cell fallback = d
      | None, None => import_csv.parse_date cell fallback = fallback
      end
  end.
Proof.
  intros Hcell. unfold import_csv.parse_date.
  apply String.eqb_neq in Hcell. rewrite Hcell.
  unfold import_csv.formats. cbn [first_format].
  destruct (strptime_date cell m_d_Y) as [d|] eqn:Hm.
  - rewrite (slash_date_is_no_iso_date cell d Hm). reflexivity.
  - destruct (strptime_date cell Y_m_d) as [d|]; [reflexivity|].
    destruct (strptime_date cell d_m_Y) as [d|]; reflexivity.
Qed.

Lemma import_csv_reads_month_first_witness :
  import_csv.parse_date "03/04/2024" 0 = 19786
  /\ make_date 2024 3 4 = Some 19786
  /\ strptime_date "03/04/2024" d_m_Y = make_date 2024 4 3.
Proof.
  split; [|split; reflexivity].
  pose proof (import_csv_reads_month_first "03/04/2024" 0) as H.
  cbv beta iota in H. apply H. discriminate.
Defined.


(** *** The pages of the list views *)

Section Pages.

Context {A : Type}.
Variable object_list : list A.
Variable per_page : Z.
Hypothesis per_page_positive : 0 < per_page.

Let count_rows := Paginator_count object_list.
Let last_page := num_pages object_list per_page.

Lemma num_pages_bounds :
  1 <= last_page
  /\ per_page * (last_page - 1) < Z.max 1 count_rows
  /\ Z.max 1 count_rows <= per_page * last_page.
Proof.
  unfold last_page, num_pages. fold count_rows. cbv zeta.
  set (hits := Z.max 1 count_rows).
  assert (Hhits : 1 <= hits) by (unfold hits; lia).
  pose proof (Z.mul_div_le (hits + per_page - 1) per_page
                per_page_positive) as Hle.
  pose proof (Z.mul_succ_div_gt (hits + per_page - 1) per_page
                per_page_positive) as Hgt.
  set (q := (hits + per_page - 1) / per_page) in *.
  assert (Hq : 1 <= q) by nia.
  split; [exact Hq|]. split; nia.
Qed.

Lemma firstn_plus (a b : nat) (l : list A) :
  firstn (a + b) l = firstn a l ++ firstn b (skipn a l).
Proof.
  revert l. induction a as [|a IH]; intros l; [reflexivity|].
  destruct l as [|x rest]; simpl.
  - rewrite firstn_nil. reflexivity.
  - rewrite IH. reflexivity.
Qed.

(** The rows of a page whose number is in range. *)
Lemma page_in_range (n : Z) :
  1 <= n <= last_page ->
  page object_list per_page (page_value (Some n))
  = inr (n, firstn (Z.to_nat per_page)
              (skipn (Z.to_nat ((n - 1) * per_page)) object_list)).
Proof.
  intros [H1 H2]. unfold page, validate_number. fold last_page.
  destruct (Z.ltb_spec n 1); [lia|].
  destruct (Z.ltb_spec last_page n); [lia|].
  cbv zeta. f_equal. f_equal. unfold slice. fold count_rows.
  set (bottom := (n - 1) * per_page).
  assert (Hb : 0 <= bottom) by (unfold bottom; nia).
  destruct (Z.leb_spec count_rows (bottom + per_page)) as [Hc|Hc].
  - assert (Hlen : List.length (skipn (Z.to_nat bottom) object_list)
                   = Z.to_nat (count_rows - bottom)).
    { rewrite length_skipn. unfold count_rows, Paginator_count. lia. }
    rewrite !firstn_all2; [reflexivity | rewrite Hlen; lia | rewrite Hlen; lia].
  - replace (bottom + per_page - bottom) with per_page by lia. reflexivity.
Qed.

Lemma paginate_number (number : page_number) :
  paginate object_list per_page number
  = page object_list per_page
      (page_value
         (Some match number with
               | page_value (Some k) =>
                   if (1 <=? k) && (k <=? last_page) then k else last_page
               | _ => 1
               end)).
Proof.
  destruct num_pages_bounds as (Hlast & _).
  assert (Hone : exists rows,
             page object_list per_page (page_value (Some 1))
             = inr (1, rows))
    by (eexists; apply page_in_range; lia).
  assert (Hend : exists rows,
             page object_list per_page (page_value (Some last_page))
             = inr (last_page, rows))
    by (eexists; apply page_in_range; lia).
  unfold paginate. fold last_page.
  destruct number as [|[k|]].
  - reflexivity.
  - destruct (Z.leb_spec 1 k) as [H1|H1]; cbn [andb].
    + destruct (Z.leb_spec k last_page) as [H2|H2].
      * rewrite (page_in_range k) by lia. reflexivity.
      * unfold page at 1, validate_number. fold last_page.
        destruct (Z.ltb_spec k 1); [lia|].
        destruct (Z.ltb_spec last_page k); [|lia]. reflexivity.
    + unfold page at 1, validate_number.
      destruct (Z.ltb_spec k 1); [|lia]. reflexivity.
  - reflexivity.
Qed.

Lemma pages_up_to_firstn (k : nat) :
  Z.of_nat k <= last_page ->
  pages_up_to object_list per_page k
  = firstn (k * Z.to_nat per_page) object_list.
Proof.
  induction k as [|k IH]; intros Hk; [reflexivity|].
  cbn [pages_up_to]. rewrite IH by lia.
  rewrite (page_in_range (Z.of_nat (S k))) by lia.
  replace (Z.of_nat (S k) - 1) with (Z.of_nat k) by lia.
  rewrite Z2Nat.inj_mul, Nat2Z.id by lia.
  rewrite <- firstn_plus. f_equal. lia.
Qed.

(** Every page request of a list view is answered with a page. *)
Lemma paginate_shows_a_page (number : page_number) :
  exists n rows,
    paginate object_list per_page number = inr (n, rows)
    /\ 1 <= n <= last_page
    /\ n = match number with
           | page_value (Some k) =>
               if (1 <=? k) && (k <=? last_page) then k else last_page
           | _ => 1
           end
    /\ rows = firstn (Z.to_nat per_page)
                (skipn (Z.to_nat ((n - 1) * per_page)) object_list)
    /\ (List.length rows <= Z.to_nat per_page)%nat
    /\ (object_list <> [] -> rows <> [])
    /\ pages_up_to object_list per_page (Z.to_nat last_page) = object_list.
Proof.
  destruct num_pages_bounds as (Hlast & Hlow & Hhigh).
  set (n := match number with
            | page_value (Some k) =>
                if (1 <=? k) && (k <=? last_page) then k else last_page
            | _ => 1
            end).
  assert (Hn : 1 <= n <= last_page).
  { unfold n. destruct number as [|[k|]]; try lia.
    destruct (Z.leb_spec 1 k), (Z.leb_spec k last_page); cbn [andb]; lia. }
  exists n, (firstn (Z.to_nat per_page)
               (skipn (Z.to_nat ((n - 1) * per_page)) object_list)).
  split; [rewrite paginate_number; apply page_in_range; exact Hn|].
  split; [exact Hn|]. split; [reflexivity|]. split; [reflexivity|].
  split; [apply firstn_le_length|].
  split.
  - intros Hne Hrows. apply (f_equal (@List.length A)) in Hrows.
    rewrite length_firstn, length_skipn in Hrows. simpl in Hrows.
    assert (Hcount : 1 <= count_rows).
    { unfold count_rows, Paginator_count.
      destruct object_list; [contradiction Hne; reflexivity|simpl; lia]. }
    assert (Hbottom : (n - 1) * per_page < count_rows) by nia.
    assert (Hnonneg : 0 <= (n - 1) * per_page) by nia.
    unfold count_rows, Paginator_count in Hbottom. lia.
  - rewrite pages_up_to_firstn by lia.
    apply firstn_all2.
    assert (Hall : count_rows <= last_page * per_page) by lia.
    unfold count_rows, Paginator_count in Hall.
    assert (Heq : (Z.to_nat last_page * Z.to_nat per_page)%nat
                  = Z.to_nat (last_page * per_page))
      by (rewrite Z2Nat.inj_mul by lia; reflexivity).
    rewrite Heq. lia.
Qed.

End Pages.

(** X26. Paging of the inventory list and of the dispense history.
    Whatever the page parameter holds, the view shows a page and raises
    nothing: the page asked for when its number is between 1 and the last
    page, the first page when the parameter is missing or no integer, the
    last page when the number is 0, negative or past the end.  The page
    holds at most [per_page] rows, at least one unless there are no rows at
    all, and the pages from the first to the last, one after the other,
    are the whole list: every row is on exactly one page. *)
Theorem list_views_always_show_a_page {A : Type} (object_list : list A)
    (per_page : Z) (number : page_number) :
  0 < per_page ->
  let last_page := num_pages object_list per_page in
  exists n rows,
    paginate object_list per_page number = inr (n, rows)
    /\ 1 <= n <= last_page
    /\ n = match number with
           | page_value (Some k) =>
               if (1 <=? k) && (k <=? last_page) then k else last_page
           | _ => 1
           end
    /\ rows = firstn (Z.to_nat per_page)
                (skipn (Z.to_nat ((n - 1) * per_page)) object_list)
    /\ (List.length rows <= Z.to_nat per_page)%nat
    /\ (object_list <> [] -> rows <> [])
    /\ pages_up_to object_list per_page (Z.to_nat last_page) = object_list.
Proof.
  intros Hpos. cbv zeta. apply paginate_shows_a_page. exact Hpos.
Qed.

Lemma list_views_always_show_a_page_witness :
  exists rows,
    paginate crowded_ledger 5 (page_value (Some 0)) = inr (3, rows)
    /\ List.length rows = 1%nat.
Proof.
  destruct (list_views_always_show_a_page crowded_ledger 5
              (page_value (Some 0)) eq_refl)
    as (n & rows & Hrun & _ & Hn & Hrows & _).
  exists rows. split.
  - rewrite Hrun, Hn. reflexivity.
  - rewrite Hrows, Hn. reflexivity.
Defined.
